(** * The embedding service core: model cache, name mapper, orchestrator

    A shallow embedding of
    - [app/services/model_manager.py]   (class [ModelManager]) and
    - [app/services/embedding_service.py] (class [EmbeddingService]),
    with the settings of [app/config/settings.py] as a record, and of
    their callers: the endpoints of [app/routes/embeddings.py] and
    [app/routes/health.py], the validators of [app/models/embedding.py],
    [Settings.supported_models_list] and the origins of
    [app/middleware/cors.py].

    Python values are modelled as follows.  An [int] is a [Z].  A [str] is a
    [string] whose characters are code points below 256.  A [dict] is an
    association list in insertion order (Python dicts keep it, and the
    eviction of [_cleanup_cache] depends on it).  A raised exception is the
    [Raise] result of a state-and-exception monad: the state written before
    the [raise] stays written, as in Python.  The model provider
    ([sentence_transformers], [torch]) is outside the repository: what it
    answers during one call of [load_model] is an explicit argument, a
    [LoadEnv], so that a statement about every provider quantifies over
    every [LoadEnv]. *)

From Stdlib Require Import ZArith List String Ascii Bool Lia.
Import ListNotations.

Local Open Scope string_scope.
Local Open Scope Z_scope.

Set Implicit Arguments.

(* ================================================================== *)
(** ** Python strings and slices *)

Module PyStr.

(** [len(s)] *)
Definition len (s : string) : Z := Z.of_nat (String.length s).

(** Truthiness of a [str]: the empty string is falsy. *)
Definition truthy (s : string) : bool :=
  match s with EmptyString => false | String _ _ => true end.

(** [c.lower()] on a code point below 256: the ASCII capitals and the
    Latin-1 capitals (all of 0xC0..0xDE but the sign 0xD7) move by 32. *)
Definition lower_char (c : ascii) : ascii :=
  let n := nat_of_ascii c in
  if ((65 <=? n) && (n <=? 90)
      || (192 <=? n) && (n <=? 222) && negb (n =? 215))%nat
  then ascii_of_nat (n + 32) else c.

(** [s.lower()] *)
Fixpoint lower (s : string) : string :=
  match s with
  | EmptyString => EmptyString
  | String c s' => String (lower_char c) (lower s')
  end.

(** [pat in s]: [pat] occurs in [s] as a substring. *)
Fixpoint contains (pat s : string) : bool :=
  String.prefix pat s
  || match s with
     | EmptyString => false
     | String _ s' => contains pat s'
     end.

(** The first [n] characters of [s] (all of [s] when it is shorter). *)
Fixpoint take (n : nat) (s : string) : string :=
  match n, s with
  | O, _ => EmptyString
  | S _, EmptyString => EmptyString
  | S n', String c s' => String c (take n' s')
  end.

(** A slice bound as Python clamps it: a negative bound counts from the
    end, and the result is kept within [0 .. n]. *)
Definition clamp (n k : Z) : Z :=
  if k <? 0 then Z.max (k + n) 0 else Z.min k n.

(** [s[:stop]] *)
Definition slice_to (s : string) (stop : Z) : string :=
  take (Z.to_nat (clamp (len s) stop)) s.

End PyStr.

(** [l[i:j]] on a list. *)
Definition py_slice {A : Type} (l : list A) (i j : Z) : list A :=
  let n := Z.of_nat (List.length l) in
  let i' := PyStr.clamp n i in
  let j' := PyStr.clamp n j in
  firstn (Z.to_nat (j' - i')) (skipn (Z.to_nat i') l).

(* ================================================================== *)
(** ** Python dicts with [str] keys, in insertion order *)

Module PyDict.
Section Dict.

Variable V : Type.

Definition dict : Type := list (string * V).

(** [list(d.keys())] *)
Definition keys (d : dict) : list string := map fst d.

(** [len(d)] *)
Definition len (d : dict) : Z := Z.of_nat (List.length d).

(** [d.get(k)] *)
Fixpoint get (k : string) (d : dict) : option V :=
  match d with
  | [] => None
  | (k', v) :: d' => if String.eqb k k' then Some v else get k d'
  end.

(** [k in d] *)
Definition mem (k : string) (d : dict) : bool :=
  match get k d with Some _ => true | None => false end.

(** [d[k] = v]: an existing key keeps its position, a new key goes to
    the end. *)
Fixpoint set (k : string) (v : V) (d : dict) : dict :=
  match d with
  | [] => [(k, v)]
  | (k', v') :: d' =>
      if String.eqb k k' then (k', v) :: d' else (k', v') :: set k v d'
  end.

(** [del d[k]], used by the source only on a key that is present. *)
Definition del (k : string) (d : dict) : dict :=
  filter (fun kv => negb (String.eqb k (fst kv))) d.

End Dict.
End PyDict.

Arguments PyDict.get {V} k d.
Arguments PyDict.mem {V} k d.
Arguments PyDict.set {V} k v d.
Arguments PyDict.del {V} k d.
Arguments PyDict.keys {V} d.
Arguments PyDict.len {V} d.

(* ================================================================== *)
(** ** Exceptions and the state-and-exception monad *)

(** The exception classes the two services tell apart, and one constructor
    for every other subclass of [Exception]. *)
Inductive Exn : Type :=
| ImportError (msg : string)
| OSError (msg : string)
| ValueError (msg : string)
| OtherError (msg : string).

Inductive Result (A : Type) : Type :=
| Ok (a : A)
| Raise (e : Exn).
Arguments Ok {A} a.
Arguments Raise {A} e.

Definition is_ok {A : Type} (r : Result A) : bool :=
  match r with Ok _ => true | Raise _ => false end.

Section Monad.

Variable S : Type.

Definition M (A : Type) : Type := S -> Result A * S.

Definition ret {A : Type} (a : A) : M A := fun s => (Ok a, s).

Definition raise {A : Type} (e : Exn) : M A := fun s => (Raise e, s).

Definition bind {A B : Type} (m : M A) (f : A -> M B) : M B :=
  fun s =>
    match m s with
    | (Ok a, s') => f a s'
    | (Raise e, s') => (Raise e, s')
    end.

(** [try: m  except Exception as e: h e] *)
Definition try_except {A : Type} (m : M A) (h : Exn -> M A) : M A :=
  fun s =>
    match m s with
    | (Ok a, s') => (Ok a, s')
    | (Raise e, s') => h e s'
    end.

(** An answer of the outside world, which either is a value or raises. *)
Definition lift {A : Type} (r : Result A) : M A := fun s => (r, s).

Definition get_state : M S := fun s => (Ok s, s).

Definition modify (f : S -> S) : M unit := fun s => (Ok tt, f s).

Definition when (b : bool) (m : M unit) : M unit :=
  if b then m else ret tt.

End Monad.

Arguments ret {S A} a.
Arguments raise {S A} e.
Arguments bind {S A B} m f.
Arguments try_except {S A} m h.
Arguments lift {S A} r.
Arguments get_state {S}.
Arguments modify {S} f.
Arguments when {S} b m.

Declare Scope py_scope.
Delimit Scope py_scope with py.
Notation "x <- m ;; k" := (bind m (fun x => k))
  (at level 100, m at next level, right associativity) : py_scope.
Notation "m ;;; k" := (bind m (fun _ => k))
  (at level 100, right associativity) : py_scope.
Local Open Scope py_scope.

(* ================================================================== *)
(** ** [app/config/settings.py] *)

Record Settings : Type := {
  EMBEDDING_MODEL : string;
  DEVICE : string;
  BATCH_SIZE : Z;
  MAX_TEXT_LENGTH : Z;
  MODEL_CACHE_SIZE : Z
}.

(** The defaults of class [Settings]. *)
Definition default_settings : Settings :=
  {| EMBEDDING_MODEL := "all-MiniLM-L6-v2";
     DEVICE := "cpu";
     BATCH_SIZE := 32;
     MAX_TEXT_LENGTH := 512;
     MODEL_CACHE_SIZE := 1 |}.

(* ================================================================== *)
(** ** The model provider *)

(** A loaded [SentenceTransformer] object, by identity. *)
Definition Handle : Type := nat.

(** What the provider answers during one call of [get_model] or
    [load_model].  Every answer may be an exception. *)
Record LoadEnv : Type := {
  (** what a first [from sentence_transformers import ...] raises *)
  import_sentence_transformers : option Exn;
  (** what a first [import torch] raises *)
  import_torch : option Exn;
  (** [torch.cuda.is_available()] *)
  cuda_is_available : Result bool;
  (** [SentenceTransformer(model_name, device=device)] *)
  SentenceTransformer : string -> string -> Result Handle;
  (** [model.get_sentence_embedding_dimension()] *)
  get_sentence_embedding_dimension : Handle -> Result Z;
  (** [model.max_seq_length] *)
  max_seq_length : Handle -> Result Z
}.

(* ================================================================== *)
(** ** [app/services/model_manager.py] *)

(** The values of [ModelManager.model_info]. *)
Record ModelInfo : Type := {
  info_name : string;
  info_dimensions : Z;
  info_max_sequence_length : Z;
  info_device : string
}.

Record ModelManager : Type := {
  models : PyDict.dict Handle;
  model_info : PyDict.dict ModelInfo;
  max_cache_size : Z;
  device : string
}.

(** The Python process: the module-level [model_manager], the two entries
    of [sys.modules] that the lazy imports fill, and the trace of the
    constructor calls made so far (the loads), latest last. *)
Record Process : Type := {
  model_manager : ModelManager;
  sentence_transformers_imported : bool;
  torch_imported : bool;
  constructed : list (string * string)
}.

Definition with_models (f : PyDict.dict Handle -> PyDict.dict Handle)
    (p : Process) : Process :=
  {| model_manager :=
       {| models := f (models (model_manager p));
          model_info := model_info (model_manager p);
          max_cache_size := max_cache_size (model_manager p);
          device := device (model_manager p) |};
     sentence_transformers_imported := sentence_transformers_imported p;
     torch_imported := torch_imported p;
     constructed := constructed p |}.

Definition with_model_info
    (f : PyDict.dict ModelInfo -> PyDict.dict ModelInfo)
    (p : Process) : Process :=
  {| model_manager :=
       {| models := models (model_manager p);
          model_info := f (model_info (model_manager p));
          max_cache_size := max_cache_size (model_manager p);
          device := device (model_manager p) |};
     sentence_transformers_imported := sentence_transformers_imported p;
     torch_imported := torch_imported p;
     constructed := constructed p |}.

Definition with_device (d : string) (p : Process) : Process :=
  {| model_manager :=
       {| models := models (model_manager p);
          model_info := model_info (model_manager p);
          max_cache_size := max_cache_size (model_manager p);
          device := d |};
     sentence_transformers_imported := sentence_transformers_imported p;
     torch_imported := torch_imported p;
     constructed := constructed p |}.

Definition with_imports (st torch : bool) (p : Process) : Process :=
  {| model_manager := model_manager p;
     sentence_transformers_imported := st;
     torch_imported := torch;
     constructed := constructed p |}.

Definition with_constructed (name dev : string) (p : Process) : Process :=
  {| model_manager := model_manager p;
     sentence_transformers_imported := sentence_transformers_imported p;
     torch_imported := torch_imported p;
     constructed := constructed p ++ [(name, dev)] |}.

(** [x or d] for an optional string [x]: [None] and the empty string are
    falsy. *)
Definition or_default (x : option string) (d : string) : string :=
  match x with
  | Some s => if PyStr.truthy s then s else d
  | None => d
  end.

Definition nl : string := String (ascii_of_nat 10) EmptyString.

Definition not_installed_msg : string :=
  "sentence-transformers is not installed. Install it with: pip install sentence-transformers".

Definition dll_msg (original : string) : string :=
  "PyTorch DLL initialization failed. This is a Windows compatibility issue." ++ nl ++
  "Solutions:" ++ nl ++
  "1. Install Visual C++ Redistributables: https://aka.ms/vs/17/release/vc_redist.x64.exe" ++ nl ++
  "2. Use Python 3.11 or 3.12 instead of 3.14" ++ nl ++
  "3. Restart your computer after installing Visual C++ Redistributables" ++ nl ++
  "Original error: " ++ original.

Section Service.

Variable settings : Settings.

(** [ModelManager.__init__] *)
Definition ModelManager_init : ModelManager :=
  {| models := [];
     model_info := [];
     max_cache_size := MODEL_CACHE_SIZE settings;
     device := DEVICE settings |}.

(** The process right after the modules are loaded: nothing cached,
    nothing imported lazily, no model constructed. *)
Definition initial_process : Process :=
  {| model_manager := ModelManager_init;
     sentence_transformers_imported := false;
     torch_imported := false;
     constructed := [] |}.

(** [from sentence_transformers import SentenceTransformer]: a module
    already in [sys.modules] is not loaded again. *)
Definition lazy_import_sentence_transformers (env : LoadEnv)
    : M Process unit :=
  p <- get_state ;;
  if sentence_transformers_imported p then ret tt
  else match import_sentence_transformers env with
       | None => modify (with_imports true (torch_imported p))
       | Some e => raise e
       end.

(** [import torch] *)
Definition lazy_import_torch (env : LoadEnv) : M Process unit :=
  p <- get_state ;;
  if torch_imported p then ret tt
  else match import_torch env with
       | None =>
           modify (with_imports (sentence_transformers_imported p) true)
       | Some e => raise e
       end.

(** The constructor call, which the trace records. *)
Definition call_SentenceTransformer (env : LoadEnv)
    (model_name dev : string) : M Process Handle :=
  modify (with_constructed model_name dev) ;;;
  lift (SentenceTransformer env model_name dev).

(** [ModelManager._cleanup_cache] *)
Definition _cleanup_cache : M Process unit :=
  p <- get_state ;;
  when (PyDict.len (models (model_manager p)) >? 0)
    (match PyDict.keys (models (model_manager p)) with
     | [] => raise (OtherError "IndexError")
     | oldest_model :: _ =>
         modify (with_models (PyDict.del oldest_model)) ;;;
         p <- get_state ;;
         when (PyDict.mem oldest_model (model_info (model_manager p)))
           (modify (with_model_info (PyDict.del oldest_model)))
     end).

(** [ModelManager.load_model], lines 53-59: the first [try]. *)
Definition load_model_import_sentence_transformers (env : LoadEnv)
    : M Process unit :=
  try_except (lazy_import_sentence_transformers env)
    (fun e => match e with
              | ImportError _ => raise (ImportError not_installed_msg)
              | _ => raise e
              end).

(** [ModelManager.load_model], lines 61-75: the second [try]. *)
Definition load_model_import_torch (env : LoadEnv) : M Process unit :=
  try_except (lazy_import_torch env)
    (fun e => match e with
              | OSError m =>
                  if PyStr.contains "DLL" m || PyStr.contains "c10.dll" m
                  then raise (OSError (dll_msg m))
                  else raise e
              | _ => raise e
              end).

(** [ModelManager.load_model], lines 77-113: the third [try], which logs
    and raises again whatever is raised inside it. *)
Definition load_model_try (env : LoadEnv) (model_name : string)
    : M Process Handle :=
  try_except
    (p <- get_state ;;
     (if String.eqb (device (model_manager p)) "cuda"
      then available <- lift (cuda_is_available env) ;;
           when (negb available) (modify (with_device "cpu"))
      else ret tt) ;;;
     p <- get_state ;;
     model <- call_SentenceTransformer env model_name
                (device (model_manager p)) ;;
     modify (with_models (PyDict.set model_name model)) ;;;
     dimensions <- lift (get_sentence_embedding_dimension env model) ;;
     max_sequence_length <- lift (max_seq_length env model) ;;
     p <- get_state ;;
     modify (with_model_info
               (PyDict.set model_name
                  {| info_name := model_name;
                     info_dimensions := dimensions;
                     info_max_sequence_length := max_sequence_length;
                     info_device := device (model_manager p) |})) ;;;
     p <- get_state ;;
     when (PyDict.len (models (model_manager p))
             >? max_cache_size (model_manager p))
       _cleanup_cache ;;;
     ret model)
    (fun e => raise e).

(** [ModelManager.load_model]: its three [try] statements in sequence. *)
Definition load_model (env : LoadEnv) (model_name : string)
    : M Process Handle :=
  load_model_import_sentence_transformers env ;;;
  load_model_import_torch env ;;;
  load_model_try env model_name.

(** [ModelManager.get_model] *)
Definition get_model (env : LoadEnv) (model_name : option string)
    : M Process Handle :=
  lazy_import_sentence_transformers env ;;;
  let model_name := or_default model_name (EMBEDDING_MODEL settings) in
  p <- get_state ;;
  match PyDict.get model_name (models (model_manager p)) with
  | Some model => ret model
  | None => load_model env model_name
  end.

(** [ModelManager.get_model_info] *)
Definition get_model_info (model_name : option string) (p : Process)
    : option ModelInfo :=
  PyDict.get (or_default model_name (EMBEDDING_MODEL settings))
    (model_info (model_manager p)).

(** [ModelManager.unload_model] *)
Definition unload_model (model_name : string) : M Process bool :=
  p <- get_state ;;
  if PyDict.mem model_name (models (model_manager p)) then
    modify (with_models (PyDict.del model_name)) ;;;
    p <- get_state ;;
    when (PyDict.mem model_name (model_info (model_manager p)))
      (modify (with_model_info (PyDict.del model_name))) ;;;
    ret true
  else ret false.

(** [ModelManager.list_loaded_models] *)
Definition list_loaded_models (p : Process) : list string :=
  PyDict.keys (models (model_manager p)).

End Service.


(* ================================================================== *)
(** ** [app/services/embedding_service.py] *)

(** [range(start, stop, step)] as the list of its elements. *)
Definition py_range (start stop step : Z) : Result (list Z) :=
  if step =? 0 then Raise (ValueError "range() arg 3 must not be zero")
  else
    let n := if step >? 0
             then (stop - start + step - 1) / step
             else (start - stop - step - 1) / (- step) in
    Ok (map (fun k => start + Z.of_nat k * step) (seq 0 (Z.to_nat n))).

Record EmbeddingService : Type := {
  default_model_name : string;
  batch_size : Z;
  max_text_length : Z;
  model_name_map : PyDict.dict string;
  model_dimensions : PyDict.dict Z
}.

(** The substrings that mark a name as one of sentence-transformers. *)
Definition sentence_transformers_patterns : list string :=
  ["all-minilm"; "all-mpnet"; "paraphrase"; "sentence-transformers"].

(** [EmbeddingService._map_model_name] *)
Definition _map_model_name (self : EmbeddingService)
    (model_name : option string) : string :=
  match model_name with
  | None => default_model_name self
  | Some name =>
      if negb (PyStr.truthy name) then default_model_name self
      else if existsb (fun pattern => PyStr.contains pattern (PyStr.lower name))
                sentence_transformers_patterns
      then name
      else match PyDict.get (PyStr.lower name) (model_name_map self) with
           | Some mapped => if PyStr.truthy mapped then mapped else name
           | None => name
           end
  end.

(** The truncation of one text, lines 112-114 and 176-180. *)
Definition truncate_text (self : EmbeddingService) (text : string) : string :=
  if PyStr.len text >? max_text_length self
  then PyStr.slice_to text (max_text_length self)
  else text.

Section Embedding.

Variable settings : Settings.

(** The components of an embedding vector (Python floats). *)
Variable F : Type.

(** [model.encode(text, normalize_embeddings=normalize,
    convert_to_numpy=True).tolist()] for one text. *)
Variable encode_text : Handle -> bool -> string -> Result (list F).

(** [model.encode(batch, normalize_embeddings=normalize,
    convert_to_numpy=True, batch_size=batch_size,
    show_progress_bar=False).tolist()] for a list of texts. *)
Variable encode_list
  : Handle -> bool -> Z -> list string -> Result (list (list F)).

(** [EmbeddingService.__init__] *)
Definition EmbeddingService_init : EmbeddingService :=
  {| default_model_name := EMBEDDING_MODEL settings;
     batch_size := BATCH_SIZE settings;
     max_text_length := MAX_TEXT_LENGTH settings;
     model_name_map :=
       [("text-embedding-3-small", "all-MiniLM-L6-v2");
        ("text-embedding-3-large", "all-mpnet-base-v2");
        ("text-embedding-ada-002", "all-MiniLM-L6-v2");
        ("text-embedding", "all-MiniLM-L6-v2")];
     model_dimensions :=
       [("all-MiniLM-L6-v2", 384);
        ("all-mpnet-base-v2", 768);
        ("all-MiniLM-L12-v2", 384);
        ("paraphrase-multilingual-MiniLM-L12-v2", 384)] |}.

(** Lines 95-109 of [generate_embedding], which lines 157-171 of
    [generate_embeddings_batch] repeat: get the mapped model, and on any
    exception get the default one unless the mapped one is the default.
    [env] is the provider during the first [get_model], [env'] during the
    second.  The result is the model and the name it was got under. *)
Definition get_model_or_default (self : EmbeddingService)
    (env env' : LoadEnv) (mapped_model_name : string)
    : M Process (Handle * string) :=
  try_except
    (model <- get_model settings env (Some mapped_model_name) ;;
     ret (model, mapped_model_name))
    (fun e =>
       if negb (String.eqb mapped_model_name (default_model_name self)) then
         let mapped_model_name := default_model_name self in
         model <- get_model settings env' (Some mapped_model_name) ;;
         ret (model, mapped_model_name)
       else raise e).

(** [EmbeddingService.generate_embedding] *)
Definition generate_embedding (self : EmbeddingService)
    (env env' : LoadEnv)
    (text : string) (model_name : option string) (normalize : bool)
    : M Process (list F * string * Z) :=
  let mapped_model_name := _map_model_name self model_name in
  got <- get_model_or_default self env env' mapped_model_name ;;
  let model := fst got in
  let model_name := snd got in
  let text := truncate_text self text in
  try_except
    (embedding_list <- lift (encode_text model normalize text) ;;
     let dimensions := Z.of_nat (List.length embedding_list) in
     ret (embedding_list, model_name, dimensions))
    (fun e => raise e).

(** The loop of lines 186-199: one [encode] per start index, the results
    appended to [all_embeddings] in the order of the indices. *)
Fixpoint encode_batches (self : EmbeddingService) (model : Handle)
    (normalize : bool) (processed_texts : list string)
    (starts : list Z) (all_embeddings : list (list F))
    : Result (list (list F)) :=
  match starts with
  | [] => Ok all_embeddings
  | i :: starts' =>
      let batch := py_slice processed_texts i (i + batch_size self) in
      match encode_list model normalize (batch_size self) batch with
      | Ok batch_embeddings =>
          encode_batches self model normalize processed_texts starts'
            (all_embeddings ++ batch_embeddings)
      | Raise e => Raise e
      end
  end.

(** [EmbeddingService.generate_embeddings_batch] *)
Definition generate_embeddings_batch (self : EmbeddingService)
    (env env' : LoadEnv)
    (texts : list string) (model_name : option string) (normalize : bool)
    : M Process (list (list F) * string * Z) :=
  match texts with
  | [] => raise (ValueError "Texts list cannot be empty")
  | _ :: _ =>
      let mapped_model_name := _map_model_name self model_name in
      got <- get_model_or_default self env env' mapped_model_name ;;
      let model := fst got in
      let model_name := snd got in
      let processed_texts := map (truncate_text self) texts in
      try_except
        (starts <- lift (py_range 0 (Z.of_nat (List.length processed_texts))
                           (batch_size self)) ;;
         all_embeddings <- lift (encode_batches self model normalize
                                   processed_texts starts []) ;;
         let dimensions :=
           match all_embeddings with
           | first :: _ => Z.of_nat (List.length first)
           | [] => 0
           end in
         ret (all_embeddings, model_name, dimensions))
        (fun e => raise e)
  end.

End Embedding.


(* ================================================================== *)
(** ** Sequences of cache operations, and what the properties speak of *)

(** One call of a method of [ModelManager] that writes the cache. *)
Inductive Op : Type :=
| OpGetModel (env : LoadEnv) (model_name : option string)
| OpLoadModel (env : LoadEnv) (model_name : string)
| OpCleanupCache
| OpUnloadModel (model_name : string).

(** The process after one call, whether the call returned or raised. *)
Definition step (settings : Settings) (op : Op) (p : Process) : Process :=
  match op with
  | OpGetModel env model_name => snd (get_model settings env model_name p)
  | OpLoadModel env model_name => snd (load_model env model_name p)
  | OpCleanupCache => snd (_cleanup_cache p)
  | OpUnloadModel model_name => snd (unload_model model_name p)
  end.

Definition run (settings : Settings) (ops : list Op) (p : Process)
    : Process :=
  fold_left (fun q op => step settings op q) ops p.

(** A sequence of [get_model] calls: the results in order, and the process
    after the last one. *)
Fixpoint get_models (settings : Settings)
    (calls : list (LoadEnv * option string)) (p : Process)
    : list (Result Handle) * Process :=
  match calls with
  | [] => ([], p)
  | (env, model_name) :: calls' =>
      let (r, p') := get_model settings env model_name p in
      let (rs, p'') := get_models settings calls' p' in
      (r :: rs, p'')
  end.

(** The name a [get_model] call looks up. *)
Definition requested (settings : Settings)
    (call : LoadEnv * option string) : string :=
  or_default (snd call) (EMBEDDING_MODEL settings).

(** [len(self.models)] *)
Definition cache_size (p : Process) : Z :=
  PyDict.len (models (model_manager p)).

(** Every key of [model_info] is a key of [models]. *)
Definition metadata_cached (p : Process) : Prop :=
  forall k : string,
    PyDict.mem k (model_info (model_manager p)) = true ->
    PyDict.mem k (models (model_manager p)) = true.

(** A cached model was constructed, so its module was imported. *)
Definition imports_consistent (p : Process) : Prop :=
  models (model_manager p) <> [] -> sentence_transformers_imported p = true.

(** A provider whose model objects answer both metadata queries. *)
Definition metadata_total (env : LoadEnv) : Prop :=
  forall h : Handle,
    is_ok (get_sentence_embedding_dimension env h) = true /\
    is_ok (max_seq_length env h) = true.

(** The dict after [_cleanup_cache] has run on it. *)
Definition evict_oldest {V : Type} (d : PyDict.dict V) : PyDict.dict V :=
  match PyDict.keys d with
  | [] => d
  | oldest :: _ => PyDict.del oldest d
  end.

(** [model_info] after [_cleanup_cache] has run, [ms] being [models]
    before it. *)
Definition evict_oldest_info (ms : PyDict.dict Handle)
    (info : PyDict.dict ModelInfo) : PyDict.dict ModelInfo :=
  match PyDict.keys ms with
  | [] => info
  | oldest :: _ =>
      if PyDict.mem oldest info then PyDict.del oldest info else info
  end.

(** The three ways a call of [load_model] ends, for the cache. *)
Inductive load_outcome (env : LoadEnv) (model_name : string) (p : Process)
    : Result Handle -> Process -> Prop :=
| load_raised_before_insertion (e : Exn) (p' : Process) :
    models (model_manager p') = models (model_manager p) ->
    model_info (model_manager p') = model_info (model_manager p) ->
    (sentence_transformers_imported p = true ->
     sentence_transformers_imported p' = true) ->
    load_outcome env model_name p (Raise e) p'
| load_raised_after_insertion (e : Exn) (h : Handle) (p' : Process) :
    SentenceTransformer env model_name (device (model_manager p')) = Ok h ->
    (get_sentence_embedding_dimension env h = Raise e \/
     max_seq_length env h = Raise e) ->
    models (model_manager p')
      = PyDict.set model_name h (models (model_manager p)) ->
    model_info (model_manager p') = model_info (model_manager p) ->
    sentence_transformers_imported p' = true ->
    load_outcome env model_name p (Raise e) p'
| load_returned (h : Handle) (i : ModelInfo) (p' : Process) :
    SentenceTransformer env model_name (device (model_manager p')) = Ok h ->
    models (model_manager p')
      = (let ms := PyDict.set model_name h (models (model_manager p)) in
         if PyDict.len ms >? max_cache_size (model_manager p)
         then evict_oldest ms else ms) ->
    model_info (model_manager p')
      = (let ms := PyDict.set model_name h (models (model_manager p)) in
         let info := PyDict.set model_name i (model_info (model_manager p)) in
         if PyDict.len ms >? max_cache_size (model_manager p)
         then evict_oldest_info ms info else info) ->
    sentence_transformers_imported p' = true ->
    constructed p'
      = (constructed p ++ [(model_name, device (model_manager p'))])%list ->
    load_outcome env model_name p (Ok h) p'.

(** The last [k] elements of a list. *)
Definition last_n {A : Type} (k : nat) (l : list A) : list A :=
  skipn (List.length l - k) l.

(** Following the spec's words on truncation: a text longer than
    [max_length] is its first [max_length] characters, any other text is
    itself. *)
Definition spec_truncate (max_length : Z) (text : string) : string :=
  if PyStr.len text >? max_length
  then PyStr.take (Z.to_nat max_length) text
  else text.

(** The result of [generate_embedding] once [model] was got under
    [model_name], when [text] is what reaches the encoder. *)
Definition encoded_one {F : Type}
    (encode_text : Handle -> bool -> string -> Result (list F))
    (model : Handle) (model_name : string) (normalize : bool)
    (text : string) : Result (list F * string * Z) :=
  match encode_text model normalize text with
  | Ok v => Ok (v, model_name, Z.of_nat (List.length v))
  | Raise e => Raise e
  end.

(** [len(all_embeddings[0]) if all_embeddings else 0] *)
Definition first_dimensions {F : Type} (vs : list (list F)) : Z :=
  match vs with
  | first :: _ => Z.of_nat (List.length first)
  | [] => 0
  end.

(** An encoder of lists that answers position by position with the
    embedding [embed] of each text. *)
Definition positional {F : Type}
    (encode_list : Handle -> bool -> Z -> list string -> Result (list (list F)))
    (embed : Handle -> bool -> string -> list F) : Prop :=
  forall h normalize bs texts,
    encode_list h normalize bs texts = Ok (map (embed h normalize) texts).

(** The result of [generate_embeddings_batch] once [model] was got under
    [model_name], when [processed_texts] is what reaches the loop of
    lines 182-210. *)
Definition encoded_many {F : Type}
    (encode_list : Handle -> bool -> Z -> list string -> Result (list (list F)))
    (self : EmbeddingService) (model : Handle) (model_name : string)
    (normalize : bool) (processed_texts : list string)
    : Result (list (list F) * string * Z) :=
  match py_range 0 (Z.of_nat (List.length processed_texts))
          (batch_size self) with
  | Ok starts =>
      match encode_batches encode_list self model normalize
              processed_texts starts [] with
      | Ok all_embeddings =>
          Ok (all_embeddings, model_name, first_dimensions all_embeddings)
      | Raise e => Raise e
      end
  | Raise e => Raise e
  end.

(** *** Three properties as the specification words them, which hold for
    some configurations and providers only *)

(** Truncation, for the service configured by [settings]: whenever a model
    is got, what [generate_embedding] encodes is [spec_truncate] of the
    text, and what [generate_embeddings_batch] encodes is the
    [spec_truncate] of every text, in order. *)
Definition truncation_property (settings : Settings) : Prop :=
  let self := EmbeddingService_init settings in
  forall (F : Type)
         (encode_text : Handle -> bool -> string -> Result (list F))
         (encode_list
            : Handle -> bool -> Z -> list string -> Result (list (list F)))
         env env' model_name normalize p model name p',
    get_model_or_default settings self env env'
      (_map_model_name self model_name) p = (Ok (model, name), p') ->
    (forall text,
       generate_embedding settings encode_text self env env'
         text model_name normalize p
       = (encoded_one encode_text model name normalize
            (spec_truncate (MAX_TEXT_LENGTH settings) text), p')) /\
    (forall texts, texts <> [] ->
       generate_embeddings_batch settings encode_list self env env'
         texts model_name normalize p
       = (encoded_many encode_list self model name normalize
            (map (spec_truncate (MAX_TEXT_LENGTH settings)) texts), p')).

(** Batch order, for the service configured by [settings]: with a
    positional encoder and a model got under [name], a non-empty batch
    returns one vector per text, the i-th being the embedding of the i-th
    truncated text. *)
Definition batch_order_property (settings : Settings) : Prop :=
  let self := EmbeddingService_init settings in
  forall (F : Type) encode_list (embed : Handle -> bool -> string -> list F)
         env env' texts model_name normalize p model name p',
    positional encode_list embed ->
    texts <> [] ->
    get_model_or_default settings self env env'
      (_map_model_name self model_name) p = (Ok (model, name), p') ->
    exists vectors dimensions,
      generate_embeddings_batch settings encode_list self env env'
        texts model_name normalize p
      = (Ok (vectors, name, dimensions), p') /\
      List.length vectors = List.length texts /\
      forall i t, nth_error texts i = Some t ->
        nth_error vectors i
        = Some (embed model normalize (truncate_text self t)).

(** Fallback, for the service configured by [settings] and a request whose
    mapped model fails to load: a mapped name other than the default makes
    the call succeed under the default's name; the default itself makes it
    fail with the exception of the load, the process being the one that
    this single failed load left. *)
Definition fallback_property (settings : Settings) : Prop :=
  let self := EmbeddingService_init settings in
  forall (F : Type)
         (encode_text : Handle -> bool -> string -> Result (list F))
         (encode_list
            : Handle -> bool -> Z -> list string -> Result (list (list F)))
         env env' model_name normalize p e p1,
    get_model settings env (Some (_map_model_name self model_name)) p
      = (Raise e, p1) ->
    (_map_model_name self model_name <> EMBEDDING_MODEL settings ->
     (forall text, exists v d p2,
        generate_embedding settings encode_text self env env'
          text model_name normalize p
        = (Ok (v, EMBEDDING_MODEL settings, d), p2)) /\
     (forall texts, texts <> [] -> exists vs d p2,
        generate_embeddings_batch settings encode_list self env env'
          texts model_name normalize p
        = (Ok (vs, EMBEDDING_MODEL settings, d), p2))) /\
    (_map_model_name self model_name = EMBEDDING_MODEL settings ->
     (forall text,
        generate_embedding settings encode_text self env env'
          text model_name normalize p
        = (Raise e, p1)) /\
     (forall texts, texts <> [] ->
        generate_embeddings_batch settings encode_list self env env'
          texts model_name normalize p
        = (Raise e, p1))).

(** *** Concrete providers and configurations for the examples *)

(** Every import and every load succeeds; the handle of a model is the
    length of its name. *)
Definition provider_ok : LoadEnv :=
  {| import_sentence_transformers := None;
     import_torch := None;
     cuda_is_available := Ok false;
     SentenceTransformer := fun model_name _ => Ok (String.length model_name);
     get_sentence_embedding_dimension := fun _ => Ok 384;
     max_seq_length := fun _ => Ok 256 |}.

(** The constructor knows no model. *)
Definition provider_unknown_model : LoadEnv :=
  {| import_sentence_transformers := None;
     import_torch := None;
     cuda_is_available := Ok false;
     SentenceTransformer := fun _ _ => Raise (OtherError "model not found");
     get_sentence_embedding_dimension := fun _ => Ok 384;
     max_seq_length := fun _ => Ok 256 |}.

(** The constructor returns a model object whose [max_seq_length] raises. *)
Definition provider_broken_metadata : LoadEnv :=
  {| import_sentence_transformers := None;
     import_torch := None;
     cuda_is_available := Ok false;
     SentenceTransformer := fun model_name _ => Ok (String.length model_name);
     get_sentence_embedding_dimension := fun _ => Ok 768;
     max_seq_length := fun _ => Raise (OtherError "max_seq_length") |}.

(** An embedding of two components: the handle and the length of the
    text. *)
Definition embed_length (h : Handle) (normalize : bool) (text : string)
    : list Z :=
  [Z.of_nat h; PyStr.len text].

Definition encode_text_length (h : Handle) (normalize : bool)
    (text : string) : Result (list Z) :=
  Ok (embed_length h normalize text).

Definition encode_list_length (h : Handle) (normalize : bool) (bs : Z)
    (texts : list string) : Result (list (list Z)) :=
  Ok (map (embed_length h normalize) texts).

Definition with_batch_size (n : Z) (s : Settings) : Settings :=
  {| EMBEDDING_MODEL := EMBEDDING_MODEL s;
     DEVICE := DEVICE s;
     BATCH_SIZE := n;
     MAX_TEXT_LENGTH := MAX_TEXT_LENGTH s;
     MODEL_CACHE_SIZE := MODEL_CACHE_SIZE s |}.

Definition with_max_text_length (n : Z) (s : Settings) : Settings :=
  {| EMBEDDING_MODEL := EMBEDDING_MODEL s;
     DEVICE := DEVICE s;
     BATCH_SIZE := BATCH_SIZE s;
     MAX_TEXT_LENGTH := n;
     MODEL_CACHE_SIZE := MODEL_CACHE_SIZE s |}.

Definition with_cache_size (n : Z) (s : Settings) : Settings :=
  {| EMBEDDING_MODEL := EMBEDDING_MODEL s;
     DEVICE := DEVICE s;
     BATCH_SIZE := BATCH_SIZE s;
     MAX_TEXT_LENGTH := MAX_TEXT_LENGTH s;
     MODEL_CACHE_SIZE := n |}.


(* ================================================================== *)
(** ** The rest of the two services' callers and helpers *)

(** [str(e)] for an exception built from one message. *)
Definition str (e : Exn) : string :=
  match e with
  | ImportError msg => msg
  | OSError msg => msg
  | ValueError msg => msg
  | OtherError msg => msg
  end.

(** [EmbeddingService.get_model_info] *)
Definition EmbeddingService_get_model_info (settings : Settings)
    (self : EmbeddingService) (model_name : option string) (p : Process)
    : option ModelInfo :=
  let model_name := or_default model_name (default_model_name self) in
  get_model_info settings (Some model_name) p.

(* ------------------------------------------------------------------ *)
(** *** [app/config/settings.py]: the fields the services do not read *)

(** [str.isspace] on a code point below 256. *)
Definition is_space (c : ascii) : bool :=
  let n := nat_of_ascii c in
  ((9 <=? n) && (n <=? 13) || (28 <=? n) && (n <=? 32)
   || (n =? 133) || (n =? 160))%nat.

(** [s.lstrip()] *)
Fixpoint lstrip (s : string) : string :=
  match s with
  | EmptyString => EmptyString
  | String c s' => if is_space c then lstrip s' else s
  end.

(** [s.rstrip()] *)
Fixpoint rstrip (s : string) : string :=
  match s with
  | EmptyString => EmptyString
  | String c s' =>
      match rstrip s' with
      | EmptyString => if is_space c then EmptyString else String c EmptyString
      | String _ _ as r => String c r
      end
  end.

(** [s.strip()] *)
Definition strip (s : string) : string := rstrip (lstrip s).

(** [s.split(sep)] for a separator of one character. *)
Fixpoint split (sep : ascii) (s : string) : list string :=
  match s with
  | EmptyString => [EmptyString]
  | String c s' =>
      if Ascii.eqb c sep then EmptyString :: split sep s'
      else match split sep s' with
           | [] => [String c EmptyString]
           | piece :: pieces => String c piece :: pieces
           end
  end.

(** [sep.join(pieces)] for a separator of one character. *)
Fixpoint join (sep : ascii) (pieces : list string) : string :=
  match pieces with
  | [] => EmptyString
  | [piece] => piece
  | piece :: pieces' => piece ++ String sep (join sep pieces')
  end.

Definition comma : ascii := ascii_of_nat 44.

(** [a in s] for one character [a]. *)
Fixpoint has_char (a : ascii) (s : string) : bool :=
  match s with
  | EmptyString => false
  | String c s' => Ascii.eqb c a || has_char a s'
  end.

(** Class [Settings] with the fields that only the transport layer
    reads, beside the record of those the services read. *)
Record AppSettings : Type := {
  service_settings : Settings;
  ENVIRONMENT : string;
  SUPPORTED_MODELS : string;
  CORS_ORIGINS : string
}.

(** [Settings.supported_models_list] *)
Definition supported_models_list (settings : AppSettings) : list string :=
  map strip (split comma (SUPPORTED_MODELS settings)).

(* ------------------------------------------------------------------ *)
(** *** [app/middleware/cors.py] *)

(** The [allow_origins] that [setup_cors] gives to the middleware;
    [frontend_url] is the environment variable [FRONTEND_URL]. *)
Definition allowed_origins (settings : AppSettings)
    (frontend_url : option string) : list string :=
  let cors_origins := CORS_ORIGINS settings in
  if negb (String.eqb cors_origins "*") then
    map strip (split comma cors_origins)
  else if String.eqb (ENVIRONMENT settings) "production" then
    [match frontend_url with
     | Some url => url
     | None => "https://yourdomain.com"
     end]
  else ["*"].

(* ------------------------------------------------------------------ *)
(** *** [app/models/embedding.py]: the validators of the request models *)

(** [EmbeddingRequest.validate_text_length] *)
Definition validate_text_length (v : string) : Result string :=
  let max_length := 5000 in
  if PyStr.len v >? max_length
  then Raise (ValueError "Text length exceeds maximum of 5000 characters")
  else Ok v.

(** The loop of [validate_texts], lines 35-37. *)
Fixpoint validate_texts_loop (max_length : Z) (texts : list string)
    : Result unit :=
  match texts with
  | [] => Ok tt
  | text :: texts' =>
      if PyStr.len text >? max_length
      then Raise (ValueError "Text length exceeds maximum of 5000 characters")
      else validate_texts_loop max_length texts'
  end.

(** [EmbeddingBatchRequest.validate_texts] *)
Definition validate_texts (v : list string) : Result (list string) :=
  match v with
  | [] => Raise (ValueError "Texts list cannot be empty")
  | _ :: _ =>
      let max_length := 5000 in
      match validate_texts_loop max_length v with
      | Ok _ => Ok v
      | Raise e => Raise e
      end
  end.

(** The request models, once validated. *)
Record EmbeddingRequest : Type := {
  request_text : string;
  request_model : option string;
  request_normalize : bool
}.

Record EmbeddingBatchRequest : Type := {
  batch_request_texts : list string;
  batch_request_model : option string;
  batch_request_normalize : bool
}.

(** The response models. *)
Record EmbeddingResponse (F : Type) : Type := {
  response_embedding : list F;
  response_model : string;
  response_dimensions : Z;
  response_text_length : Z
}.

Record EmbeddingBatchResponse (F : Type) : Type := {
  response_embeddings : list (list F);
  batch_response_model : string;
  batch_response_dimensions : Z;
  response_count : Z
}.

(* ------------------------------------------------------------------ *)
(** *** [app/routes/embeddings.py] *)

(** What an endpoint ends with: the body of its response, or the
    [HTTPException] it raises. *)
Inductive Http (A : Type) : Type :=
| Respond (body : A)
| HTTPException (status_code : Z) (detail : string).
Arguments Respond {A} body.
Arguments HTTPException {A} status_code detail.

Definition status_of {A : Type} (r : Http A) : Z :=
  match r with
  | Respond _ => 200
  | HTTPException status_code _ => status_code
  end.

Definition dll_detail : string :=
  "Embedding service unavailable due to PyTorch DLL error. " ++
  "Please install Visual C++ Redistributables: " ++
  "https://aka.ms/vs/17/release/vc_redist.x64.exe".

(** The three [except] clauses that both embedding endpoints share;
    [failed] is the text of the last two details.  [ValueError] and
    [OSError] stand for their subclasses too, as in [except]. *)
Definition embedding_exception (failed : string) {A : Type} (e : Exn)
    : Http A :=
  match e with
  | ValueError _ => HTTPException 400 (str e)
  | OSError _ =>
      if PyStr.contains "DLL" (str e) || PyStr.contains "c10.dll" (str e)
      then HTTPException 503 dll_detail
      else HTTPException 500 (failed ++ str e)
  | _ => HTTPException 500 (failed ++ str e)
  end.

Section Routes.

Variable settings : Settings.
Variable F : Type.
Variable encode_text : Handle -> bool -> string -> Result (list F).
Variable encode_list
  : Handle -> bool -> Z -> list string -> Result (list (list F)).

(** The endpoint [generate_embedding] of [POST /embeddings/generate]. *)
Definition route_generate_embedding (env env' : LoadEnv)
    (request : EmbeddingRequest) (p : Process)
    : Http (EmbeddingResponse F) * Process :=
  match generate_embedding settings encode_text
          (EmbeddingService_init settings) env env'
          (request_text request) (request_model request)
          (request_normalize request) p with
  | (Ok (embedding, model_name, dimensions), p') =>
      (Respond {| response_embedding := embedding;
                  response_model := model_name;
                  response_dimensions := dimensions;
                  response_text_length := PyStr.len (request_text request) |},
       p')
  | (Raise e, p') =>
      (embedding_exception "Failed to generate embedding: " e, p')
  end.

(** The endpoint [generate_embeddings_batch] of [POST /embeddings/batch]. *)
Definition route_generate_embeddings_batch (env env' : LoadEnv)
    (request : EmbeddingBatchRequest) (p : Process)
    : Http (EmbeddingBatchResponse F) * Process :=
  match generate_embeddings_batch settings encode_list
          (EmbeddingService_init settings) env env'
          (batch_request_texts request) (batch_request_model request)
          (batch_request_normalize request) p with
  | (Ok (embeddings, model_name, dimensions), p') =>
      (Respond {| response_embeddings := embeddings;
                  batch_response_model := model_name;
                  batch_response_dimensions := dimensions;
                  response_count := Z.of_nat (List.length embeddings) |},
       p')
  | (Raise e, p') =>
      (embedding_exception "Failed to generate embeddings: " e, p')
  end.

End Routes.





(* ------------------------------------------------------------------ *)
(** *** [app/routes/health.py] *)

Record HealthResponse : Type := {
  health_status : string;
  health_service : string;
  health_version : string;
  health_model : option ModelInfo;
  health_device : string;
  health_message : option string
}.

Section Health.

Variable settings : Settings.

(** [app.__version__], whose module is not among the sources. *)
Variable version : string.

(** [str(e)] for an [HTTPException], which the web framework defines. *)
Variable str_HTTPException : Z -> string -> string.

(** The endpoint [health_check] of [GET /health/]. *)
Definition health_check (env : LoadEnv) (p : Process)
    : Http HealthResponse * Process :=
  let (model_info, p') :=
    match get_model settings env None p with
    | (Ok _, p') =>
        (get_model_info settings (Some (EMBEDDING_MODEL settings)) p', p')
    | (Raise _, p') => (None, p')
    end in
  (Respond {| health_status := "healthy";
              health_service := "embedding-service";
              health_version := version;
              health_model := model_info;
              health_device := DEVICE settings;
              health_message := Some "Service is running" |},
   p').

(** The endpoint [readiness_check] of [GET /health/ready]. *)
Definition readiness_check (env : LoadEnv) (p : Process)
    : Http HealthResponse * Process :=
  match get_model settings env None p with
  | (Ok _, p') =>
      match get_model_info settings (Some (EMBEDDING_MODEL settings)) p' with
      | None =>
          (HTTPException 503
             ("Service not ready: "
              ++ str_HTTPException 503 "Model not loaded"), p')
      | Some model_info =>
          (Respond {| health_status := "ready";
                      health_service := "embedding-service";
                      health_version := version;
                      health_model := Some model_info;
                      health_device := DEVICE settings;
                      health_message :=
                        Some "Service is ready to process requests" |},
           p')
      end
  | (Raise e, p') => (HTTPException 503 ("Service not ready: " ++ str e), p')
  end.

End Health.

(* ------------------------------------------------------------------ *)
(** *** What the further properties speak of *)

(** Every cached model has its metadata, at the same position. *)
Definition metadata_complete (p : Process) : Prop :=
  PyDict.keys (model_info (model_manager p))
  = PyDict.keys (models (model_manager p)).

(** The names of the models constructed so far. *)
Definition constructed_names (p : Process) : list string :=
  map fst (constructed p).


(** A provider on a machine without CUDA whose loads succeed. *)
Definition provider_no_cuda : LoadEnv :=
  {| import_sentence_transformers := None;
     import_torch := None;
     cuda_is_available := Ok false;
     SentenceTransformer :=
       fun model_name dev =>
         if String.eqb dev "cuda" then Raise (OtherError "no CUDA")
         else Ok (String.length model_name);
     get_sentence_embedding_dimension := fun _ => Ok 384;
     max_seq_length := fun _ => Ok 256 |}.

(** [import torch] fails as on Windows without the runtime libraries. *)
Definition provider_dll_error : LoadEnv :=
  {| import_sentence_transformers := None;
     import_torch := Some (OSError "[WinError 126] c10.dll not found");
     cuda_is_available := Ok false;
     SentenceTransformer := fun model_name _ => Ok (String.length model_name);
     get_sentence_embedding_dimension := fun _ => Ok 384;
     max_seq_length := fun _ => Ok 256 |}.

(** The package [sentence_transformers] is not installed. *)
Definition provider_not_installed : LoadEnv :=
  {| import_sentence_transformers :=
       Some (ImportError "No module named 'sentence_transformers'");
     import_torch := None;
     cuda_is_available := Ok false;
     SentenceTransformer := fun model_name _ => Ok (String.length model_name);
     get_sentence_embedding_dimension := fun _ => Ok 384;
     max_seq_length := fun _ => Ok 256 |}.

Definition with_device_setting (d : string) (s : Settings) : Settings :=
  {| EMBEDDING_MODEL := EMBEDDING_MODEL s;
     DEVICE := d;
     BATCH_SIZE := BATCH_SIZE s;
     MAX_TEXT_LENGTH := MAX_TEXT_LENGTH s;
     MODEL_CACHE_SIZE := MODEL_CACHE_SIZE s |}.

Definition default_app_settings : AppSettings :=
  {| service_settings := default_settings;
     ENVIRONMENT := "development";
     SUPPORTED_MODELS := "all-MiniLM-L6-v2";
     CORS_ORIGINS := "*" |}.

(** How a call of [load_model] ends, with what it asked the provider:
    before any constructor call, in the constructor, in a metadata query,
    or by returning the model. *)
Inductive load_trace (env : LoadEnv) (model_name : string) (p : Process)
    : Result Handle -> Process -> Prop :=
| load_trace_before_constructor (e : Exn) (p' : Process) :
    constructed p' = constructed p ->
    models (model_manager p') = models (model_manager p) ->
    model_info (model_manager p') = model_info (model_manager p) ->
    load_trace env model_name p (Raise e) p'
| load_trace_constructor_raised (e : Exn) (p' : Process) :
    constructed p'
      = (constructed p ++ [(model_name, device (model_manager p'))])%list ->
    SentenceTransformer env model_name (device (model_manager p')) = Raise e ->
    models (model_manager p') = models (model_manager p) ->
    model_info (model_manager p') = model_info (model_manager p) ->
    load_trace env model_name p (Raise e) p'
| load_trace_metadata_raised (e : Exn) (h : Handle) (p' : Process) :
    constructed p'
      = (constructed p ++ [(model_name, device (model_manager p'))])%list ->
    SentenceTransformer env model_name (device (model_manager p')) = Ok h ->
    (get_sentence_embedding_dimension env h = Raise e \/
     max_seq_length env h = Raise e) ->
    models (model_manager p')
      = PyDict.set model_name h (models (model_manager p)) ->
    model_info (model_manager p') = model_info (model_manager p) ->
    load_trace env model_name p (Raise e) p'
| load_trace_returned (h : Handle) (dims msl : Z) (p' : Process) :
    constructed p'
      = (constructed p ++ [(model_name, device (model_manager p'))])%list ->
    SentenceTransformer env model_name (device (model_manager p')) = Ok h ->
    get_sentence_embedding_dimension env h = Ok dims ->
    max_seq_length env h = Ok msl ->
    models (model_manager p')
      = (let ms := PyDict.set model_name h (models (model_manager p)) in
         if PyDict.len ms >? max_cache_size (model_manager p)
         then evict_oldest ms else ms) ->
    model_info (model_manager p')
      = (let ms := PyDict.set model_name h (models (model_manager p)) in
         let info :=
           PyDict.set model_name
             {| info_name := model_name;
                info_dimensions := dims;
                info_max_sequence_length := msl;
                info_device := device (model_manager p') |}
             (model_info (model_manager p)) in
         if PyDict.len ms >? max_cache_size (model_manager p)
         then evict_oldest_info ms info else info) ->
    load_trace env model_name p (Ok h) p'.

(** The device a call leaves: the one before, or ["cpu"] when the device
    was ["cuda"] and the provider answered that CUDA is not available. *)
Definition device_step (env : LoadEnv) (p p' : Process) : Prop :=
  device (model_manager p') = device (model_manager p) \/
  (device (model_manager p) = "cuda" /\
   cuda_is_available env = Ok false /\
   device (model_manager p') = "cpu").

(** The provider of an operation answers both metadata queries. *)
Definition op_metadata_total (op : Op) : Prop :=
  match op with
  | OpGetModel env _ => metadata_total env
  | OpLoadModel env _ => metadata_total env
  | OpCleanupCache => True
  | OpUnloadModel _ => True
  end.

(** Every cached name is the name of a constructor call of the trace. *)
Definition cached_were_constructed (p : Process) : Prop :=
  forall k, PyDict.mem k (models (model_manager p)) = true ->
            In k (constructed_names p).


(* ================================================================== *)
(** * Properties *)

(** ** Dicts *)

Section DictFacts.

Variable V : Type.
Implicit Types (d : PyDict.dict V) (k n : string) (v : V).

Lemma mem_nil k : PyDict.mem k (@nil (string * V)) = false.
Proof. reflexivity. Qed.

Lemma mem_cons k n v d :
  PyDict.mem k ((n, v) :: d) = String.eqb k n || PyDict.mem k d.
Proof.
  unfold PyDict.mem; simpl.
  destruct (String.eqb k n); reflexivity.
Qed.

Lemma mem_In k d : PyDict.mem k d = true <-> In k (PyDict.keys d).
Proof.
  induction d as [|[n v] d IH].
  - simpl. rewrite mem_nil. split; [discriminate | tauto].
  - rewrite mem_cons, orb_true_iff, IH, String.eqb_eq. simpl.
    split; intros [H|H]; auto.
Qed.

Lemma mem_get k d :
  PyDict.mem k d = true <-> exists v, PyDict.get k d = Some v.
Proof.
  unfold PyDict.mem. destruct (PyDict.get k d) as [v|].
  - split; eauto.
  - split; [discriminate | intros [v H]; discriminate].
Qed.

Lemma mem_get_none k d : PyDict.get k d = None -> PyDict.mem k d = false.
Proof. unfold PyDict.mem. now intros ->. Qed.

Lemma mem_set k n v d :
  PyDict.mem k (PyDict.set n v d) = String.eqb k n || PyDict.mem k d.
Proof.
  induction d as [|[n' v'] d IH]; simpl.
  - rewrite mem_cons, mem_nil. reflexivity.
  - destruct (String.eqb_spec n n') as [->|Hn].
    + rewrite !mem_cons. destruct (String.eqb k n'); reflexivity.
    + rewrite !mem_cons, IH.
      destruct (String.eqb k n), (String.eqb k n'); reflexivity.
Qed.

Lemma mem_del k n d :
  PyDict.mem k (PyDict.del n d) = negb (String.eqb k n) && PyDict.mem k d.
Proof.
  induction d as [|[n' v'] d IH]; simpl.
  - rewrite mem_nil, andb_false_r. reflexivity.
  - destruct (String.eqb_spec n n') as [->|Hn]; simpl.
    + rewrite IH, mem_cons.
      destruct (String.eqb k n'); reflexivity.
    + rewrite !mem_cons, IH.
      destruct (String.eqb_spec k n') as [->|Hk]; simpl.
      * destruct (String.eqb_spec n' n) as [E|_]; [congruence | reflexivity].
      * reflexivity.
Qed.

Lemma get_set_same n v d : PyDict.get n (PyDict.set n v d) = Some v.
Proof.
  induction d as [|[n' v'] d IH]; simpl.
  - now rewrite String.eqb_refl.
  - destruct (String.eqb_spec n n') as [->|Hn]; simpl.
    + now rewrite String.eqb_refl.
    + destruct (String.eqb_spec n n'); [contradiction | exact IH].
Qed.

(** A key that is absent goes to the end. *)
Lemma set_new n v d :
  PyDict.mem n d = false -> PyDict.set n v d = (d ++ [(n, v)])%list.
Proof.
  induction d as [|[n' v'] d IH]; simpl; intros H.
  - reflexivity.
  - rewrite mem_cons in H. apply orb_false_iff in H as [H1 H2].
    rewrite H1, IH by assumption. reflexivity.
Qed.

(** A key that is present keeps the size. *)
Lemma length_set n v d :
  List.length (PyDict.set n v d)
  = if PyDict.mem n d then List.length d else S (List.length d).
Proof.
  induction d as [|[n' v'] d IH]; simpl.
  - reflexivity.
  - rewrite mem_cons. destruct (String.eqb n n'); simpl.
    + reflexivity.
    + rewrite IH. destruct (PyDict.mem n d); reflexivity.
Qed.

Lemma length_del_le n d :
  (List.length (PyDict.del n d) <= List.length d)%nat.
Proof. apply filter_length_le. Qed.

Lemma length_del_lt n d :
  PyDict.mem n d = true ->
  (List.length (PyDict.del n d) < List.length d)%nat.
Proof.
  induction d as [|[n' v'] d IH]; simpl; intros H.
  - discriminate.
  - rewrite mem_cons in H.
    destruct (String.eqb n n'); simpl.
    + pose proof (length_del_le n d). lia.
    + apply IH in H. lia.
Qed.

(** On a dict, whose keys are distinct, deleting the first key leaves the
    rest as it is. *)
Lemma del_first n v d :
  ~ In n (PyDict.keys d) -> PyDict.del n ((n, v) :: d) = d.
Proof.
  intros H. unfold PyDict.del. simpl. rewrite String.eqb_refl. simpl.
  induction d as [|[n' v'] d IH]; simpl.
  - reflexivity.
  - simpl in H.
    destruct (String.eqb_spec n n') as [->|Hn]; simpl.
    + exfalso. apply H. now left.
    + f_equal. apply IH. intros Hin. apply H. now right.
Qed.

Lemma keys_app d1 d2 :
  PyDict.keys (d1 ++ d2)%list = (PyDict.keys d1 ++ PyDict.keys d2)%list.
Proof. apply map_app. Qed.

Lemma evict_oldest_length d :
  d <> [] -> (List.length (evict_oldest d) < List.length d)%nat.
Proof.
  destruct d as [|[n v] d]; [congruence | intros _].
  unfold evict_oldest. simpl PyDict.keys. cbv iota.
  apply length_del_lt. rewrite mem_cons, String.eqb_refl. reflexivity.
Qed.

Lemma evict_oldest_tl d :
  NoDup (PyDict.keys d) -> evict_oldest d = tl d.
Proof.
  destruct d as [|[n v] d]; intros H.
  - reflexivity.
  - unfold evict_oldest. simpl PyDict.keys. cbv iota.
    inversion H; subst. now apply del_first.
Qed.

End DictFacts.

(** ** The model cache *)

Lemma cleanup_cache_spec (p : Process) :
  _cleanup_cache p
  = (Ok tt,
     with_model_info (evict_oldest_info (models (model_manager p)))
       (with_models evict_oldest p)).
Proof.
  destruct p as [[ms info K dev] st t c].
  destruct ms as [|[n v] ms].
  - reflexivity.
  - unfold _cleanup_cache, bind, get_state, when, modify, ret, with_models,
      with_model_info, evict_oldest, evict_oldest_info, PyDict.len.
    cbn -[PyDict.del PyDict.mem Z.gtb Z.of_nat].
    destruct (Z.gtb_spec (Z.of_nat (S (List.length ms))) 0) as [_|Hle]; [|lia].
    cbn -[PyDict.del PyDict.mem].
    destruct (PyDict.mem n info); reflexivity.
Qed.

Lemma import_sentence_transformers_spec env p r p' :
  load_model_import_sentence_transformers env p = (r, p') ->
  model_manager p' = model_manager p /\
  constructed p' = constructed p /\
  (sentence_transformers_imported p = true ->
   sentence_transformers_imported p' = true) /\
  (r = Ok tt /\ sentence_transformers_imported p' = true \/
   exists e, r = Raise e /\ p' = p).
Proof.
  destruct p as [mm st t c].
  unfold load_model_import_sentence_transformers, try_except,
    lazy_import_sentence_transformers, bind, get_state, modify, ret, raise.
  cbn. destruct st; cbn.
  - intros [= <- <-]. cbn. auto 6.
  - destruct (import_sentence_transformers env) as [e|]; cbn.
    + destruct e; intros [= <- <-]; cbn; eauto 8.
    + intros [= <- <-]. cbn. auto 6.
Qed.

Lemma lazy_import_sentence_transformers_spec env p r p' :
  lazy_import_sentence_transformers env p = (r, p') ->
  model_manager p' = model_manager p /\
  constructed p' = constructed p /\
  (sentence_transformers_imported p = true -> r = Ok tt /\ p' = p) /\
  (r = Ok tt /\ sentence_transformers_imported p' = true \/
   exists e, r = Raise e /\ p' = p).
Proof.
  destruct p as [mm st t c].
  unfold lazy_import_sentence_transformers, bind, get_state, modify, ret,
    raise.
  cbn. destruct st; cbn.
  - intros [= <- <-]. cbn. auto 6.
  - destruct (import_sentence_transformers env) as [e|]; cbn;
      intros [= <- <-]; cbn; repeat split; eauto; discriminate.
Qed.

Lemma import_torch_spec env p r p' :
  load_model_import_torch env p = (r, p') ->
  model_manager p' = model_manager p /\
  constructed p' = constructed p /\
  sentence_transformers_imported p' = sentence_transformers_imported p.
Proof.
  destruct p as [mm st t c].
  unfold load_model_import_torch, try_except, lazy_import_torch, bind,
    get_state, modify, ret, raise.
  cbn. destruct t; cbn.
  - intros [= <- <-]. cbn. auto.
  - destruct (import_torch env) as [e|]; cbn.
    + destruct e; cbn;
        try destruct (PyStr.contains "DLL" msg || PyStr.contains "c10.dll" msg);
        intros [= <- <-]; cbn; auto.
    + intros [= <- <-]. cbn. auto.
Qed.

Lemma load_model_try_outcome env name p r p' :
  load_model_try env name p = (r, p') ->
  sentence_transformers_imported p = true ->
  load_outcome env name p r p' /\
  max_cache_size (model_manager p') = max_cache_size (model_manager p).
Proof.
  destruct p as [[ms info K dev] st t c]. cbn [sentence_transformers_imported].
  intros H ->. revert H.
  unfold load_model_try, try_except, bind, get_state, when, modify, ret,
    raise, lift, call_SentenceTransformer.
  cbn -[_cleanup_cache PyDict.set PyDict.len Z.gtb String.eqb].
  destruct (dev =? "cuda")%string;
    [destruct (cuda_is_available env) as [[|]|e0]|];
    cbn -[_cleanup_cache PyDict.set PyDict.len Z.gtb String.eqb].
  all: try (intros [= <- <-]; split; [|reflexivity];
            apply load_raised_before_insertion; cbn; auto; fail).
  all: match goal with
       | |- context [SentenceTransformer ?e ?n ?d] =>
           destruct (SentenceTransformer e n d) as [h|e1] eqn:Hctor
       end.
  all: try (intros [= <- <-]; split; [|reflexivity];
            apply load_raised_before_insertion; cbn; auto; fail).
  all: destruct (get_sentence_embedding_dimension env h) as [dims|e2] eqn:Hdim.
  all: try (intros [= <- <-]; split; [|reflexivity];
            apply load_raised_after_insertion with (h := h); cbn; auto; fail).
  all: destruct (max_seq_length env h) as [msl|e3] eqn:Hmsl.
  all: try (intros [= <- <-]; split; [|reflexivity];
            apply load_raised_after_insertion with (h := h); cbn; auto; fail).
  all: match goal with
       | |- context [PyDict.len ?m >? ?k] => destruct (PyDict.len m >? k) eqn:Hfull
       end.
  all: try rewrite cleanup_cache_spec.
  all: cbn -[PyDict.set PyDict.len Z.gtb String.eqb evict_oldest evict_oldest_info].
  all: intros [= <- <-]; split; [|reflexivity].
  all: eapply load_returned; cbn -[PyDict.set PyDict.len Z.gtb evict_oldest evict_oldest_info];
         try rewrite Hfull; try reflexivity; try eassumption.
Qed.

Lemma load_model_outcome env name p r p' :
  load_model env name p = (r, p') ->
  load_outcome env name p r p' /\
  max_cache_size (model_manager p') = max_cache_size (model_manager p).
Proof.
  unfold load_model, bind.
  destruct (load_model_import_sentence_transformers env p) as [r1 p1] eqn:H1.
  apply import_sentence_transformers_spec in H1 as (Hm1 & Hc1 & Hmono & Hr1).
  destruct Hr1 as [[-> Hst]|(e & -> & ->)].
  2:{ intros [= <- <-]. split; [|reflexivity].
      apply load_raised_before_insertion; auto. }
  destruct (load_model_import_torch env p1) as [r2 p2] eqn:H2.
  apply import_torch_spec in H2 as (Hm2 & Hc2 & Hst2).
  destruct r2 as [[]|e].
  2:{ intros [= <- <-]. split; [|congruence].
      apply load_raised_before_insertion; try congruence. }
  intros H3. apply load_model_try_outcome in H3 as [Hout Hcap]; [|congruence].
  split; [|congruence].
  destruct Hout.
  - apply load_raised_before_insertion; try congruence.
    intros _. apply H1. congruence.
  - eapply load_raised_after_insertion; eauto; try congruence.
  - rewrite Hm2, Hm1 in *. rewrite Hc2, Hc1 in *.
    eapply load_returned; eauto.
Qed.


(** [get_model] either answers from the cache, leaving the manager and
    the trace alone, or ends as the [load_model] it calls. *)
Lemma get_model_outcome settings env model_name p r p' :
  get_model settings env model_name p = (r, p') ->
  let n := or_default model_name (EMBEDDING_MODEL settings) in
  max_cache_size (model_manager p') = max_cache_size (model_manager p) /\
  ((exists e, r = Raise e /\ p' = p)
   \/ (exists h, PyDict.get n (models (model_manager p)) = Some h /\
                 r = Ok h /\
                 model_manager p' = model_manager p /\
                 constructed p' = constructed p /\
                 sentence_transformers_imported p' = true)
   \/ (PyDict.get n (models (model_manager p)) = None /\
       load_outcome env n p r p')).
Proof.
  intros H n. revert H. unfold get_model, bind.
  destruct (lazy_import_sentence_transformers env p) as [r1 p1] eqn:H1.
  apply lazy_import_sentence_transformers_spec in H1
    as (Hm1 & Hc1 & Hold & Hr1).
  destruct Hr1 as [[-> Hst]|(e & -> & ->)].
  2:{ intros [= <- <-]. split; [reflexivity|]. left. eauto. }
  unfold get_state. fold n. rewrite Hm1.
  destruct (PyDict.get n (models (model_manager p))) as [h|] eqn:Hget.
  - unfold ret. intros [= <- <-]. split; [congruence|].
    right. left. exists h. auto 6.
  - intros H. apply load_model_outcome in H as [Hout Hcap].
    split; [congruence|]. right. right. split; [reflexivity|].
    destruct Hout.
    + apply load_raised_before_insertion; try congruence.
      intros _. auto.
    + eapply load_raised_after_insertion; eauto; try congruence.
    + rewrite Hm1, Hc1 in *. eapply load_returned; eauto.
Qed.

(** ** Metadata is kept only for cached models *)

Lemma evict_oldest_keeps_metadata_cached
    (ms : PyDict.dict Handle) (info : PyDict.dict ModelInfo) :
  (forall k, PyDict.mem k info = true -> PyDict.mem k ms = true) ->
  forall k, PyDict.mem k (evict_oldest_info ms info) = true ->
            PyDict.mem k (evict_oldest ms) = true.
Proof.
  intros Hsub k. unfold evict_oldest_info, evict_oldest.
  destruct (PyDict.keys ms) as [|oldest ks]; [apply Hsub|].
  destruct (PyDict.mem oldest info) eqn:Hold.
  - rewrite !mem_del. intros H. apply andb_true_iff in H as [Hk Hin].
    rewrite Hk. simpl. now apply Hsub.
  - intros Hin. rewrite mem_del, (Hsub _ Hin), andb_true_r.
    destruct (String.eqb_spec k oldest) as [->|_]; [congruence|reflexivity].
Qed.

Lemma set_keeps_metadata_cached
    (ms : PyDict.dict Handle) (info : PyDict.dict ModelInfo) n h i :
  (forall k, PyDict.mem k info = true -> PyDict.mem k ms = true) ->
  forall k, PyDict.mem k (PyDict.set n i info) = true ->
            PyDict.mem k (PyDict.set n h ms) = true.
Proof.
  intros Hsub k. rewrite !mem_set, !orb_true_iff.
  intros [H|H]; auto.
Qed.

Lemma load_outcome_metadata_cached env n p r p' :
  load_outcome env n p r p' -> metadata_cached p -> metadata_cached p'.
Proof.
  unfold metadata_cached.
  intros [e q Hm Hi _|e h q _ _ Hm Hi _|h i q _ Hm Hi _ _] Hsub k;
    rewrite Hm, Hi.
  - apply Hsub.
  - intros Hin. rewrite mem_set, (Hsub _ Hin). apply orb_true_r.
  - cbv zeta.
    destruct (PyDict.len _ >? _).
    + apply evict_oldest_keeps_metadata_cached.
      now apply set_keeps_metadata_cached.
    + now apply set_keeps_metadata_cached.
Qed.

Lemma get_model_metadata_cached settings env model_name p :
  metadata_cached p ->
  metadata_cached (snd (get_model settings env model_name p)).
Proof.
  intros Hsub.
  destruct (get_model settings env model_name p) as [r p'] eqn:H.
  apply get_model_outcome in H as [_ [(e & _ & ->)|[(h & _ & _ & Hm & _)|[_ Hout]]]];
    simpl.
  - assumption.
  - unfold metadata_cached. now rewrite Hm.
  - eapply load_outcome_metadata_cached; eauto.
Qed.

Lemma load_model_metadata_cached env model_name p :
  metadata_cached p -> metadata_cached (snd (load_model env model_name p)).
Proof.
  intros Hsub.
  destruct (load_model env model_name p) as [r p'] eqn:H.
  apply load_model_outcome in H as [Hout _].
  eapply load_outcome_metadata_cached; eauto.
Qed.

Lemma cleanup_cache_metadata_cached p :
  metadata_cached p -> metadata_cached (snd (_cleanup_cache p)).
Proof.
  intros Hsub. rewrite cleanup_cache_spec.
  destruct p as [[ms info K dev] st t c]. unfold metadata_cached in *.
  cbn -[evict_oldest evict_oldest_info] in *.
  now apply evict_oldest_keeps_metadata_cached.
Qed.

Lemma unload_model_metadata_cached model_name p :
  metadata_cached p -> metadata_cached (snd (unload_model model_name p)).
Proof.
  destruct p as [[ms info K dev] st t c]. unfold metadata_cached.
  unfold unload_model, bind, get_state, when, modify, ret.
  cbn -[PyDict.mem PyDict.del]. intros Hsub.
  destruct (PyDict.mem model_name ms) eqn:Hin; cbn -[PyDict.mem PyDict.del].
  - destruct (PyDict.mem model_name info) eqn:Hinfo;
      cbn -[PyDict.mem PyDict.del]; intros k.
    + rewrite !mem_del. intros H. apply andb_true_iff in H as [Hk Hki].
      rewrite Hk. simpl. now apply Hsub.
    + intros Hki. rewrite mem_del, (Hsub _ Hki), andb_true_r.
      destruct (String.eqb_spec k model_name) as [->|_];
        [congruence|reflexivity].
  - exact Hsub.
Qed.

Lemma step_metadata_cached settings op p :
  metadata_cached p -> metadata_cached (step settings op p).
Proof.
  destruct op; simpl.
  - apply get_model_metadata_cached.
  - apply load_model_metadata_cached.
  - apply cleanup_cache_metadata_cached.
  - apply unload_model_metadata_cached.
Qed.

Lemma initial_process_metadata_cached settings :
  metadata_cached (initial_process settings).
Proof. intros k. cbn. discriminate. Qed.

(** C10.  After every sequence of [ModelManager] operations ([get_model],
    [load_model], [_cleanup_cache], [unload_model], each with any provider,
    returning or raising at any point), started in a process where every
    key of [model_info] is a key of [models], every key of [model_info] is
    still a key of [models]: metadata never exists for a model that is not
    cached.  The process in which the service starts is such a process,
    as [initial_process_metadata_cached] shows. *)
Theorem metadata_only_for_cached_models settings ops p :
  metadata_cached p -> metadata_cached (run settings ops p).
Proof.
  revert p. unfold run.
  induction ops as [|op ops IH]; simpl; intros p Hp.
  - assumption.
  - apply IH. now apply step_metadata_cached.
Qed.

Lemma metadata_only_for_cached_models_witness :
  metadata_cached (initial_process default_settings) /\
  metadata_cached
    (run default_settings
       [OpGetModel provider_ok None;
        OpLoadModel provider_broken_metadata "clip-ViT-B-32";
        OpGetModel provider_ok (Some "all-MiniLM-L12-v2");
        OpCleanupCache;
        OpUnloadModel "clip-ViT-B-32"]
       (initial_process default_settings)).
Proof.
  assert (H : metadata_cached (initial_process default_settings))
    by (intros k; cbn; discriminate).
  split; [exact H|].
  apply metadata_only_for_cached_models. exact H.
Defined.

(** ** The size of the cache *)

Lemma len_set_le (ms : PyDict.dict Handle) n h :
  PyDict.len (PyDict.set n h ms) <= PyDict.len ms + 1.
Proof.
  unfold PyDict.len. rewrite length_set.
  destruct (PyDict.mem n ms); lia.
Qed.

Lemma set_not_nil (V : Type) n (v : V) d : PyDict.set n v d <> [].
Proof.
  destruct d as [|[n' v'] d]; simpl; [discriminate|].
  destruct (String.eqb n n'); discriminate.
Qed.

(** A load that does not stop between the insertion and the cleanup keeps
    the cache within its capacity. *)
Lemma load_outcome_cache_size env n p r p' :
  load_outcome env n p r p' ->
  metadata_total env ->
  cache_size p <= max_cache_size (model_manager p) ->
  cache_size p' <= max_cache_size (model_manager p).
Proof.
  unfold cache_size.
  intros [e q Hm _ _|e h q _ Hraise _ _ _|h i q _ Hm _ _ _] Htotal Hle.
  - now rewrite Hm.
  - exfalso. destruct (Htotal h) as [Hd Hs].
    destruct Hraise as [Hr|Hr]; rewrite Hr in *; discriminate.
  - rewrite Hm. cbv zeta.
    pose proof (len_set_le (models (model_manager p)) n h) as Hset.
    destruct (Z.gtb_spec (PyDict.len (PyDict.set n h (models (model_manager p))))
                (max_cache_size (model_manager p))) as [Hgt|Hngt].
    + pose proof (@evict_oldest_length _ _ (@set_not_nil _ n h (models (model_manager p)))) as Hev.
      unfold PyDict.len in *. lia.
    + assumption.
Qed.

Lemma get_model_cache_size settings env model_name p :
  metadata_total env ->
  cache_size p <= max_cache_size (model_manager p) ->
  cache_size (snd (get_model settings env model_name p))
  <= max_cache_size (model_manager (snd (get_model settings env model_name p))).
Proof.
  intros Htotal Hle.
  destruct (get_model settings env model_name p) as [r p'] eqn:H.
  apply get_model_outcome in H
    as [Hcap [(e & _ & ->)|[(h & _ & _ & Hm & _)|[_ Hout]]]]; simpl.
  - assumption.
  - unfold cache_size. now rewrite Hm.
  - rewrite Hcap. eapply load_outcome_cache_size; eauto.
Qed.

(** The bound the cache keeps as long as no model object raises on a
    metadata query: after any sequence of [get_model] calls the cache holds
    at most [max_cache_size] models. *)
Lemma get_models_cache_size settings calls p :
  Forall (fun call => metadata_total (fst call)) calls ->
  cache_size p <= max_cache_size (model_manager p) ->
  let p' := snd (get_models settings calls p) in
  cache_size p' <= max_cache_size (model_manager p').
Proof.
  revert p. induction calls as [|[env model_name] calls IH]; simpl;
    intros p Hall Hle.
  - assumption.
  - inversion Hall as [|? ? Henv Hrest]; subst. simpl in Henv.
    pose proof (@get_model_cache_size settings env model_name p Henv Hle) as H1.
    destruct (get_model settings env model_name p) as [r p1].
    specialize (IH p1 Hrest H1).
    destruct (get_models settings calls p1) as [rs p2]. exact IH.
Qed.

(** C1.  With capacity 1, a first [get_model] that loads the default model
    and a second [get_model] whose model object raises on [max_seq_length]
    leave two models in the cache: the second load has inserted its model
    and has raised before the cleanup.  A third [get_model], which loads
    and evicts one model, still leaves two. *)
Theorem cache_size_exceeds_capacity :
  let p := snd (get_models default_settings
                  [(provider_ok, None);
                   (provider_broken_metadata, Some "clip-ViT-B-32")]
                  (initial_process default_settings)) in
  let p' := snd (get_model default_settings provider_ok
                   (Some "all-mpnet-base-v2") p) in
  max_cache_size (model_manager p) = 1 /\
  cache_size p = 2 /\
  list_loaded_models p = ["all-MiniLM-L6-v2"; "clip-ViT-B-32"] /\
  cache_size p' = 2.
Proof. vm_compute. auto. Qed.

(** ** A load that fails *)

(** When the constructor itself raises, or anything before it, the cache
    is as it was. *)
Lemma load_model_constructor_raises env model_name p :
  (forall dev, is_ok (SentenceTransformer env model_name dev) = false) ->
  let (r, p') := load_model env model_name p in
  is_ok r = false /\
  models (model_manager p') = models (model_manager p) /\
  model_info (model_manager p') = model_info (model_manager p).
Proof.
  intros Hctor.
  destruct (load_model env model_name p) as [r p'] eqn:H.
  apply load_model_outcome in H as [Hout _].
  destruct Hout as [e q Hm Hi _|e h q Hc _ _ _ _|h i q Hc _ _ _ _].
  - auto.
  - specialize (Hctor (device (model_manager q))). rewrite Hc in Hctor.
    discriminate.
  - specialize (Hctor (device (model_manager q))). rewrite Hc in Hctor.
    discriminate.
Qed.

(** C7.  A load that raises after the constructor has returned leaves the
    model in the cache: on the process just started, [load_model] with a
    model object whose [max_seq_length] raises ends with that exception and
    with the model cached, without metadata. *)
Theorem failed_load_leaves_model_cached :
  let (r, p) := load_model provider_broken_metadata "clip-ViT-B-32"
                  (initial_process default_settings) in
  r = Raise (OtherError "max_seq_length") /\
  PyDict.mem "clip-ViT-B-32" (models (model_manager p)) = true /\
  PyDict.mem "clip-ViT-B-32" (model_info (model_manager p)) = false /\
  models (model_manager p)
    <> models (model_manager (initial_process default_settings)).
Proof. vm_compute. repeat split; discriminate. Qed.

(** ** Eviction order *)

Lemma last_n_fits (A : Type) (k : nat) (l : list A) :
  (List.length l <= k)%nat -> last_n k l = l.
Proof.
  intros H. unfold last_n.
  replace (List.length l - k)%nat with 0%nat by lia. reflexivity.
Qed.

Lemma last_n_cons (A : Type) (k : nat) (x : A) (l : list A) :
  (k <= List.length l)%nat -> last_n k (x :: l) = last_n k l.
Proof.
  intros H. unfold last_n. simpl List.length.
  replace (S (List.length l) - k)%nat with (S (List.length l - k)) by lia.
  reflexivity.
Qed.

Lemma keys_tl (V : Type) (d : PyDict.dict V) :
  PyDict.keys (tl d) = tl (PyDict.keys d).
Proof. destruct d; reflexivity. Qed.

(** The keys of the cache after a name that is not cached was loaded:
    the name goes to the end, and the first key goes when the capacity is
    exceeded. *)
Lemma load_returned_keys env n p h p' :
  load_outcome env n p (Ok h) p' ->
  NoDup (PyDict.keys (models (model_manager p))) ->
  ~ In n (PyDict.keys (models (model_manager p))) ->
  let ks := (PyDict.keys (models (model_manager p)) ++ [n])%list in
  PyDict.keys (models (model_manager p'))
  = if Z.of_nat (List.length ks) >? max_cache_size (model_manager p)
    then tl ks else ks.
Proof.
  intros Hout Hnd Hnew ks.
  inversion Hout as [| |h' i q _ Hm _ _ _]; subst.
  assert (Hmem : PyDict.mem n (models (model_manager p)) = false).
  { destruct (PyDict.mem n (models (model_manager p))) eqn:E; [|reflexivity].
    apply mem_In in E. contradiction. }
  rewrite Hm. cbv zeta. rewrite set_new by exact Hmem.
  assert (Hks : PyDict.keys (models (model_manager p) ++ [(n, h)])%list = ks)
    by (rewrite keys_app; reflexivity).
  assert (Hlen : PyDict.len (models (model_manager p) ++ [(n, h)])%list
                 = Z.of_nat (List.length ks)).
  { unfold PyDict.len, ks, PyDict.keys.
    now rewrite !length_app, length_map. }
  rewrite Hlen.
  destruct (Z.of_nat (List.length ks) >? max_cache_size (model_manager p)).
  - rewrite evict_oldest_tl.
    + rewrite keys_tl. now rewrite Hks.
    + rewrite Hks. unfold ks. apply NoDup_app; repeat split.
      * assumption.
      * constructor; [simpl; tauto | constructor].
      * intros x Hx [<-|[]]. contradiction.
  - exact Hks.
Qed.

(** Appending a name and dropping the first key when the capacity [k] is
    exceeded keeps at most [k] keys, and does not change which are the
    last [k] names once later names are appended. *)
Lemma last_n_push (k : nat) (ks names : list string) (n : string) :
  (List.length ks <= k)%nat ->
  let ks' := (ks ++ [n])%list in
  let ks1 := if Z.of_nat (List.length ks') >? Z.of_nat k then tl ks' else ks' in
  (List.length ks1 <= k)%nat /\
  last_n k (ks1 ++ names) = last_n k (ks ++ n :: names).
Proof.
  intros Hle ks' ks1.
  assert (Hlen : List.length ks' = S (List.length ks))
    by (unfold ks'; rewrite length_app; simpl; lia).
  assert (Happ : (ks' ++ names = ks ++ n :: names)%list)
    by (unfold ks'; now rewrite <- app_assoc).
  unfold ks1.
  destruct (Z.gtb_spec (Z.of_nat (List.length ks')) (Z.of_nat k)) as [Hgt|Hngt].
  - split; [rewrite length_tl; lia|].
    rewrite <- Happ. destruct ks' as [|x rest]; [simpl in Hlen; lia|].
    simpl tl. simpl app. symmetry. apply last_n_cons.
    rewrite length_app. cbn [List.length] in Hlen, Hgt. lia.
  - split; [lia|]. now rewrite Happ.
Qed.

Lemma get_models_keys settings calls : forall p,
  let names := map (requested settings) calls in
  let K := max_cache_size (model_manager p) in
  NoDup (PyDict.keys (models (model_manager p))) ->
  NoDup names ->
  (forall n, In n names -> ~ In n (PyDict.keys (models (model_manager p)))) ->
  cache_size p <= K ->
  Forall (fun r => is_ok r = true) (fst (get_models settings calls p)) ->
  list_loaded_models (snd (get_models settings calls p))
  = last_n (Z.to_nat K)
      (PyDict.keys (models (model_manager p)) ++ names).
Proof.
  induction calls as [|[env model_name] calls IH]; intros p names K Hnd Hnames
    Hnew Hle Hok.
  - simpl. unfold list_loaded_models. rewrite app_nil_r. symmetry.
    apply last_n_fits. unfold cache_size, PyDict.len, PyDict.keys in *.
    rewrite length_map. lia.
  - simpl in names. set (n := requested settings (env, model_name)) in *.
    subst names. simpl in Hok |- *.
    destruct (get_model settings env model_name p) as [r p1] eqn:Hget.
    destruct (get_models settings calls p1) as [rs p2] eqn:Hrest.
    simpl in Hok |- *. inversion Hok as [|? ? Hr Hrs]; subst.
    apply get_model_outcome in Hget as [Hcap Hcases].
    assert (Hn : ~ In n (PyDict.keys (models (model_manager p))))
      by (apply Hnew; now left).
    destruct r as [h|e]; [|discriminate].
    destruct Hcases as [(e & He & _)|[(h' & Hhit & _)|[_ Hout]]].
    + discriminate.
    + exfalso. apply Hn. apply mem_In. apply mem_get. eauto.
    + change (or_default model_name (EMBEDDING_MODEL settings)) with n in Hout.
      pose proof (load_returned_keys Hout Hnd Hn) as Hkeys. cbv zeta in Hkeys.
      assert (HK : 0 <= K) by (unfold cache_size, PyDict.len in Hle; lia).
      assert (Hlen : (List.length (PyDict.keys (models (model_manager p)))
                      <= Z.to_nat K)%nat).
      { unfold cache_size, PyDict.len, PyDict.keys in *. rewrite length_map. lia. }
      pose proof (@last_n_push (Z.to_nat K) _
                    (map (requested settings) calls) n Hlen) as Hpush.
      cbv zeta in Hpush. rewrite Z2Nat.id in Hpush by exact HK.
      fold K in Hkeys. rewrite <- Hkeys in Hpush. destruct Hpush as [Hlen1 Hlast].
      rewrite <- Hlast.
      inversion Hnames as [|? ? Hnotin Hnd']; subst.
      specialize (IH p1). rewrite Hrest in IH. simpl in IH.
      rewrite Hcap in IH. apply IH; clear IH.
      * rewrite Hkeys.
        assert (Hnd1 : NoDup (PyDict.keys (models (model_manager p)) ++ [n])).
        { apply NoDup_app; [assumption | constructor; [simpl; tauto|constructor] |].
          intros x Hx [<-|[]]. contradiction. }
        destruct (_ >? _); [|exact Hnd1].
        destruct (PyDict.keys (models (model_manager p)) ++ [n])%list;
          [constructor | now inversion Hnd1].
      * assumption.
      * intros m Hm Hin. rewrite Hkeys in Hin.
        assert (Hin' : In m (PyDict.keys (models (model_manager p)) ++ [n])).
        { destruct (_ >? _); [|exact Hin].
          destruct (PyDict.keys (models (model_manager p)) ++ [n])%list;
            [contradiction | now right]. }
        apply in_app_or in Hin' as [Hin'|[<-|[]]].
        -- apply (Hnew m); [now right | assumption].
        -- contradiction.
      * unfold cache_size, PyDict.len.
        unfold PyDict.keys in Hlen1. rewrite length_map in Hlen1. lia.
      * assumption.
Qed.


(** C3.  Take a cache of capacity K holding at most K models, and K+1
    distinct names [m1 :: rest], none of them cached, requested in this
    order by [get_model] calls that all return a model.  After the last
    call the cache holds exactly [rest], in this order: [m1] is absent and
    every other name is present. *)
Theorem eviction_order settings calls p m1 rest :
  map (requested settings) calls = m1 :: rest ->
  NoDup (m1 :: rest) ->
  NoDup (list_loaded_models p) ->
  (forall n, In n (m1 :: rest) -> ~ In n (list_loaded_models p)) ->
  cache_size p <= max_cache_size (model_manager p) ->
  Z.of_nat (List.length (m1 :: rest)) = max_cache_size (model_manager p) + 1 ->
  Forall (fun r => is_ok r = true) (fst (get_models settings calls p)) ->
  let p' := snd (get_models settings calls p) in
  list_loaded_models p' = rest /\
  ~ In m1 (list_loaded_models p') /\
  (forall m, In m rest -> In m (list_loaded_models p')).
Proof.
  intros Hnames Hdistinct Hnd Hnew Hle HK Hok p'.
  assert (Hkeys : list_loaded_models p' = rest).
  { unfold p'. rewrite get_models_keys; try assumption; rewrite Hnames;
      try assumption.
    set (ks := PyDict.keys (models (model_manager p))).
    assert (Hlen : Z.of_nat (List.length ks) <= max_cache_size (model_manager p)).
    { unfold ks, cache_size, PyDict.len, PyDict.keys in *.
      now rewrite length_map. }
    unfold last_n. rewrite length_app.
    replace (List.length ks + List.length (m1 :: rest)
             - Z.to_nat (max_cache_size (model_manager p)))%nat
      with (S (List.length ks)) by lia.
    rewrite skipn_app, skipn_all2 by lia.
    replace (S (List.length ks) - List.length ks)%nat with 1%nat by lia.
    reflexivity. }
  rewrite Hkeys. repeat split.
  - now inversion Hdistinct.
  - auto.
Qed.

Lemma eviction_order_witness :
  let settings := with_cache_size 2 default_settings in
  let calls := [(provider_ok, None);
                (provider_ok, Some "all-mpnet-base-v2");
                (provider_ok, Some "all-MiniLM-L12-v2")] in
  let p' := snd (get_models settings calls (initial_process settings)) in
  list_loaded_models p' = ["all-mpnet-base-v2"; "all-MiniLM-L12-v2"] /\
  ~ In "all-MiniLM-L6-v2" (list_loaded_models p') /\
  (forall m, In m ["all-mpnet-base-v2"; "all-MiniLM-L12-v2"] ->
             In m (list_loaded_models p')).
Proof.
  intros settings calls.
  apply (@eviction_order settings calls (initial_process settings)
           "all-MiniLM-L6-v2" ["all-mpnet-base-v2"; "all-MiniLM-L12-v2"]).
  - reflexivity.
  - repeat constructor; simpl; intuition discriminate.
  - constructor.
  - intros n _ [].
  - vm_compute. discriminate.
  - reflexivity.
  - vm_compute. repeat constructor.
Defined.

(** ** Cache hits *)

Lemma load_outcome_imports_consistent env n p r p' :
  load_outcome env n p r p' -> imports_consistent p -> imports_consistent p'.
Proof.
  unfold imports_consistent.
  intros [e q Hm _ Hmono|e h q _ _ _ _ Hst|h i q _ _ _ Hst _] Hp; auto.
  rewrite Hm. auto.
Qed.

Lemma step_imports_consistent settings op p :
  imports_consistent p -> imports_consistent (step settings op p).
Proof.
  intros Hp. destruct op as [env model_name|env model_name| |model_name]; simpl.
  - destruct (get_model settings env model_name p) as [r p'] eqn:H.
    apply get_model_outcome in H
      as [_ [(e & _ & ->)|[(h & _ & _ & _ & _ & Hst)|[_ Hout]]]]; simpl.
    + assumption.
    + intros _. assumption.
    + eapply load_outcome_imports_consistent; eauto.
  - destruct (load_model env model_name p) as [r p'] eqn:H.
    apply load_model_outcome in H as [Hout _]. simpl.
    eapply load_outcome_imports_consistent; eauto.
  - rewrite cleanup_cache_spec. unfold imports_consistent in *.
    destruct p as [[ms info K dev] st t c]. cbn -[evict_oldest] in *.
    intros Hne. apply Hp. intros ->. now apply Hne.
  - unfold imports_consistent in *.
    destruct p as [[ms info K dev] st t c].
    unfold unload_model, bind, get_state, when, modify, ret.
    cbn -[PyDict.mem PyDict.del] in *.
    destruct (PyDict.mem model_name ms) eqn:Hin; cbn -[PyDict.mem PyDict.del].
    + destruct (PyDict.mem model_name info); cbn -[PyDict.mem PyDict.del];
        intros Hne; apply Hp; intros ->; now apply Hne.
    + exact Hp.
Qed.

(** Every process the cache operations reach from the start has imported
    the module of the models it caches. *)
Lemma run_imports_consistent settings ops :
  imports_consistent (run settings ops (initial_process settings)).
Proof.
  assert (H : forall p, imports_consistent p ->
                        imports_consistent (run settings ops p)).
  { unfold run. induction ops as [|op ops IH]; simpl; intros p Hp.
    - assumption.
    - apply IH. now apply step_imports_consistent. }
  apply H. intros Hne. now contradiction Hne.
Qed.

(** C8.  When a name is in the cache, two consecutive [get_model] calls
    with it, under any two providers, both return the cached model object,
    and neither changes the process: the cache is as it was and no
    constructor call is added to the trace, so nothing is loaded. *)
Theorem cached_model_is_reused settings env1 env2 model_name p h :
  imports_consistent p ->
  PyDict.get (or_default model_name (EMBEDDING_MODEL settings))
    (models (model_manager p)) = Some h ->
  let (r1, p1) := get_model settings env1 model_name p in
  let (r2, p2) := get_model settings env2 model_name p1 in
  r1 = Ok h /\ r2 = Ok h /\ p1 = p /\ p2 = p /\
  constructed p2 = constructed p.
Proof.
  intros Hcons Hget.
  assert (Hst : sentence_transformers_imported p = true).
  { apply Hcons. intros Hnil. rewrite Hnil in Hget. discriminate. }
  assert (Hhit : forall env, get_model settings env model_name p = (Ok h, p)).
  { intros env. unfold get_model, bind.
    destruct (lazy_import_sentence_transformers env p) as [r0 p0] eqn:H0.
    apply lazy_import_sentence_transformers_spec in H0 as (_ & _ & Hold & _).
    destruct (Hold Hst) as [-> ->].
    unfold get_state. rewrite Hget. reflexivity. }
  rewrite (Hhit env1), (Hhit env2). auto.
Qed.

Lemma cached_model_is_reused_witness :
  let p := snd (get_model default_settings provider_ok None
                  (initial_process default_settings)) in
  let (r1, p1) := get_model default_settings provider_unknown_model None p in
  let (r2, p2) := get_model default_settings provider_unknown_model None p1 in
  r1 = Ok 16%nat /\ r2 = Ok 16%nat /\ p1 = p /\ p2 = p /\
  constructed p2 = constructed p.
Proof.
  intros p.
  apply (@cached_model_is_reused default_settings provider_unknown_model
           provider_unknown_model None p 16%nat).
  - intros _. reflexivity.
  - reflexivity.
Defined.

(** ** The empty batch *)

(** C9.  For the empty list of texts, [generate_embeddings_batch] raises
    [ValueError] whatever the provider, the requested model and the
    process are, and leaves the process as it was: no name is mapped, no
    model is looked up or loaded, the cache is unchanged. *)
Theorem empty_batch_rejected settings (F : Type)
    (encode_list : Handle -> bool -> Z -> list string -> Result (list (list F)))
    self env env' model_name normalize p :
  generate_embeddings_batch settings encode_list self env env'
    [] model_name normalize p
  = (Raise (ValueError "Texts list cannot be empty"), p).
Proof. reflexivity. Qed.

(** ** The name mapper *)

Lemma truthy_lower s : PyStr.truthy (PyStr.lower s) = PyStr.truthy s.
Proof. destruct s; reflexivity. Qed.

Lemma contains_pattern_nonempty pattern s :
  In pattern sentence_transformers_patterns ->
  PyStr.contains pattern s = true -> PyStr.truthy s = true.
Proof.
  intros Hin Hc. destruct s; [|reflexivity].
  simpl in Hin. decompose [or] Hin; subst; try contradiction;
    simpl in Hc; discriminate.
Qed.

Lemma mapped_key_is_no_pattern settings key mapped :
  PyDict.get key (model_name_map (EmbeddingService_init settings))
    = Some mapped ->
  PyStr.truthy key = true /\
  PyStr.truthy mapped = true /\
  existsb (fun pattern => PyStr.contains pattern key)
    sentence_transformers_patterns = false.
Proof.
  simpl.
  repeat match goal with
         | |- context [String.eqb key ?k] =>
             destruct (String.eqb_spec key k) as [->|_]
         end;
    intros [= <-] || discriminate; repeat split; reflexivity.
Qed.

(** C4.  [_map_model_name] is a function of the service and the optional
    requested name alone, defined on every input, whose value is a name
    and never an exception.  It returns the configured default model name
    when the name is absent or empty; the name itself when its lower-case
    form contains one of the four fixed patterns; the value of the static
    table when the lower-case form of the name is one of its keys; and the
    name itself in every other case. *)
Theorem map_model_name_cases settings :
  let self := EmbeddingService_init settings in
  _map_model_name self None = EMBEDDING_MODEL settings /\
  _map_model_name self (Some "") = EMBEDDING_MODEL settings /\
  (forall name pattern,
     In pattern sentence_transformers_patterns ->
     PyStr.contains pattern (PyStr.lower name) = true ->
     _map_model_name self (Some name) = name) /\
  (forall name mapped,
     PyDict.get (PyStr.lower name) (model_name_map self) = Some mapped ->
     _map_model_name self (Some name) = mapped) /\
  (forall name,
     name <> "" ->
     (forall pattern, In pattern sentence_transformers_patterns ->
                      PyStr.contains pattern (PyStr.lower name) = false) ->
     PyDict.get (PyStr.lower name) (model_name_map self) = None ->
     _map_model_name self (Some name) = name).
Proof.
  intros self. split; [reflexivity|]. split; [reflexivity|].
  split; [|split].
  - intros name pattern Hin Hc. unfold _map_model_name.
    pose proof (contains_pattern_nonempty _ Hin Hc) as Ht.
    rewrite truthy_lower in Ht. rewrite Ht. cbn [negb].
    replace (existsb _ _) with true; [reflexivity|].
    symmetry. apply existsb_exists. eauto.
  - intros name mapped Hget. unfold _map_model_name.
    destruct (mapped_key_is_no_pattern _ _ Hget) as (Ht & Hm & Hno).
    rewrite truthy_lower in Ht. rewrite Ht, Hno. cbn [negb].
    fold self. rewrite Hget, Hm. reflexivity.
  - intros name Hne Hno Hget. unfold _map_model_name.
    destruct name as [|c s]; [congruence|]. cbn [PyStr.truthy negb].
    rewrite Hget.
    destruct (existsb _ _); reflexivity.
Qed.

Lemma map_model_name_cases_witness :
  let self := EmbeddingService_init default_settings in
  _map_model_name self (Some "sentence-transformers/All-MPNet-base-v2")
    = "sentence-transformers/All-MPNet-base-v2" /\
  _map_model_name self (Some "Text-Embedding-3-Large") = "all-mpnet-base-v2" /\
  _map_model_name self (Some "bge-small-en") = "bge-small-en".
Proof.
  destruct (map_model_name_cases default_settings) as (_ & _ & Hpat & Hmap & Hother).
  split; [|split].
  - apply (Hpat _ "all-mpnet"); [simpl; tauto | reflexivity].
  - apply Hmap. reflexivity.
  - apply Hother.
    + discriminate.
    + intros pattern Hin. simpl in Hin.
      decompose [or] Hin; subst; try contradiction; reflexivity.
    + reflexivity.
Defined.

(** ** Truncation *)

Lemma truncate_text_spec self text :
  0 <= max_text_length self ->
  truncate_text self text = spec_truncate (max_text_length self) text.
Proof.
  intros Hmax. unfold truncate_text, spec_truncate.
  destruct (Z.gtb_spec (PyStr.len text) (max_text_length self)) as [Hgt|_];
    [|reflexivity].
  unfold PyStr.slice_to, PyStr.clamp.
  destruct (Z.ltb_spec (max_text_length self) 0) as [Hneg|_]; [lia|].
  now rewrite Z.min_l by lia.
Qed.

(** C6, for a maximum that is not negative.  When the configured [max_text_length] is not
    negative, [generate_embedding] encodes exactly the first
    [max_text_length] characters of a text longer than that and the
    unmodified text otherwise, and [generate_embeddings_batch] encodes the
    texts so truncated, in their order. *)
Theorem truncation_when_max_length_not_negative settings :
  0 <= MAX_TEXT_LENGTH settings -> truncation_property settings.
Proof.
  intros Hmax. unfold truncation_property.
  intros F encode_text encode_list env env' model_name normalize p model name
    p' Hgot.
  assert (Htr : forall text,
             truncate_text (EmbeddingService_init settings) text
             = spec_truncate (MAX_TEXT_LENGTH settings) text)
    by (intros text; now apply truncate_text_spec).
  split.
  - intros text. unfold generate_embedding, bind. rewrite Hgot.
    cbn [fst snd]. rewrite Htr.
    unfold try_except, lift, ret, raise, encoded_one.
    destruct (encode_text model normalize _); reflexivity.
  - intros [|t texts] Hne; [congruence|].
    unfold generate_embeddings_batch, bind. rewrite Hgot. cbn [fst snd].
    rewrite (map_ext _ _ Htr).
    unfold try_except, lift, ret, raise, encoded_many.
    destruct (py_range _ _ _) as [starts|e]; [|reflexivity].
    destruct (encode_batches _ _ _ _ _ _ _) as [vs|e]; reflexivity.
Qed.

Lemma truncation_when_max_length_not_negative_witness :
  let settings := with_max_text_length 3 default_settings in
  let self := EmbeddingService_init settings in
  0 <= MAX_TEXT_LENGTH settings /\
  fst (generate_embedding settings encode_text_length self
         provider_ok provider_ok "hello" None false
         (initial_process settings))
  = Ok (embed_length 16%nat false "hel", "all-MiniLM-L6-v2", 2) /\
  fst (generate_embeddings_batch settings encode_list_length self
         provider_ok provider_ok ["hello"; "hi"] None false
         (initial_process settings))
  = Ok ([embed_length 16%nat false "hel"; embed_length 16%nat false "hi"],
        "all-MiniLM-L6-v2", 2).
Proof.
  intros settings self.
  assert (H : 0 <= MAX_TEXT_LENGTH settings) by (simpl; lia).
  split; [exact H|].
  destruct (@truncation_when_max_length_not_negative settings H
              Z encode_text_length encode_list_length
              provider_ok provider_ok None false
              (initial_process settings) _ _ _ eq_refl)
    as [Hone Hmany].
  unfold self. rewrite (Hone "hello").
  rewrite (Hmany ["hello"; "hi"]) by discriminate.
  split; reflexivity.
Defined.

(** With [MAX_TEXT_LENGTH = -1] the five characters of "hello" are
    longer than the maximum, and what is encoded is "hell", the text
    without its last character, not its first -1 characters. *)
Lemma truncation_fails_for_negative_max_length :
  ~ truncation_property (with_max_text_length (-1) default_settings).
Proof.
  intros H.
  specialize (H Z encode_text_length encode_list_length
                provider_ok provider_ok None false
                (initial_process (with_max_text_length (-1) default_settings))
                _ _ _ eq_refl).
  destruct H as [H _]. specialize (H "hello").
  vm_compute in H. discriminate.
Qed.

(** ** Batches *)

Lemma firstn_plus (A : Type) (n m : nat) : forall l : list A,
  firstn (n + m) l = (firstn n l ++ firstn m (skipn n l))%list.
Proof.
  induction n as [|n IH]; intros l.
  - reflexivity.
  - destruct l as [|x l]; simpl.
    + now rewrite firstn_nil.
    + now rewrite IH.
Qed.

(** Consecutive chunks of [b] elements, concatenated, are a prefix. *)
Lemma concat_chunks (A : Type) (b : nat) (l : list A) (c : nat) :
  List.concat (map (fun k => firstn b (skipn (k * b) l)) (seq 0 c))
  = firstn (c * b) l.
Proof.
  induction c as [|c IH].
  - reflexivity.
  - rewrite seq_S, map_app, concat_app, IH. simpl.
    rewrite app_nil_r, (Nat.add_comm b), firstn_plus. reflexivity.
Qed.

(** The slice the loop takes at a start index within the list. *)
Lemma py_slice_chunk (A : Type) (l : list A) (i b : nat) :
  (i <= List.length l)%nat ->
  py_slice l (Z.of_nat i) (Z.of_nat i + Z.of_nat b) = firstn b (skipn i l).
Proof.
  intros Hi. unfold py_slice, PyStr.clamp.
  destruct (Z.ltb_spec (Z.of_nat i) 0) as [Hneg|_]; [lia|].
  destruct (Z.ltb_spec (Z.of_nat i + Z.of_nat b) 0) as [Hneg|_]; [lia|].
  rewrite (Z.min_l (Z.of_nat i)) by lia. rewrite Nat2Z.id.
  destruct (Z.le_gt_cases (Z.of_nat i + Z.of_nat b) (Z.of_nat (List.length l)))
    as [Hin|Hout].
  - rewrite Z.min_l by lia. f_equal. lia.
  - rewrite Z.min_r by lia.
    rewrite !firstn_all2; [reflexivity| |]; rewrite length_skipn; lia.
Qed.

(** The start indices of the loop for a positive batch size. *)
Lemma py_range_positive (n b : nat) :
  (0 < b)%nat ->
  py_range 0 (Z.of_nat n) (Z.of_nat b)
  = Ok (map (fun k => Z.of_nat (k * b))
          (seq 0 (Z.to_nat ((Z.of_nat n + Z.of_nat b - 1) / Z.of_nat b)))).
Proof.
  intros Hb. unfold py_range.
  destruct (Z.eqb_spec (Z.of_nat b) 0) as [E|_]; [lia|].
  destruct (Z.gtb_spec (Z.of_nat b) 0) as [_|Hle]; [|lia].
  f_equal. rewrite Z.sub_0_r. apply map_ext. intros k. lia.
Qed.

Section Batches.

Variable F : Type.
Variable encode_list
  : Handle -> bool -> Z -> list string -> Result (list (list F)).
Variable embed : Handle -> bool -> string -> list F.
Hypothesis encode_positional : positional encode_list embed.

(** With a positional encoder the loop appends, chunk after chunk, the
    embeddings of the texts of the chunk. *)
Lemma encode_batches_positional self model normalize processed starts :
  forall acc,
    encode_batches encode_list self model normalize processed starts acc
    = Ok (acc ++ map (embed model normalize)
                   (List.concat (map (fun i => py_slice processed i
                                            (i + batch_size self))
                              starts)))%list.
Proof.
  induction starts as [|i starts IH]; intros acc; simpl.
  - now rewrite app_nil_r.
  - rewrite encode_positional, IH, map_app, app_assoc. reflexivity.
Qed.

(** With a positive batch size the chunks cover the texts, in order. *)
Lemma encoded_many_positional self model name normalize processed :
  1 <= batch_size self ->
  encoded_many encode_list self model name normalize processed
  = Ok (map (embed model normalize) processed, name,
        first_dimensions (map (embed model normalize) processed)).
Proof.
  intros Hbs. unfold encoded_many.
  set (b := Z.to_nat (batch_size self)).
  assert (Hb : batch_size self = Z.of_nat b) by (unfold b; lia).
  assert (Hpos : (0 < b)%nat) by lia.
  rewrite Hb, (py_range_positive _ Hpos), encode_batches_positional.
  set (c := Z.to_nat ((Z.of_nat (List.length processed) + Z.of_nat b - 1)
                      / Z.of_nat b)).
  assert (Hc : (List.length processed <= c * b)%nat).
  { unfold c.
    assert (H : Z.of_nat (List.length processed)
                <= (Z.of_nat (List.length processed) + Z.of_nat b - 1)
                   / Z.of_nat b * Z.of_nat b).
    { pose proof (Z.div_mod (Z.of_nat (List.length processed) + Z.of_nat b - 1)
                    (Z.of_nat b) ltac:(lia)) as Hdm.
      pose proof (Z.mod_pos_bound
                    (Z.of_nat (List.length processed) + Z.of_nat b - 1)
                    (Z.of_nat b) ltac:(lia)) as Hmod.
      nia. }
    assert (H0 : 0 <= (Z.of_nat (List.length processed) + Z.of_nat b - 1)
                      / Z.of_nat b)
      by (apply Z.div_pos; lia).
    nia. }
  assert (Hchunks :
    List.concat (map (fun i => py_slice processed i (i + batch_size self))
              (map (fun k => Z.of_nat (k * b)) (seq 0 c)))
    = processed).
  { rewrite map_map.
    assert (Hall : forall k, In k (seq 0 c) ->
              py_slice processed (Z.of_nat (k * b))
                (Z.of_nat (k * b) + batch_size self)
              = firstn b (skipn (k * b) processed)).
    { intros k _. rewrite Hb.
      destruct (Nat.le_gt_cases (k * b) (List.length processed)) as [Hk|Hk].
      - now apply py_slice_chunk.
      - unfold py_slice, PyStr.clamp.
        destruct (Z.ltb_spec (Z.of_nat (k * b)) 0); [lia|].
        destruct (Z.ltb_spec (Z.of_nat (k * b) + Z.of_nat b) 0); [lia|].
        rewrite !Z.min_r by lia. rewrite Z.sub_diag. simpl.
        rewrite skipn_all2 by lia. now rewrite firstn_nil. }
    rewrite (map_ext_in _ _ _ Hall), concat_chunks.
    now apply firstn_all2. }
  simpl app. rewrite Hchunks. reflexivity.
Qed.

End Batches.

(** C5, for a positive batch size.  For every configured batch size of at least 1, with a
    positional encoder and a model got, [generate_embeddings_batch] on a
    non-empty list of texts returns as many vectors as there are texts,
    and the vector at each position is the embedding of the truncated text
    at that position. *)
Theorem batch_order_when_batch_size_positive settings :
  1 <= BATCH_SIZE settings -> batch_order_property settings.
Proof.
  intros Hbs. unfold batch_order_property.
  intros F encode_list embed env env' texts model_name normalize p model name
    p' Hpos Hne Hgot.
  pose (self := EmbeddingService_init settings).
  exists (map (fun t => embed model normalize (truncate_text self t)) texts).
  exists (first_dimensions
            (map (fun t => embed model normalize (truncate_text self t)) texts)).
  split; [|split].
  - destruct texts as [|t texts]; [congruence|].
    unfold generate_embeddings_batch, bind. rewrite Hgot.
    cbn [fst snd].
    pose proof (@encoded_many_positional F encode_list embed Hpos self model
                  name normalize (map (truncate_text self) (t :: texts)) Hbs)
      as Hmany.
    unfold encoded_many in Hmany.
    unfold try_except, lift, ret, raise.
    destruct (py_range _ _ _) as [starts|e]; [|discriminate].
    destruct (encode_batches _ _ _ _ _ _ _) as [vs|e]; [|discriminate].
    injection Hmany as -> _. rewrite map_map. reflexivity.
  - apply length_map.
  - intros i t Hi.
    now apply (map_nth_error
                 (fun t => embed model normalize (truncate_text self t))).
Qed.

Lemma batch_order_when_batch_size_positive_witness :
  let settings := with_batch_size 2 default_settings in
  let self := EmbeddingService_init settings in
  1 <= BATCH_SIZE settings /\
  exists vectors dimensions p',
    generate_embeddings_batch settings encode_list_length self
      provider_ok provider_ok ["a"; "bb"; "ccc"] None false
      (initial_process settings)
    = (Ok (vectors, "all-MiniLM-L6-v2", dimensions), p') /\
    List.length vectors = 3%nat /\
    nth_error vectors 2 = Some (embed_length 16%nat false "ccc").
Proof.
  intros settings self.
  assert (H : 1 <= BATCH_SIZE settings) by (simpl; lia).
  split; [exact H|].
  destruct (@batch_order_when_batch_size_positive settings H
              Z encode_list_length embed_length provider_ok provider_ok
              ["a"; "bb"; "ccc"] None false
              (initial_process settings) _ _ _
              (fun _ _ _ _ => eq_refl) ltac:(discriminate) eq_refl)
    as (vectors & dimensions & Hres & Hlen & Hnth).
  exists vectors, dimensions. eexists.
  split; [exact Hres|]. split; [exact Hlen|].
  exact (Hnth 2%nat "ccc" eq_refl).
Defined.

(** With [BATCH_SIZE = -1] the loop has no start index: the call returns
    no vector for the one text it was given. *)
Lemma batch_order_fails_for_negative_batch_size :
  ~ batch_order_property (with_batch_size (-1) default_settings).
Proof.
  intros H.
  destruct (H Z encode_list_length embed_length provider_ok provider_ok
              ["hello"] None false
              (initial_process (with_batch_size (-1) default_settings))
              _ _ _ (fun _ _ _ _ => eq_refl) ltac:(discriminate) eq_refl)
    as (vectors & dimensions & Hres & Hlen & _).
  vm_compute in Hres. injection Hres as <- _. discriminate.
Qed.

(** With [BATCH_SIZE = 0] the loop cannot start: [range] raises
    [ValueError] and so does the call. *)
Lemma batch_order_fails_for_zero_batch_size :
  ~ batch_order_property (with_batch_size 0 default_settings).
Proof.
  intros H.
  destruct (H Z encode_list_length embed_length provider_ok provider_ok
              ["hello"] None false
              (initial_process (with_batch_size 0 default_settings))
              _ _ _ (fun _ _ _ _ => eq_refl) ltac:(discriminate) eq_refl)
    as (vectors & dimensions & Hres & _).
  vm_compute in Hres. discriminate.
Qed.

(** ** Fallback to the default model *)

(** What lines 95-109 do once the first [get_model] has raised. *)
Lemma get_model_or_default_after_failure settings self env env' mapped p e p1 :
  get_model settings env (Some mapped) p = (Raise e, p1) ->
  get_model_or_default settings self env env' mapped p
  = if negb (String.eqb mapped (default_model_name self))
    then match get_model settings env' (Some (default_model_name self)) p1 with
         | (Ok model, p2) => (Ok (model, default_model_name self), p2)
         | (Raise e2, p2) => (Raise e2, p2)
         end
    else (Raise e, p1).
Proof.
  intros Hfail. unfold get_model_or_default, try_except, bind.
  rewrite Hfail.
  destruct (negb (String.eqb mapped (default_model_name self))).
  - destruct (get_model settings env' (Some (default_model_name self)) p1)
      as [[model|e2] p2]; reflexivity.
  - reflexivity.
Qed.

(** Both methods, once lines 95-109 have ended. *)
Lemma generate_embedding_after_get settings (F : Type)
    (encode_text : Handle -> bool -> string -> Result (list F))
    self env env' text model_name normalize p r p' :
  get_model_or_default settings self env env'
    (_map_model_name self model_name) p = (r, p') ->
  generate_embedding settings encode_text self env env'
    text model_name normalize p
  = match r with
    | Ok (model, name) =>
        (encoded_one encode_text model name normalize
           (truncate_text self text), p')
    | Raise e => (Raise e, p')
    end.
Proof.
  intros Hgot. unfold generate_embedding, bind. rewrite Hgot.
  destruct r as [[model name]|e]; [|reflexivity].
  cbn [fst snd]. unfold try_except, lift, ret, raise, encoded_one.
  destruct (encode_text model normalize _); reflexivity.
Qed.

Lemma generate_embeddings_batch_after_get settings (F : Type)
    (encode_list : Handle -> bool -> Z -> list string -> Result (list (list F)))
    self env env' texts model_name normalize p r p' :
  texts <> [] ->
  get_model_or_default settings self env env'
    (_map_model_name self model_name) p = (r, p') ->
  generate_embeddings_batch settings encode_list self env env'
    texts model_name normalize p
  = match r with
    | Ok (model, name) =>
        (encoded_many encode_list self model name normalize
           (map (truncate_text self) texts), p')
    | Raise e => (Raise e, p')
    end.
Proof.
  intros Hne Hgot. destruct texts as [|t texts]; [congruence|].
  unfold generate_embeddings_batch, bind. rewrite Hgot.
  destruct r as [[model name]|e]; [|reflexivity].
  cbn [fst snd]. unfold try_except, lift, ret, raise, encoded_many.
  destruct (py_range _ _ _) as [starts|e]; [|reflexivity].
  destruct (encode_batches _ _ _ _ _ _ _) as [vs|e]; reflexivity.
Qed.

(** C2, with the outcome of the second load made explicit.  Let the [get_model] of the mapped name raise [e].
    If the mapped name is not the default, both methods call [get_model]
    once more, with the default name: when this returns a model, they
    encode with it and report the default's name (and so succeed when the
    encoder does); when this raises too, they raise that second exception.
    If the mapped name is the default, both methods raise [e] and the
    process is the one the single failed [get_model] left: nothing is
    tried again. *)
Theorem fallback_to_default settings (F : Type)
    (encode_text : Handle -> bool -> string -> Result (list F))
    (encode_list : Handle -> bool -> Z -> list string -> Result (list (list F)))
    env env' model_name normalize p e p1 :
  let self := EmbeddingService_init settings in
  let mapped := _map_model_name self model_name in
  let default := EMBEDDING_MODEL settings in
  get_model settings env (Some mapped) p = (Raise e, p1) ->
  (mapped <> default ->
   match get_model settings env' (Some default) p1 with
   | (Ok model, p2) =>
       (forall text,
          generate_embedding settings encode_text self env env'
            text model_name normalize p
          = (encoded_one encode_text model default normalize
               (truncate_text self text), p2)) /\
       (forall texts, texts <> [] ->
          generate_embeddings_batch settings encode_list self env env'
            texts model_name normalize p
          = (encoded_many encode_list self model default normalize
               (map (truncate_text self) texts), p2))
   | (Raise e2, p2) =>
       (forall text,
          generate_embedding settings encode_text self env env'
            text model_name normalize p
          = (Raise e2, p2)) /\
       (forall texts, texts <> [] ->
          generate_embeddings_batch settings encode_list self env env'
            texts model_name normalize p
          = (Raise e2, p2))
   end) /\
  (mapped = default ->
   (forall text,
      generate_embedding settings encode_text self env env'
        text model_name normalize p
      = (Raise e, p1)) /\
   (forall texts, texts <> [] ->
      generate_embeddings_batch settings encode_list self env env'
        texts model_name normalize p
      = (Raise e, p1))).
Proof.
  intros self mapped default Hfail.
  pose proof (@get_model_or_default_after_failure settings self env env'
                mapped p e p1 Hfail) as Hgot.
  change (default_model_name self) with default in Hgot.
  split.
  - intros Hne.
    destruct (String.eqb_spec mapped default) as [|_]; [contradiction|].
    cbn [negb] in Hgot.
    destruct (get_model settings env' (Some default) p1) as [[model|e2] p2];
      split; intros;
      first [ erewrite generate_embedding_after_get by exact Hgot
            | erewrite generate_embeddings_batch_after_get by eassumption ];
      reflexivity.
  - intros Heq.
    destruct (String.eqb_spec mapped default) as [_|]; [|contradiction].
    cbn [negb] in Hgot.
    split; intros;
      first [ erewrite generate_embedding_after_get by exact Hgot
            | erewrite generate_embeddings_batch_after_get by eassumption ];
      reflexivity.
Qed.

Lemma fallback_to_default_witness :
  let self := EmbeddingService_init default_settings in
  fst (generate_embedding default_settings encode_text_length self
         provider_unknown_model provider_ok
         "hello" (Some "bge-small-en") false
         (initial_process default_settings))
  = Ok ([16; 5], "all-MiniLM-L6-v2", 2) /\
  fst (generate_embedding default_settings encode_text_length self
         provider_unknown_model provider_ok
         "hello" None false
         (initial_process default_settings))
  = Raise (OtherError "model not found").
Proof.
  intros self. split.
  - destruct (@fallback_to_default default_settings Z encode_text_length
                encode_list_length provider_unknown_model provider_ok
                (Some "bge-small-en") false
                (initial_process default_settings) _ _ eq_refl)
      as [Hother _].
    specialize (Hother ltac:(discriminate)). cbv zeta in Hother.
    destruct (get_model default_settings provider_ok _ _)
      as [[model|e2] p2] eqn:E in Hother;
      vm_compute in E; [|discriminate].
    injection E as <- _. destruct Hother as [Hone _].
    unfold self. rewrite (Hone "hello"). reflexivity.
  - destruct (@fallback_to_default default_settings Z encode_text_length
                encode_list_length provider_unknown_model provider_ok
                None false
                (initial_process default_settings) _ _ eq_refl)
      as [_ Hdefault].
    specialize (Hdefault eq_refl). destruct Hdefault as [Hone _].
    unfold self. rewrite (Hone "hello"). reflexivity.
Defined.

(** When no model can be constructed, a request for a model other than
    the default does not succeed under the default's name: the second
    load fails as the first did. *)
Lemma fallback_fails_when_default_fails :
  ~ fallback_property default_settings.
Proof.
  intros H.
  destruct (H Z encode_text_length encode_list_length
              provider_unknown_model provider_unknown_model
              (Some "bge-small-en") false
              (initial_process default_settings) _ _ eq_refl)
    as [Hother _].
  destruct (Hother ltac:(discriminate)) as [Hone _].
  destruct (Hone "hello") as (v & d & p2 & Hres).
  vm_compute in Hres. discriminate.
Qed.

(* ================================================================== *)
(** * Further properties *)

(** ** What a load asks the provider *)

Lemma load_model_try_trace env name p r p' :
  load_model_try env name p = (r, p') ->
  load_trace env name p r p' /\ device_step env p p' /\
  sentence_transformers_imported p' = sentence_transformers_imported p.
Proof.
  destruct p as [[ms info K dev] st t c].
  unfold device_step, load_model_try, try_except, bind, get_state, when,
    modify, ret, raise, lift, call_SentenceTransformer.
  cbn -[_cleanup_cache PyDict.set PyDict.len Z.gtb String.eqb].
  destruct (String.eqb_spec dev "cuda") as [Hcuda|Hcuda];
    [destruct (cuda_is_available env) as [[|]|e0] eqn:Havail|];
    cbn -[_cleanup_cache PyDict.set PyDict.len Z.gtb String.eqb].
  all: try (intros [= <- <-]; split; [|split; [|reflexivity]];
            [apply load_trace_before_constructor; reflexivity
            |cbn; auto]; fail).
  all: match goal with
       | |- context [SentenceTransformer ?e ?n ?d] =>
           destruct (SentenceTransformer e n d) as [h|e1] eqn:Hctor
       end.
  all: try (intros [= <- <-]; split; [|split; [|reflexivity]];
            [apply load_trace_constructor_raised; cbn; auto
            |cbn; auto]; fail).
  all: destruct (get_sentence_embedding_dimension env h) as [dims|e2] eqn:Hdim.
  all: try (intros [= <- <-]; split; [|split; [|reflexivity]];
            [apply load_trace_metadata_raised with (h := h); cbn; auto
            |cbn; auto]; fail).
  all: destruct (max_seq_length env h) as [msl|e3] eqn:Hmsl.
  all: try (intros [= <- <-]; split; [|split; [|reflexivity]];
            [apply load_trace_metadata_raised with (h := h); cbn; auto
            |cbn; auto]; fail).
  all: match goal with
       | |- context [PyDict.len ?m >? ?k] =>
           destruct (PyDict.len m >? k) eqn:Hfull
       end.
  all: try rewrite cleanup_cache_spec.
  all: cbn -[PyDict.set PyDict.len Z.gtb String.eqb evict_oldest
             evict_oldest_info].
  all: intros [= <- <-]; split; [|split; [|reflexivity]].
  all: try (eapply load_trace_returned;
            cbn -[PyDict.set PyDict.len Z.gtb evict_oldest evict_oldest_info];
            try rewrite Hfull; try reflexivity; eassumption).
  all: cbn; auto.
Qed.

Lemma load_model_trace env name p r p' :
  load_model env name p = (r, p') ->
  load_trace env name p r p' /\ device_step env p p'.
Proof.
  unfold load_model, bind.
  destruct (load_model_import_sentence_transformers env p) as [r1 p1] eqn:H1.
  apply import_sentence_transformers_spec in H1 as (Hm1 & Hc1 & _ & Hr1).
  destruct Hr1 as [[-> _]|(e & -> & ->)].
  2:{ intros [= <- <-]. split.
      - now apply load_trace_before_constructor.
      - now left. }
  destruct (load_model_import_torch env p1) as [r2 p2] eqn:H2.
  apply import_torch_spec in H2 as (Hm2 & Hc2 & _).
  destruct r2 as [[]|e].
  2:{ intros [= <- <-]. split.
      - apply load_trace_before_constructor; congruence.
      - left. congruence. }
  intros H3. apply load_model_try_trace in H3 as (Htr & Hdev & _).
  unfold device_step in *. rewrite Hm2, Hm1 in Hdev. split; [|exact Hdev].
  destruct Htr; rewrite ?Hm2, ?Hm1, ?Hc2, ?Hc1 in *.
  - now apply load_trace_before_constructor.
  - now apply load_trace_constructor_raised.
  - now apply load_trace_metadata_raised with (h := h).
  - eapply load_trace_returned; eauto.
Qed.

(** [get_model]: a failed import or a hit leaves the manager and the trace
    alone, a miss ends as [load_model]. *)
Lemma get_model_trace settings env model_name p r p' :
  get_model settings env model_name p = (r, p') ->
  let n := or_default model_name (EMBEDDING_MODEL settings) in
  (model_manager p' = model_manager p /\ constructed p' = constructed p /\
   ((exists e, r = Raise e) \/
    (exists h, PyDict.get n (models (model_manager p)) = Some h /\ r = Ok h)))
  \/ (PyDict.get n (models (model_manager p)) = None /\
      load_trace env n p r p' /\ device_step env p p').
Proof.
  intros H n. revert H. unfold get_model, bind.
  destruct (lazy_import_sentence_transformers env p) as [r1 p1] eqn:H1.
  apply lazy_import_sentence_transformers_spec in H1
    as (Hm1 & Hc1 & _ & Hr1).
  destruct Hr1 as [[-> _]|(e & -> & ->)].
  2:{ intros [= <- <-]. left. eauto 6. }
  unfold get_state. fold n. rewrite Hm1.
  destruct (PyDict.get n (models (model_manager p))) as [h|] eqn:Hget.
  - unfold ret. intros [= <- <-]. left. eauto 8.
  - intros H. apply load_model_trace in H as [Htr Hdev]. right.
    split; [reflexivity|]. unfold device_step in *. rewrite Hm1 in Hdev.
    split; [|exact Hdev].
    destruct Htr; rewrite ?Hm1, ?Hc1 in *.
    + now apply load_trace_before_constructor.
    + now apply load_trace_constructor_raised.
    + now apply load_trace_metadata_raised with (h := h).
    + eapply load_trace_returned; eauto.
Qed.

(** ** More on dicts *)

Section MoreDictFacts.

Variable V : Type.
Implicit Types (d : PyDict.dict V) (k n : string) (v : V).

Lemma get_del_other k n d :
  k <> n -> PyDict.get k (PyDict.del n d) = PyDict.get k d.
Proof.
  intros Hne. induction d as [|[n' v'] d IH]; simpl.
  - reflexivity.
  - destruct (String.eqb_spec n n') as [<-|Hn]; simpl.
    + destruct (String.eqb_spec k n); [contradiction | exact IH].
    + destruct (String.eqb k n'); [reflexivity | exact IH].
Qed.

Lemma get_del_same n d : PyDict.get n (PyDict.del n d) = None.
Proof.
  induction d as [|[n' v'] d IH]; simpl.
  - reflexivity.
  - destruct (String.eqb_spec n n') as [<-|Hn]; simpl.
    + exact IH.
    + destruct (String.eqb_spec n n'); [contradiction | exact IH].
Qed.

Lemma get_set_other k n v d :
  k <> n -> PyDict.get k (PyDict.set n v d) = PyDict.get k d.
Proof.
  intros Hne. induction d as [|[n' v'] d IH]; simpl.
  - destruct (String.eqb_spec k n); [contradiction | reflexivity].
  - destruct (String.eqb_spec n n') as [<-|Hn]; simpl.
    + destruct (String.eqb_spec k n); [contradiction | reflexivity].
    + destruct (String.eqb k n'); [reflexivity | exact IH].
Qed.

Lemma get_none_not_key n d :
  PyDict.get n d = None -> ~ In n (PyDict.keys d).
Proof.
  intros Hget Hin. apply mem_In in Hin. apply mem_get in Hin as [v Hv].
  congruence.
Qed.

Lemma len_nonneg d : 0 <= PyDict.len d.
Proof. unfold PyDict.len. lia. Qed.

End MoreDictFacts.

(** The keys after [set] and [del] depend on the keys alone. *)
Lemma keys_set_congr (V W : Type) n (v : V) (w : W) :
  forall (d : PyDict.dict V) (d' : PyDict.dict W),
    PyDict.keys d = PyDict.keys d' ->
    PyDict.keys (PyDict.set n v d) = PyDict.keys (PyDict.set n w d').
Proof.
  induction d as [|[k x] d IH]; intros [|[k' x'] d'] H; simpl in H;
    try discriminate.
  - reflexivity.
  - injection H as <- H. simpl.
    destruct (String.eqb n k); simpl.
    + now rewrite H.
    + now rewrite (IH d' H).
Qed.

Lemma keys_del_congr (V W : Type) n :
  forall (d : PyDict.dict V) (d' : PyDict.dict W),
    PyDict.keys d = PyDict.keys d' ->
    PyDict.keys (PyDict.del n d) = PyDict.keys (PyDict.del n d').
Proof.
  induction d as [|[k x] d IH]; intros [|[k' x'] d'] H; simpl in H;
    try discriminate.
  - reflexivity.
  - injection H as <- H. simpl.
    destruct (String.eqb n k); simpl.
    + now apply IH.
    + now rewrite (IH d' H).
Qed.

Lemma mem_keys_congr (V W : Type) k (d : PyDict.dict V) (d' : PyDict.dict W) :
  PyDict.keys d = PyDict.keys d' -> PyDict.mem k d = PyDict.mem k d'.
Proof.
  intros H. destruct (PyDict.mem k d) eqn:E, (PyDict.mem k d') eqn:E';
    try reflexivity.
  - apply mem_In in E. rewrite H in E. apply mem_In in E. congruence.
  - apply mem_In in E'. rewrite <- H in E'. apply mem_In in E'. congruence.
Qed.

Lemma evict_oldest_keys_congr
    (ms : PyDict.dict Handle) (info : PyDict.dict ModelInfo) :
  PyDict.keys info = PyDict.keys ms ->
  PyDict.keys (evict_oldest_info ms info) = PyDict.keys (evict_oldest ms).
Proof.
  intros H. unfold evict_oldest_info, evict_oldest.
  destruct (PyDict.keys ms) as [|oldest ks] eqn:Hks; [congruence|].
  assert (Hmem : PyDict.mem oldest info = true).
  { apply mem_In. rewrite H. now left. }
  rewrite Hmem. apply keys_del_congr. congruence.
Qed.

Lemma or_default_idem x d :
  or_default (Some (or_default x d)) d = or_default x d.
Proof.
  unfold or_default. destruct x as [s|].
  - destruct (PyStr.truthy s) eqn:E; [now rewrite E|].
    destruct (PyStr.truthy d); reflexivity.
  - destruct (PyStr.truthy d); reflexivity.
Qed.

(** ** Unloading *)

(** X1.  [unload_model] returns whether the name was cached.  Afterwards
    the name is not cached, its metadata is gone if it was cached, every
    other name has the model and the metadata it had, and nothing was
    constructed; a name that was not cached leaves the process as it is. *)
Theorem unload_model_removes_only_that_model model_name p :
  let (r, p') := unload_model model_name p in
  r = Ok (PyDict.mem model_name (models (model_manager p))) /\
  PyDict.get model_name (models (model_manager p')) = None /\
  (PyDict.mem model_name (models (model_manager p)) = true ->
   PyDict.get model_name (model_info (model_manager p')) = None) /\
  (forall k, k <> model_name ->
     PyDict.get k (models (model_manager p'))
       = PyDict.get k (models (model_manager p)) /\
     PyDict.get k (model_info (model_manager p'))
       = PyDict.get k (model_info (model_manager p))) /\
  constructed p' = constructed p /\
  (PyDict.mem model_name (models (model_manager p)) = false -> p' = p).
Proof.
  destruct p as [[ms info K dev] st t c].
  unfold unload_model, bind, get_state, when, modify, ret.
  cbn -[PyDict.mem PyDict.del PyDict.get].
  destruct (PyDict.mem model_name ms) eqn:Hin;
    cbn -[PyDict.mem PyDict.del PyDict.get].
  - destruct (PyDict.mem model_name info) eqn:Hinfo;
      cbn -[PyDict.mem PyDict.del PyDict.get].
    + repeat split; try discriminate.
      * apply get_del_same.
      * intros _. apply get_del_same.
      * now apply get_del_other.
      * now apply get_del_other.
    + repeat split; try discriminate.
      * apply get_del_same.
      * intros _. unfold PyDict.mem in Hinfo.
        destruct (PyDict.get model_name info); [discriminate|reflexivity].
      * now apply get_del_other.
  - repeat split; try discriminate.
    unfold PyDict.mem in Hin.
    destruct (PyDict.get model_name ms); [discriminate|reflexivity].
Qed.

(** ** Every cached model has its metadata *)

Lemma load_trace_metadata_complete env n p r p' :
  load_trace env n p r p' ->
  metadata_total env -> metadata_complete p -> metadata_complete p'.
Proof.
  unfold metadata_complete.
  intros [e q _ Hm Hi|e q _ _ Hm Hi|e h q _ _ Hraise _ _
         |h dims msl q _ _ _ _ Hm Hi] Htotal Hp.
  - now rewrite Hm, Hi.
  - now rewrite Hm, Hi.
  - exfalso. destruct (Htotal h) as [Hd Hs].
    destruct Hraise as [Hr|Hr]; rewrite Hr in *; discriminate.
  - rewrite Hm, Hi. cbv zeta.
    assert (Hset : PyDict.keys
                     (PyDict.set n
                        {| info_name := n; info_dimensions := dims;
                           info_max_sequence_length := msl;
                           info_device := device (model_manager q) |}
                        (model_info (model_manager p)))
                   = PyDict.keys (PyDict.set n h (models (model_manager p))))
      by now apply keys_set_congr.
    destruct (PyDict.len _ >? _).
    + now apply evict_oldest_keys_congr.
    + exact Hset.
Qed.

Lemma step_metadata_complete settings op p :
  op_metadata_total op -> metadata_complete p ->
  metadata_complete (step settings op p).
Proof.
  intros Hop Hp. destruct op as [env model_name|env model_name| |model_name];
    simpl in *.
  - destruct (get_model settings env model_name p) as [r p'] eqn:H.
    apply get_model_trace in H as [(Hm & _)|(_ & Htr & _)]; simpl.
    + unfold metadata_complete. now rewrite Hm.
    + eapply load_trace_metadata_complete; eauto.
  - destruct (load_model env model_name p) as [r p'] eqn:H.
    apply load_model_trace in H as [Htr _]. simpl.
    eapply load_trace_metadata_complete; eauto.
  - rewrite cleanup_cache_spec. unfold metadata_complete in *.
    destruct p as [[ms info K dev] st t c].
    cbn -[evict_oldest evict_oldest_info] in *.
    now apply evict_oldest_keys_congr.
  - unfold metadata_complete in *.
    destruct p as [[ms info K dev] st t c].
    unfold unload_model, bind, get_state, when, modify, ret.
    cbn -[PyDict.mem PyDict.del] in *.
    destruct (PyDict.mem model_name ms) eqn:Hin; cbn -[PyDict.mem PyDict.del].
    + rewrite (mem_keys_congr model_name info ms Hp), Hin.
      cbn -[PyDict.mem PyDict.del]. now apply keys_del_congr.
    + exact Hp.
Qed.

(** X2.  As long as no model object raises on a metadata query, the cache
    and the metadata stay aligned through every sequence of operations:
    the keys of [model_info] are the keys of [models] in the same order,
    so [get_model_info] finds metadata for every name, other than the
    empty one, that [list_loaded_models] lists. *)
Theorem metadata_stays_complete settings ops p :
  Forall op_metadata_total ops ->
  metadata_complete p ->
  let p' := run settings ops p in
  metadata_complete p' /\
  forall n, In n (list_loaded_models p') -> n <> "" ->
            exists info, get_model_info settings (Some n) p' = Some info.
Proof.
  intros Hops Hp p'.
  assert (Hcomplete : metadata_complete p').
  { unfold p', run. clear p'. revert p Hp.
    induction Hops as [|op ops Hop _ IH]; simpl; intros p Hp.
    - assumption.
    - apply IH. now apply step_metadata_complete. }
  split; [exact Hcomplete|].
  intros n Hin Hne. unfold list_loaded_models in Hin.
  assert (Hn : or_default (Some n) (EMBEDDING_MODEL settings) = n)
    by (unfold or_default; destruct n; [congruence | reflexivity]).
  unfold get_model_info. rewrite Hn. apply mem_get.
  rewrite (mem_keys_congr _ _ (models (model_manager p')) Hcomplete).
  now apply mem_In.
Qed.

Lemma metadata_stays_complete_witness :
  let p' := run default_settings
              [OpGetModel provider_ok None;
               OpGetModel provider_ok (Some "all-mpnet-base-v2");
               OpUnloadModel "all-MiniLM-L6-v2"]
              (initial_process default_settings) in
  metadata_complete p' /\
  forall n, In n (list_loaded_models p') -> n <> "" ->
            exists info, get_model_info default_settings (Some n) p' = Some info.
Proof.
  apply metadata_stays_complete.
  - repeat constructor; intros h; split; reflexivity.
  - reflexivity.
Defined.

(** ** The device *)

Lemma step_device settings op p :
  device (model_manager (step settings op p)) = device (model_manager p) \/
  (device (model_manager p) = "cuda" /\
   device (model_manager (step settings op p)) = "cpu").
Proof.
  destruct op as [env model_name|env model_name| |model_name]; simpl.
  - destruct (get_model settings env model_name p) as [r p'] eqn:H.
    apply get_model_trace in H as [(Hm & _)|(_ & _ & Hdev)]; simpl.
    + left. now rewrite Hm.
    + destruct Hdev as [Hd|(Hc & _ & Hd)]; auto.
  - destruct (load_model env model_name p) as [r p'] eqn:H.
    apply load_model_trace in H as [_ Hdev]. simpl.
    destruct Hdev as [Hd|(Hc & _ & Hd)]; auto.
  - rewrite cleanup_cache_spec. destruct p as [[ms info K dev] st t c].
    now left.
  - destruct p as [[ms info K dev] st t c].
    unfold unload_model, bind, get_state, when, modify, ret.
    cbn -[PyDict.mem PyDict.del].
    destruct (PyDict.mem model_name ms); cbn -[PyDict.mem PyDict.del];
      [destruct (PyDict.mem model_name info)|]; now left.
Qed.

(** X3.  Through every sequence of operations the device of the manager
    either stays what it was or has gone from ["cuda"] to ["cpu"]: it is
    never set to anything else and never set back. *)
Theorem device_only_falls_back_to_cpu settings ops p :
  let p' := run settings ops p in
  device (model_manager p') = device (model_manager p) \/
  (device (model_manager p) = "cuda" /\ device (model_manager p') = "cpu").
Proof.
  unfold run. revert p.
  induction ops as [|op ops IH]; simpl; intros p.
  - now left.
  - destruct (step_device settings op p) as [Hs|[Hc Hs]];
      destruct (IH (step settings op p)) as [Hr|[Hc' Hr]].
    + left. congruence.
    + right. split; congruence.
    + right. split; congruence.
    + rewrite Hs in Hc'. discriminate.
Qed.

Lemma load_model_try_downgrades env model_name p :
  device (model_manager p) = "cuda" ->
  cuda_is_available env = Ok false ->
  let p' := snd (load_model_try env model_name p) in
  device (model_manager p') = "cpu" /\
  constructed p' = (constructed p ++ [(model_name, "cpu")])%list.
Proof.
  destruct p as [[ms info K dev] st t c]. cbn [model_manager device constructed].
  intros -> Havail.
  unfold load_model_try, try_except, bind, get_state, when, modify, ret,
    raise, lift, call_SentenceTransformer.
  cbn -[_cleanup_cache PyDict.set PyDict.len Z.gtb].
  rewrite Havail.
  cbn -[_cleanup_cache PyDict.set PyDict.len Z.gtb].
  destruct (SentenceTransformer env model_name "cpu") as [h|e1];
    [|split; reflexivity].
  destruct (get_sentence_embedding_dimension env h) as [dims|e2];
    [|split; reflexivity].
  destruct (max_seq_length env h) as [msl|e3]; [|split; reflexivity].
  destruct (PyDict.len _ >? _).
  - rewrite cleanup_cache_spec. split; reflexivity.
  - split; reflexivity.
Qed.

(** X4.  When the manager's device is ["cuda"] and the provider answers
    that CUDA is not available, a load whose imports succeed sets the
    device to ["cpu"] and calls the constructor with ["cpu"], and the
    device stays ["cpu"] whether the load then returns or raises. *)
Theorem unavailable_cuda_falls_back_to_cpu env model_name p :
  device (model_manager p) = "cuda" ->
  cuda_is_available env = Ok false ->
  sentence_transformers_imported p = true
    \/ import_sentence_transformers env = None ->
  torch_imported p = true \/ import_torch env = None ->
  let p' := snd (load_model env model_name p) in
  device (model_manager p') = "cpu" /\
  constructed p' = (constructed p ++ [(model_name, "cpu")])%list.
Proof.
  intros Hdev Havail Hst Ht.
  unfold load_model, bind.
  assert (H1 : exists p1,
             load_model_import_sentence_transformers env p = (Ok tt, p1) /\
             model_manager p1 = model_manager p /\
             constructed p1 = constructed p /\
             torch_imported p1 = torch_imported p).
  { destruct p as [mm st t c].
    unfold load_model_import_sentence_transformers, try_except,
      lazy_import_sentence_transformers, bind, get_state, modify, ret, raise.
    cbn in *. destruct st.
    - eexists. repeat split.
    - destruct Hst as [Hst|Hst]; [discriminate|]. rewrite Hst.
      eexists. repeat split. }
  destruct H1 as (p1 & -> & Hm1 & Hc1 & Ht1).
  assert (H2 : exists p2,
             load_model_import_torch env p1 = (Ok tt, p2) /\
             model_manager p2 = model_manager p1 /\
             constructed p2 = constructed p1).
  { rewrite <- Ht1 in Ht. clear - Ht. destruct p1 as [mm st t c].
    unfold load_model_import_torch, try_except, lazy_import_torch, bind,
      get_state, modify, ret, raise.
    cbn in *. destruct t.
    - eexists. repeat split.
    - destruct Ht as [Ht|Ht]; [discriminate|]. rewrite Ht.
      eexists. repeat split. }
  destruct H2 as (p2 & -> & Hm2 & Hc2).
  rewrite <- Hc1, <- Hc2.
  apply load_model_try_downgrades; congruence.
Qed.

Lemma unavailable_cuda_falls_back_to_cpu_witness :
  let settings := with_device_setting "cuda" default_settings in
  let p' := snd (load_model provider_no_cuda "all-MiniLM-L6-v2"
                   (initial_process settings)) in
  device (model_manager p') = "cpu" /\
  constructed p' = [("all-MiniLM-L6-v2", "cpu")].
Proof.
  intros settings.
  apply (@unavailable_cuda_falls_back_to_cpu provider_no_cuda
           "all-MiniLM-L6-v2" (initial_process settings)).
  - reflexivity.
  - reflexivity.
  - right. reflexivity.
  - right. reflexivity.
Defined.

(** ** The trace of constructor calls *)

Lemma load_trace_constructed env n p r p' :
  load_trace env n p r p' ->
  constructed p' = constructed p \/
  constructed p' = (constructed p ++ [(n, device (model_manager p'))])%list.
Proof. intros []; auto. Qed.

Lemma load_trace_cached_were_constructed env n p r p' :
  load_trace env n p r p' ->
  cached_were_constructed p -> cached_were_constructed p'.
Proof.
  unfold cached_were_constructed, constructed_names.
  intros [e q Hc Hm _|e q Hc _ Hm _|e h q Hc _ _ Hm _
         |h dims msl q Hc _ _ _ Hm _] Hp k;
    rewrite Hm, Hc; try rewrite map_app; cbn [map fst].
  - apply Hp.
  - intros Hk. apply in_or_app. left. now apply Hp.
  - rewrite mem_set. intros Hk. apply in_or_app.
    apply orb_true_iff in Hk as [Hk|Hk].
    + right. apply String.eqb_eq in Hk. subst. now left.
    + left. now apply Hp.
  - cbv zeta. intros Hk. apply in_or_app.
    assert (Hk' : PyDict.mem k (PyDict.set n h (models (model_manager p)))
                  = true).
    { destruct (PyDict.len _ >? _); [|exact Hk].
      unfold evict_oldest in Hk.
      destruct (PyDict.keys _); [exact Hk|].
      rewrite mem_del in Hk. now apply andb_true_iff in Hk as [_ Hk]. }
    rewrite mem_set in Hk'. apply orb_true_iff in Hk' as [Hk'|Hk'].
    + right. apply String.eqb_eq in Hk'. subst. now left.
    + left. now apply Hp.
Qed.

Lemma step_constructed settings op p :
  constructed (step settings op p) = constructed p \/
  exists n dev,
    constructed (step settings op p) = (constructed p ++ [(n, dev)])%list.
Proof.
  destruct op as [env model_name|env model_name| |model_name]; simpl.
  - destruct (get_model settings env model_name p) as [r p'] eqn:H.
    apply get_model_trace in H as [(_ & Hc & _)|(_ & Htr & _)]; simpl.
    + now left.
    + apply load_trace_constructed in Htr as [Hc|Hc]; eauto.
  - destruct (load_model env model_name p) as [r p'] eqn:H.
    apply load_model_trace in H as [Htr _]. simpl.
    apply load_trace_constructed in Htr as [Hc|Hc]; eauto.
  - rewrite cleanup_cache_spec. destruct p as [[ms info K dev] st t c].
    now left.
  - destruct p as [[ms info K dev] st t c].
    unfold unload_model, bind, get_state, when, modify, ret.
    cbn -[PyDict.mem PyDict.del].
    destruct (PyDict.mem model_name ms); cbn -[PyDict.mem PyDict.del];
      [destruct (PyDict.mem model_name info)|]; now left.
Qed.

Lemma step_cached_were_constructed settings op p :
  cached_were_constructed p -> cached_were_constructed (step settings op p).
Proof.
  intros Hp. destruct op as [env model_name|env model_name| |model_name];
    simpl.
  - destruct (get_model settings env model_name p) as [r p'] eqn:H.
    apply get_model_trace in H as [(Hm & Hc & _)|(_ & Htr & _)]; simpl.
    + unfold cached_were_constructed, constructed_names in *.
      now rewrite Hm, Hc.
    + eapply load_trace_cached_were_constructed; eauto.
  - destruct (load_model env model_name p) as [r p'] eqn:H.
    apply load_model_trace in H as [Htr _]. simpl.
    eapply load_trace_cached_were_constructed; eauto.
  - rewrite cleanup_cache_spec.
    unfold cached_were_constructed, constructed_names in *.
    destruct p as [[ms info K dev] st t c]. cbn -[evict_oldest] in *.
    intros k Hk. apply Hp. unfold evict_oldest in Hk.
    destruct (PyDict.keys ms); [exact Hk|].
    rewrite mem_del in Hk. now apply andb_true_iff in Hk as [_ Hk].
  - unfold cached_were_constructed, constructed_names in *.
    destruct p as [[ms info K dev] st t c].
    unfold unload_model, bind, get_state, when, modify, ret.
    cbn -[PyDict.mem PyDict.del] in *.
    destruct (PyDict.mem model_name ms) eqn:Hin; cbn -[PyDict.mem PyDict.del].
    + destruct (PyDict.mem model_name info); cbn -[PyDict.mem PyDict.del];
        intros k Hk; apply Hp; rewrite mem_del in Hk;
        now apply andb_true_iff in Hk as [_ Hk].
    + exact Hp.
Qed.

(** X5.  Whatever operations have run since the service started, with
    whatever providers, the trace of constructor calls has grown by at
    most one call per operation, and every cached name is the name of a
    constructor call that was made: the cache never holds a model that the
    provider was not asked to construct. *)
Theorem cached_models_were_constructed settings ops :
  let p := run settings ops (initial_process settings) in
  cached_were_constructed p /\
  (List.length (constructed p) <= List.length ops)%nat.
Proof.
  assert (H : forall p,
             cached_were_constructed p ->
             cached_were_constructed (run settings ops p) /\
             (List.length (constructed (run settings ops p))
              <= List.length (constructed p) + List.length ops)%nat).
  { unfold run. induction ops as [|op ops IH]; simpl; intros p Hp.
    - split; [assumption | lia].
    - destruct (IH (step settings op p)
                  (step_cached_were_constructed settings op Hp)) as [H1 H2].
      split; [exact H1|].
      destruct (step_constructed settings op p) as [Hc|(n & dev & Hc)];
        rewrite Hc in H2; [|rewrite length_app in H2; simpl in H2]; lia. }
  destruct (H (initial_process settings)) as [H1 H2].
  - intros k Hk. discriminate.
  - split; [exact H1 | exact H2].
Qed.

(** ** Hits, insertion order and capacity *)

Lemma get_model_hit settings env model_name p h :
  imports_consistent p ->
  PyDict.get (or_default model_name (EMBEDDING_MODEL settings))
    (models (model_manager p)) = Some h ->
  get_model settings env model_name p = (Ok h, p).
Proof.
  intros Hcons Hget.
  assert (Hst : sentence_transformers_imported p = true).
  { apply Hcons. intros Hnil. rewrite Hnil in Hget. discriminate. }
  unfold get_model, bind.
  destruct (lazy_import_sentence_transformers env p) as [r0 p0] eqn:H0.
  apply lazy_import_sentence_transformers_spec in H0 as (_ & _ & Hold & _).
  destruct (Hold Hst) as [-> ->].
  unfold get_state. rewrite Hget. reflexivity.
Qed.

(** X6.  The cache evicts by insertion order, not by use.  When the cache
    is full, a [get_model] that hits its oldest entry does not move it:
    the next [get_model] that loads a new model evicts that very entry,
    although it was the last one used. *)
Theorem hit_does_not_protect_from_eviction
    settings env1 env2 name1 name2 p oldest rest :
  imports_consistent p ->
  list_loaded_models p = oldest :: rest ->
  NoDup (oldest :: rest) ->
  cache_size p = max_cache_size (model_manager p) ->
  or_default name1 (EMBEDDING_MODEL settings) = oldest ->
  ~ In (or_default name2 (EMBEDDING_MODEL settings)) (oldest :: rest) ->
  is_ok (fst (get_model settings env2 name2 p)) = true ->
  let (r1, p1) := get_model settings env1 name1 p in
  let (r2, p2) := get_model settings env2 name2 p1 in
  is_ok r1 = true /\ p1 = p /\
  list_loaded_models p2
  = (rest ++ [or_default name2 (EMBEDDING_MODEL settings)])%list.
Proof.
  intros Hcons Hkeys Hnd Hfull Hname1 Hnew Hok.
  unfold list_loaded_models in Hkeys.
  assert (Hhit : exists h, PyDict.get oldest (models (model_manager p))
                           = Some h).
  { apply mem_get. apply mem_In. rewrite Hkeys. now left. }
  destruct Hhit as [h Hh]. rewrite <- Hname1 in Hh.
  rewrite (get_model_hit settings env1 name1 Hcons Hh).
  destruct (get_model settings env2 name2 p) as [r2 p2] eqn:H2.
  simpl in Hok. destruct r2 as [h2|e]; [|discriminate].
  split; [reflexivity|]. split; [reflexivity|].
  apply get_model_outcome in H2
    as [_ [(e & He & _)|[(h' & Hhit' & _)|[_ Hout]]]].
  - discriminate.
  - exfalso. apply Hnew. rewrite <- Hkeys. apply mem_In. apply mem_get. eauto.
  - rewrite <- Hkeys in Hnd, Hnew.
    pose proof (load_returned_keys Hout Hnd Hnew) as Hk. cbv zeta in Hk.
    unfold list_loaded_models. rewrite Hk.
    unfold cache_size, PyDict.len in Hfull.
    assert (Hlen : List.length (PyDict.keys (models (model_manager p)))
                   = List.length (models (model_manager p)))
      by apply length_map.
    destruct (Z.gtb_spec
                (Z.of_nat (List.length
                             (PyDict.keys (models (model_manager p))
                              ++ [or_default name2 (EMBEDDING_MODEL settings)])))
                (max_cache_size (model_manager p))) as [_|Hle].
    + rewrite Hkeys. reflexivity.
    + rewrite length_app in Hle. simpl in Hle. lia.
Qed.

Lemma hit_does_not_protect_from_eviction_witness :
  let settings := with_cache_size 2 default_settings in
  let p := snd (get_models settings
                  [(provider_ok, None);
                   (provider_ok, Some "all-mpnet-base-v2")]
                  (initial_process settings)) in
  let (r1, p1) := get_model settings provider_ok None p in
  let (r2, p2) :=
    get_model settings provider_ok (Some "all-MiniLM-L12-v2") p1 in
  is_ok r1 = true /\ p1 = p /\
  list_loaded_models p2 = ["all-mpnet-base-v2"; "all-MiniLM-L12-v2"].
Proof.
  intros settings p.
  apply (@hit_does_not_protect_from_eviction settings provider_ok provider_ok
           None (Some "all-MiniLM-L12-v2") p
           "all-MiniLM-L6-v2" ["all-mpnet-base-v2"]).
  - intros _. reflexivity.
  - reflexivity.
  - repeat constructor; simpl; intuition discriminate.
  - reflexivity.
  - reflexivity.
  - simpl. intuition discriminate.
  - reflexivity.
Defined.

(** The model a miss has loaded is in the cache afterwards, when the
    capacity is at least 1. *)
Lemma get_after_insertion (V : Type) n (v : V) (ms : PyDict.dict V) K :
  1 <= K ->
  PyDict.get n ms = None ->
  PyDict.get n (if PyDict.len (PyDict.set n v ms) >? K
                then evict_oldest (PyDict.set n v ms)
                else PyDict.set n v ms)
  = Some v.
Proof.
  intros HK Hnone.
  destruct (Z.gtb_spec (PyDict.len (PyDict.set n v ms)) K) as [Hgt|_];
    [|apply get_set_same].
  destruct ms as [|[o x] ms].
  - unfold PyDict.len in Hgt. simpl in Hgt. lia.
  - simpl in Hnone. simpl.
    destruct (String.eqb_spec n o) as [->|Hne]; [discriminate|].
    unfold evict_oldest. cbn [PyDict.keys map fst].
    rewrite get_del_other by assumption.
    simpl. destruct (String.eqb_spec n o); [contradiction|].
    apply get_set_same.
Qed.

Lemma get_info_after_insertion n h i
    (ms : PyDict.dict Handle) (info : PyDict.dict ModelInfo) K :
  1 <= K ->
  PyDict.get n ms = None ->
  PyDict.get n (if PyDict.len (PyDict.set n h ms) >? K
                then evict_oldest_info (PyDict.set n h ms)
                       (PyDict.set n i info)
                else PyDict.set n i info)
  = Some i.
Proof.
  intros HK Hnone.
  destruct (Z.gtb_spec (PyDict.len (PyDict.set n h ms)) K) as [Hgt|_];
    [|apply get_set_same].
  destruct ms as [|[o x] ms].
  - unfold PyDict.len in Hgt. simpl in Hgt. lia.
  - simpl in Hnone. simpl PyDict.set.
    destruct (String.eqb_spec n o) as [->|Hne]; [discriminate|].
    unfold evict_oldest_info. cbn [PyDict.keys map fst].
    destruct (PyDict.mem o (PyDict.set n i info)).
    + rewrite get_del_other by assumption. apply get_set_same.
    + apply get_set_same.
Qed.

(** X7.  With a capacity of at least 1, the model that [get_model] returns
    is the one the cache holds under the looked-up name afterwards; and
    when the call loaded it, [get_model_info] returns for that name the
    dimension and the sequence length the model object answered and the
    device the manager then has. *)
Theorem get_model_caches_what_it_returns settings env model_name p h p' :
  1 <= max_cache_size (model_manager p) ->
  get_model settings env model_name p = (Ok h, p') ->
  let n := or_default model_name (EMBEDDING_MODEL settings) in
  PyDict.get n (models (model_manager p')) = Some h /\
  (PyDict.get n (models (model_manager p)) = None ->
   exists dims msl,
     get_sentence_embedding_dimension env h = Ok dims /\
     max_seq_length env h = Ok msl /\
     get_model_info settings (Some n) p'
     = Some {| info_name := n;
               info_dimensions := dims;
               info_max_sequence_length := msl;
               info_device := device (model_manager p') |}).
Proof.
  intros HK Hget n.
  apply get_model_trace in Hget as [(Hm & _ & Hr)|(Hnone & Htr & _)];
    fold n in Hr || fold n in Hnone, Htr.
  - destruct Hr as [(e & He)|(h' & Hh & Hr)]; [discriminate|].
    injection Hr as <-. rewrite Hm. split; [exact Hh|].
    intros Hnone. congruence.
  - inversion Htr as [| | |h' dims msl q _ _ Hdim Hmsl Hm Hi]; subst.
    split.
    + rewrite Hm. now apply get_after_insertion.
    + intros _. exists dims, msl. split; [exact Hdim|]. split; [exact Hmsl|].
      unfold get_model_info. unfold n at 1. rewrite or_default_idem.
      fold n. rewrite Hi. now apply get_info_after_insertion.
Qed.

Lemma get_model_caches_what_it_returns_witness :
  let p' := snd (get_model default_settings provider_ok None
                   (initial_process default_settings)) in
  PyDict.get "all-MiniLM-L6-v2" (models (model_manager p')) = Some 16%nat /\
  (PyDict.get "all-MiniLM-L6-v2"
     (models (model_manager (initial_process default_settings))) = None ->
   exists dims msl,
     get_sentence_embedding_dimension provider_ok 16%nat = Ok dims /\
     max_seq_length provider_ok 16%nat = Ok msl /\
     get_model_info default_settings (Some "all-MiniLM-L6-v2") p'
     = Some {| info_name := "all-MiniLM-L6-v2";
               info_dimensions := dims;
               info_max_sequence_length := msl;
               info_device := device (model_manager p') |}).
Proof.
  intros p'.
  apply (@get_model_caches_what_it_returns default_settings provider_ok None
           (initial_process default_settings) 16%nat p').
  - simpl. lia.
  - reflexivity.
Defined.

Lemma get_model_without_capacity settings env model_name p :
  max_cache_size (model_manager p) <= 0 ->
  metadata_total env ->
  models (model_manager p) = [] ->
  model_info (model_manager p) = [] ->
  let (r, p') := get_model settings env model_name p in
  models (model_manager p') = [] /\
  model_info (model_manager p') = [] /\
  max_cache_size (model_manager p') = max_cache_size (model_manager p) /\
  (is_ok r = true ->
   List.length (constructed p') = S (List.length (constructed p))) /\
  (List.length (constructed p) <= List.length (constructed p'))%nat.
Proof.
  intros HK Htotal Hms Hinfo.
  destruct (get_model settings env model_name p) as [r p'] eqn:H.
  pose proof (get_model_outcome _ _ _ _ H) as [Hcap _].
  apply get_model_trace in H as [(Hm & Hc & Hr)|(_ & Htr & _)].
  - rewrite Hm, Hc. repeat split; auto.
    destruct Hr as [(e & ->)|(h & Hh & _)]; [discriminate|].
    rewrite Hms in Hh. discriminate.
  - destruct Htr as [e q Hc Hm Hi|e q Hc _ Hm Hi|e h q _ _ Hraise _ _
                    |h dims msl q Hc _ _ _ Hm Hi].
    + rewrite Hm, Hi, Hc. repeat split; auto. discriminate.
    + rewrite Hm, Hi, Hc.
      repeat split; auto; try discriminate; rewrite ?length_app; simpl; lia.
    + exfalso. destruct (Htotal h) as [Hd Hs].
      destruct Hraise as [Hr|Hr]; rewrite Hr in *; discriminate.
    + rewrite Hm, Hi, Hc, Hms, Hinfo. cbv zeta.
      cbn [PyDict.set].
      match goal with
      | |- context [PyDict.len ?d >? ?k] =>
          replace (PyDict.len d >? k) with true
            by (symmetry; apply Z.gtb_lt; unfold PyDict.len; simpl; lia)
      end.
      unfold evict_oldest, evict_oldest_info.
      cbn [PyDict.keys map fst].
      rewrite mem_cons, String.eqb_refl. cbn [orb].
      unfold PyDict.del. cbn [filter fst]. rewrite String.eqb_refl.
      cbn [negb].
      repeat split; auto; intros; rewrite ?length_app; simpl; lia.
Qed.

(** X8.  A capacity of 0 or less keeps nothing: starting with an empty
    cache, and as long as no model object raises on a metadata query,
    the cache is empty again after every [get_model], so every call that
    returns a model has constructed it anew. *)
Theorem no_capacity_keeps_no_model settings calls p :
  max_cache_size (model_manager p) <= 0 ->
  Forall (fun call => metadata_total (fst call)) calls ->
  models (model_manager p) = [] ->
  model_info (model_manager p) = [] ->
  let (rs, p') := get_models settings calls p in
  list_loaded_models p' = [] /\
  model_info (model_manager p') = [] /\
  (List.length (filter is_ok rs) + List.length (constructed p)
   <= List.length (constructed p'))%nat.
Proof.
  revert p. induction calls as [|[env model_name] calls IH];
    intros p HK Hall Hms Hinfo; simpl.
  - unfold list_loaded_models. rewrite Hms. repeat split; auto.
  - inversion Hall as [|? ? Henv Hrest]; subst. simpl in Henv.
    pose proof (@get_model_without_capacity settings env model_name p
                  HK Henv Hms Hinfo) as Hstep.
    destruct (get_model settings env model_name p) as [r p1].
    destruct Hstep as (Hms1 & Hinfo1 & Hcap & Hok & Hmono).
    rewrite <- Hcap in HK.
    specialize (IH p1 HK Hrest Hms1 Hinfo1).
    destruct (get_models settings calls p1) as [rs p2].
    destruct IH as (Hk & Hi & Hcount).
    split; [exact Hk|]. split; [exact Hi|].
    simpl. destruct (is_ok r) eqn:Er; simpl.
    + specialize (Hok eq_refl). lia.
    + lia.
Qed.

Lemma no_capacity_keeps_no_model_witness :
  let settings := with_cache_size 0 default_settings in
  let (rs, p') :=
    get_models settings [(provider_ok, None); (provider_ok, None)]
      (initial_process settings) in
  list_loaded_models p' = [] /\
  model_info (model_manager p') = [] /\
  (List.length (filter is_ok rs)
   + List.length (constructed (initial_process settings))
   <= List.length (constructed p'))%nat.
Proof.
  intros settings.
  apply (@no_capacity_keeps_no_model settings
           [(provider_ok, None); (provider_ok, None)]
           (initial_process settings)).
  - simpl. lia.
  - repeat constructor; intros h; split; reflexivity.
  - reflexivity.
  - reflexivity.
Defined.

(** X9.  [_cleanup_cache] never raises.  On an empty cache it changes
    nothing; otherwise it removes the first name of the cache, with its
    metadata, and leaves every other name with the model and the
    metadata it had. *)
Theorem cleanup_cache_removes_the_oldest p :
  let (r, p') := _cleanup_cache p in
  r = Ok tt /\
  constructed p' = constructed p /\
  match list_loaded_models p with
  | [] => p' = p
  | oldest :: _ =>
      PyDict.get oldest (models (model_manager p')) = None /\
      PyDict.get oldest (model_info (model_manager p')) = None /\
      forall k, k <> oldest ->
        PyDict.get k (models (model_manager p'))
          = PyDict.get k (models (model_manager p)) /\
        PyDict.get k (model_info (model_manager p'))
          = PyDict.get k (model_info (model_manager p))
  end.
Proof.
  rewrite cleanup_cache_spec.
  destruct p as [[ms info K dev] st t c].
  unfold list_loaded_models, evict_oldest, evict_oldest_info.
  cbn -[PyDict.del PyDict.mem PyDict.get].
  split; [reflexivity|]. split; [reflexivity|].
  destruct ms as [|[oldest v] ms]; cbn -[PyDict.del PyDict.mem PyDict.get].
  - reflexivity.
  - split; [apply get_del_same|].
    destruct (PyDict.mem oldest info) eqn:Hmem.
    + split; [apply get_del_same|].
      intros k Hk. split; now apply get_del_other.
    + split.
      * unfold PyDict.mem in Hmem.
        destruct (PyDict.get oldest info); [discriminate|reflexivity].
      * intros k Hk. split; [now apply get_del_other | reflexivity].
Qed.

(** ** More on the name mapper *)

Lemma mapped_values settings key mapped :
  PyDict.get key (model_name_map (EmbeddingService_init settings))
    = Some mapped ->
  mapped = "all-MiniLM-L6-v2" \/ mapped = "all-mpnet-base-v2".
Proof.
  simpl.
  repeat match goal with
         | |- context [String.eqb key ?k] => destruct (String.eqb key k)
         end;
    intros [= <-] || discriminate; auto.
Qed.

Lemma map_model_name_result settings name :
  name <> "" ->
  let self := EmbeddingService_init settings in
  (_map_model_name self (Some name) = name /\
   (existsb (fun pattern => PyStr.contains pattern (PyStr.lower name))
      sentence_transformers_patterns = true \/
    PyDict.get (PyStr.lower name) (model_name_map self) = None)) \/
  _map_model_name self (Some name) = "all-MiniLM-L6-v2" \/
  _map_model_name self (Some name) = "all-mpnet-base-v2".
Proof.
  intros Hne self. unfold _map_model_name.
  destruct name as [|c s]; [congruence|]. cbn [PyStr.truthy negb].
  destruct (existsb _ sentence_transformers_patterns) eqn:Hpat; [auto|].
  destruct (PyDict.get (PyStr.lower (String c s)) (model_name_map self))
    as [m|] eqn:Hget; [|auto].
  right. destruct (mapped_values _ _ Hget) as [-> | ->]; auto.
Qed.

(** X10.  On every name that is not empty, [_map_model_name] is
    idempotent: the name it returns is mapped to itself.  That name is
    never one of the keys of the table of foreign names, in any case of
    letters, and is never empty. *)
Theorem map_model_name_idempotent settings name :
  name <> "" ->
  let self := EmbeddingService_init settings in
  let mapped := _map_model_name self (Some name) in
  _map_model_name self (Some mapped) = mapped /\
  PyDict.get (PyStr.lower mapped) (model_name_map self) = None /\
  mapped <> "".
Proof.
  intros Hne self mapped.
  destruct (map_model_name_result settings Hne) as [[Hsame Hwhy]|[Hm|Hm]];
    fold self in Hsame || fold self in Hm; fold mapped in Hsame || fold mapped in Hm.
  - rewrite Hsame.
    assert (Hnokey : PyDict.get (PyStr.lower name) (model_name_map self)
                     = None).
    { destruct Hwhy as [Hpat|Hnone]; [|exact Hnone].
      destruct (PyDict.get (PyStr.lower name) (model_name_map self))
        as [m|] eqn:Hget; [|reflexivity].
      apply mapped_key_is_no_pattern in Hget as (_ & _ & Hno). congruence. }
    split; [exact Hsame|]. split; [exact Hnokey | exact Hne].
  - rewrite Hm. repeat split; try reflexivity. discriminate.
  - rewrite Hm. repeat split; try reflexivity. discriminate.
Qed.

Lemma map_model_name_idempotent_witness :
  let self := EmbeddingService_init default_settings in
  let mapped := _map_model_name self (Some "Text-Embedding-3-Large") in
  _map_model_name self (Some mapped) = mapped /\
  PyDict.get (PyStr.lower mapped) (model_name_map self) = None /\
  mapped <> "".
Proof.
  apply (@map_model_name_idempotent default_settings "Text-Embedding-3-Large").
  discriminate.
Defined.

(** ** More on truncation *)

Lemma length_take n s :
  String.length (PyStr.take n s) = Nat.min n (String.length s).
Proof.
  revert s. induction n as [|n IH]; intros [|c s]; simpl; auto.
Qed.

Lemma take_all n s : (String.length s <= n)%nat -> PyStr.take n s = s.
Proof.
  revert s. induction n as [|n IH]; intros [|c s]; simpl; intros H;
    try reflexivity; try lia.
  f_equal. apply IH. lia.
Qed.

(** X11.  When [max_text_length] is not negative, the text that is
    encoded has the length of the input or [max_text_length], whichever is
    smaller, and truncating it again changes nothing. *)
Theorem truncated_length_is_bounded self text :
  0 <= max_text_length self ->
  PyStr.len (truncate_text self text)
    = Z.min (PyStr.len text) (max_text_length self) /\
  truncate_text self (truncate_text self text) = truncate_text self text.
Proof.
  intros Hmax.
  assert (Hlen : forall t, PyStr.len (truncate_text self t)
                           = Z.min (PyStr.len t) (max_text_length self)).
  { intros t. rewrite truncate_text_spec by assumption.
    unfold spec_truncate, PyStr.len.
    destruct (Z.gtb_spec (Z.of_nat (String.length t)) (max_text_length self));
      [rewrite length_take|]; lia. }
  split; [apply Hlen|].
  unfold truncate_text at 1.
  destruct (Z.gtb_spec (PyStr.len (truncate_text self text))
              (max_text_length self)) as [Hgt|_]; [|reflexivity].
  rewrite Hlen in Hgt. lia.
Qed.

Lemma truncated_length_is_bounded_witness :
  let self := EmbeddingService_init (with_max_text_length 3 default_settings) in
  PyStr.len (truncate_text self "hello") = Z.min (PyStr.len "hello") 3 /\
  truncate_text self (truncate_text self "hello") = truncate_text self "hello".
Proof.
  intros self.
  apply (@truncated_length_is_bounded self "hello").
  simpl. lia.
Defined.

(** X12.  When [max_text_length] is negative, every text counts as too
    long, the empty one included, and what is encoded is the text without
    its last [- max_text_length] characters (nothing, when it has no
    more than that). *)
Theorem negative_max_length_cuts_from_the_end self text :
  max_text_length self < 0 ->
  truncate_text self text
  = PyStr.take (Z.to_nat (PyStr.len text + max_text_length self)) text.
Proof.
  intros Hneg. unfold truncate_text, PyStr.slice_to, PyStr.clamp.
  destruct (Z.gtb_spec (PyStr.len text) (max_text_length self)) as [_|Hle].
  - destruct (Z.ltb_spec (max_text_length self) 0) as [_|Hge]; [|lia].
    f_equal. unfold PyStr.len. lia.
  - unfold PyStr.len in Hle. lia.
Qed.

Lemma negative_max_length_cuts_from_the_end_witness :
  let self :=
    EmbeddingService_init (with_max_text_length (-2) default_settings) in
  truncate_text self "hello" = "hel".
Proof.
  intros self.
  rewrite (@negative_max_length_cuts_from_the_end self "hello")
    by (simpl; lia).
  reflexivity.
Defined.

(** ** More on batches *)

Section BatchFacts.

Variable F : Type.

Lemma encode_batches_chunk_raises
    (encode_list : Handle -> bool -> Z -> list string -> Result (list (list F)))
    self model normalize processed starts i :
  In i starts ->
  is_ok (encode_list model normalize (batch_size self)
           (py_slice processed i (i + batch_size self))) = false ->
  forall acc,
    is_ok (encode_batches encode_list self model normalize processed
             starts acc) = false.
Proof.
  induction starts as [|j starts IH]; intros Hin Hraise acc; simpl.
  - contradiction.
  - destruct (encode_list model normalize (batch_size self)
                (py_slice processed j (j + batch_size self)))
      as [vs|e] eqn:Hj; [|reflexivity].
    destruct Hin as [->|Hin].
    + rewrite Hj in Hraise. discriminate.
    + now apply IH.
Qed.

Lemma encode_batches_agree
    (encode_list encode_list'
       : Handle -> bool -> Z -> list string -> Result (list (list F)))
    self model normalize processed starts :
  (forall i, In i starts ->
     encode_list model normalize (batch_size self)
       (py_slice processed i (i + batch_size self))
     = encode_list' model normalize (batch_size self)
         (py_slice processed i (i + batch_size self))) ->
  forall acc,
    encode_batches encode_list self model normalize processed starts acc
    = encode_batches encode_list' self model normalize processed starts acc.
Proof.
  induction starts as [|j starts IH]; intros Hagree acc; simpl.
  - reflexivity.
  - rewrite <- (Hagree j) by now left.
    destruct (encode_list model normalize (batch_size self) _);
      [|reflexivity].
    apply IH. intros i Hi. apply Hagree. now right.
Qed.

End BatchFacts.

(** The chunks of the loop, for a positive batch size: each has at least
    one text and at most [b]. *)
Lemma chunk_length (A : Type) (l : list A) (b : nat) (i : Z) :
  (0 < b)%nat ->
  In i (map (fun k => Z.of_nat (k * b))
          (seq 0 (Z.to_nat ((Z.of_nat (List.length l) + Z.of_nat b - 1)
                            / Z.of_nat b)))) ->
  (1 <= List.length (py_slice l i (i + Z.of_nat b)) <= b)%nat.
Proof.
  intros Hb Hin. apply in_map_iff in Hin as (k & <- & Hk).
  apply in_seq in Hk.
  set (n := List.length l) in *.
  assert (Hkb : (k * b < n)%nat).
  { assert (Hc : (Z.of_nat n + Z.of_nat b - 1) / Z.of_nat b * Z.of_nat b
                 <= Z.of_nat n + Z.of_nat b - 1).
    { pose proof (Z.div_mod (Z.of_nat n + Z.of_nat b - 1) (Z.of_nat b)
                    ltac:(lia)) as Hdm.
      pose proof (Z.mod_pos_bound (Z.of_nat n + Z.of_nat b - 1) (Z.of_nat b)
                    ltac:(lia)) as Hmod.
      nia. }
    assert (H0 : 0 <= (Z.of_nat n + Z.of_nat b - 1) / Z.of_nat b)
      by (apply Z.div_pos; lia).
    nia. }
  rewrite py_slice_chunk by (fold n; lia).
  rewrite length_firstn, length_skipn. fold n. lia.
Qed.

(** X13.  A batch has no partial result: when the encoder raises on any
    one chunk of the loop, [generate_embeddings_batch] raises, whatever
    the other chunks gave, and the process is as the model lookup left
    it. *)
Theorem batch_fails_when_a_chunk_fails settings (F : Type)
    (encode_list : Handle -> bool -> Z -> list string -> Result (list (list F)))
    self env env' texts model_name normalize p model name p' starts i :
  texts <> [] ->
  get_model_or_default settings self env env'
    (_map_model_name self model_name) p = (Ok (model, name), p') ->
  py_range 0 (Z.of_nat (List.length texts)) (batch_size self) = Ok starts ->
  In i starts ->
  is_ok (encode_list model normalize (batch_size self)
           (py_slice (map (truncate_text self) texts) i
              (i + batch_size self))) = false ->
  exists e,
    generate_embeddings_batch settings encode_list self env env'
      texts model_name normalize p
    = (Raise e, p').
Proof.
  intros Hne Hgot Hrange Hin Hraise.
  erewrite generate_embeddings_batch_after_get by eassumption.
  unfold encoded_many. rewrite length_map, Hrange.
  pose proof (encode_batches_chunk_raises encode_list self model normalize
                (map (truncate_text self) texts) starts i Hin Hraise [])
    as Hfail.
  destruct (encode_batches _ _ _ _ _ _ _) as [vs|e]; [discriminate|].
  eauto.
Qed.

Lemma batch_fails_when_a_chunk_fails_witness :
  let settings := with_batch_size 2 default_settings in
  let self := EmbeddingService_init settings in
  let encode_list :=
    fun (h : Handle) (nz : bool) (bs : Z) (texts : list string) =>
      if existsb (String.eqb "") texts
      then Raise (OtherError "empty text")
      else encode_list_length h nz bs texts in
  exists e p',
    generate_embeddings_batch settings encode_list self
      provider_ok provider_ok ["a"; "b"; ""] None false
      (initial_process settings)
    = (Raise e, p').
Proof.
  intros settings self encode_list.
  destruct (@batch_fails_when_a_chunk_fails settings Z encode_list self
              provider_ok provider_ok ["a"; "b"; ""] None false
              (initial_process settings) _ _ _ [0; 2] 2
              ltac:(discriminate) eq_refl eq_refl
              ltac:(simpl; tauto) eq_refl) as [e He].
  eauto.
Defined.

(** X14.  With a batch size of at least 1, the encoder is only ever given
    chunks of at least one and at most [batch_size] texts: two encoders
    that agree on such lists make [generate_embeddings_batch] end the
    same way on every input. *)
Theorem batch_only_encodes_bounded_chunks settings (F : Type)
    (encode_list encode_list'
       : Handle -> bool -> Z -> list string -> Result (list (list F)))
    self env env' texts model_name normalize p :
  1 <= batch_size self ->
  (forall h nz chunk,
     1 <= Z.of_nat (List.length chunk) <= batch_size self ->
     encode_list h nz (batch_size self) chunk
     = encode_list' h nz (batch_size self) chunk) ->
  generate_embeddings_batch settings encode_list self env env'
    texts model_name normalize p
  = generate_embeddings_batch settings encode_list' self env env'
      texts model_name normalize p.
Proof.
  intros Hbs Hagree.
  destruct texts as [|t texts]; [reflexivity|].
  destruct (get_model_or_default settings self env env'
              (_map_model_name self model_name) p) as [r p'] eqn:Hgot.
  assert (Hne : t :: texts <> []) by discriminate.
  erewrite (generate_embeddings_batch_after_get settings encode_list)
    by eassumption.
  erewrite (generate_embeddings_batch_after_get settings encode_list')
    by eassumption.
  destruct r as [[model name]|e]; [|reflexivity].
  f_equal. unfold encoded_many.
  set (processed := map (truncate_text self) (t :: texts)).
  set (b := Z.to_nat (batch_size self)).
  assert (Hb : batch_size self = Z.of_nat b) by (unfold b; lia).
  assert (Hpos : (0 < b)%nat) by lia.
  assert (Hrange := py_range_positive (List.length processed) Hpos).
  rewrite <- Hb in Hrange. rewrite Hrange.
  erewrite encode_batches_agree; [reflexivity|].
  intros i Hi. apply Hagree.
  rewrite Hb in Hi |- *.
  pose proof (@chunk_length _ processed b i Hpos Hi). lia.
Qed.

Lemma batch_only_encodes_bounded_chunks_witness :
  let settings := with_batch_size 2 default_settings in
  let self := EmbeddingService_init settings in
  let encode_list' :=
    fun (h : Handle) (nz : bool) (bs : Z) (texts : list string) =>
      if (2 <? Z.of_nat (List.length texts))
      then Raise (OtherError "too many texts")
      else encode_list_length h nz bs texts in
  generate_embeddings_batch settings encode_list_length self
    provider_ok provider_ok ["a"; "b"; "c"; "d"; "e"] None false
    (initial_process settings)
  = generate_embeddings_batch settings encode_list' self
      provider_ok provider_ok ["a"; "b"; "c"; "d"; "e"] None false
      (initial_process settings).
Proof.
  intros settings self encode_list'.
  apply batch_only_encodes_bounded_chunks.
  - simpl. lia.
  - intros h nz chunk Hlen. unfold encode_list'. simpl in Hlen.
    destruct (Z.ltb_spec 2 (Z.of_nat (List.length chunk))); [lia|reflexivity].
Defined.

Lemma encoded_many_batch_size_zero (F : Type)
    (encode_list : Handle -> bool -> Z -> list string -> Result (list (list F)))
    self model name normalize processed :
  batch_size self = 0 ->
  encoded_many encode_list self model name normalize processed
  = Raise (ValueError "range() arg 3 must not be zero").
Proof. intros Hbs. unfold encoded_many, py_range. now rewrite Hbs. Qed.

Lemma encoded_many_batch_size_negative (F : Type)
    (encode_list : Handle -> bool -> Z -> list string -> Result (list (list F)))
    self model name normalize processed :
  batch_size self < 0 ->
  encoded_many encode_list self model name normalize processed
  = Ok ([], name, 0).
Proof.
  intros Hbs. unfold encoded_many, py_range.
  destruct (Z.eqb_spec (batch_size self) 0) as [E|_]; [lia|].
  destruct (Z.gtb_spec (batch_size self) 0) as [Hgt|_]; [lia|].
  match goal with
  | |- context [Z.to_nat ?q] =>
      assert (Hq : q < 1) by (apply Z.div_lt_upper_bound; lia);
      replace (Z.to_nat q) with 0%nat by lia
  end.
  reflexivity.
Qed.

(** X15.  A batch size of 0 makes every batch that got its model raise
    [ValueError], and a negative one makes it return no vector at all
    with dimension 0, however many texts were given. *)
Theorem batch_with_no_positive_batch_size settings (F : Type)
    (encode_list : Handle -> bool -> Z -> list string -> Result (list (list F)))
    self env env' texts model_name normalize p model name p' :
  texts <> [] ->
  get_model_or_default settings self env env'
    (_map_model_name self model_name) p = (Ok (model, name), p') ->
  (batch_size self = 0 ->
   generate_embeddings_batch settings encode_list self env env'
     texts model_name normalize p
   = (Raise (ValueError "range() arg 3 must not be zero"), p')) /\
  (batch_size self < 0 ->
   generate_embeddings_batch settings encode_list self env env'
     texts model_name normalize p
   = (Ok ([], name, 0), p')).
Proof.
  intros Hne Hgot.
  erewrite generate_embeddings_batch_after_get by eassumption.
  split; intros Hbs.
  - now rewrite encoded_many_batch_size_zero.
  - now rewrite encoded_many_batch_size_negative.
Qed.

Lemma batch_with_no_positive_batch_size_witness :
  let settings := with_batch_size (-1) default_settings in
  let self := EmbeddingService_init settings in
  fst (generate_embeddings_batch settings encode_list_length self
         provider_ok provider_ok ["a"; "b"; "c"] None false
         (initial_process settings))
  = Ok ([], "all-MiniLM-L6-v2", 0).
Proof.
  intros settings self.
  destruct (@batch_with_no_positive_batch_size settings Z encode_list_length
              self provider_ok provider_ok ["a"; "b"; "c"] None false
              (initial_process settings) _ _ _
              ltac:(discriminate) eq_refl) as [_ Hneg].
  rewrite Hneg by (simpl; lia). reflexivity.
Defined.

(** ** The service and the cache *)

Lemma get_model_cached_afterwards settings env model_name p h p' :
  1 <= max_cache_size (model_manager p) ->
  get_model settings env model_name p = (Ok h, p') ->
  PyDict.get (or_default model_name (EMBEDDING_MODEL settings))
    (models (model_manager p')) = Some h.
Proof.
  intros HK Hget.
  apply get_model_trace in Hget as [(Hm & _ & Hr)|(Hnone & Htr & _)].
  - destruct Hr as [(e & He)|(h' & Hh & Hr)]; [discriminate|].
    injection Hr as <-. now rewrite Hm.
  - inversion Htr as [| | |h' dims msl q _ _ _ _ Hm _]; subst.
    rewrite Hm. now apply get_after_insertion.
Qed.

Lemma get_model_or_default_returns settings self env env' mapped p
    model name p' :
  get_model_or_default settings self env env' mapped p
    = (Ok (model, name), p') ->
  (get_model settings env (Some mapped) p = (Ok model, p') /\ name = mapped)
  \/ (exists e p1,
        get_model settings env (Some mapped) p = (Raise e, p1) /\
        mapped <> default_model_name self /\
        get_model settings env' (Some (default_model_name self)) p1
          = (Ok model, p') /\
        name = default_model_name self).
Proof.
  unfold get_model_or_default, try_except, bind.
  destruct (get_model settings env (Some mapped) p) as [[m|e] p1] eqn:H1.
  - unfold ret. intros [= <- <- <-]. now left.
  - destruct (String.eqb_spec mapped (default_model_name self)) as [Heq|Hne];
      cbn [negb].
    + unfold raise. discriminate.
    + destruct (get_model settings env' (Some (default_model_name self)) p1)
        as [[m|e2] p2] eqn:H2.
      * unfold ret. intros [= <- <- <-]. right. eauto 8.
      * discriminate.
Qed.

(** X16.  With a capacity of at least 1, when [generate_embedding] returns
    a vector, the name it reports is the mapped name or the default name,
    the dimension it reports is the length of the vector, and the model
    that encoded the truncated text is the one the cache holds under the
    reported name afterwards. *)
Theorem embedding_comes_from_the_reported_model settings (F : Type)
    (encode_text : Handle -> bool -> string -> Result (list F))
    env env' text model_name normalize p v name d p' :
  let self := EmbeddingService_init settings in
  1 <= max_cache_size (model_manager p) ->
  generate_embedding settings encode_text self env env'
    text model_name normalize p
  = (Ok (v, name, d), p') ->
  (name = _map_model_name self model_name \/ name = EMBEDDING_MODEL settings) /\
  d = Z.of_nat (List.length v) /\
  exists h,
    PyDict.get (or_default (Some name) (EMBEDDING_MODEL settings))
      (models (model_manager p')) = Some h /\
    encode_text h normalize (truncate_text self text) = Ok v.
Proof.
  intros self HK Hres.
  destruct (get_model_or_default settings self env env'
              (_map_model_name self model_name) p) as [r q] eqn:Hgot.
  erewrite generate_embedding_after_get in Hres by exact Hgot.
  destruct r as [[model name']|e]; [|discriminate].
  unfold encoded_one in Hres.
  destruct (encode_text model normalize (truncate_text self text))
    as [v'|e] eqn:Henc; [|discriminate].
  injection Hres as <- <- <- <-.
  apply get_model_or_default_returns in Hgot
    as [[Hget ->]|(e & p1 & Hfail & Hne & Hget & ->)].
  - split; [now left|]. split; [reflexivity|].
    exists model. split; [|exact Henc].
    eapply get_model_cached_afterwards; eauto.
  - split; [now right|]. split; [reflexivity|].
    exists model. split; [|exact Henc].
    change (default_model_name self) with (EMBEDDING_MODEL settings) in *.
    eapply get_model_cached_afterwards; [|exact Hget].
    apply get_model_outcome in Hfail as [Hcap _]. now rewrite Hcap.
Qed.

Lemma embedding_comes_from_the_reported_model_witness :
  let settings := default_settings in
  let self := EmbeddingService_init settings in
  exists h,
    PyDict.get "all-MiniLM-L6-v2"
      (models (model_manager
                 (snd (generate_embedding settings encode_text_length self
                         provider_ok provider_ok "hello"
                         (Some "text-embedding-ada-002") false
                         (initial_process settings))))) = Some h /\
    encode_text_length h false "hello" = Ok [16; 5].
Proof.
  intros settings self.
  destruct (@embedding_comes_from_the_reported_model settings Z
              encode_text_length provider_ok provider_ok "hello"
              (Some "text-embedding-ada-002") false
              (initial_process settings) _ _ _ _
              ltac:(simpl; lia) eq_refl) as (_ & _ & h & Hh & Henc).
  exists h. split; [exact Hh | exact Henc].
Defined.

(** X17.  A request whose mapped model is cached loads nothing and leaves
    the process exactly as it was, whether the encoder then returns or
    raises: the result is the encoding by the cached model, under the
    mapped name. *)
Theorem request_for_cached_model_changes_nothing settings (F : Type)
    (encode_text : Handle -> bool -> string -> Result (list F))
    (encode_list : Handle -> bool -> Z -> list string -> Result (list (list F)))
    self env env' model_name normalize p h :
  let mapped := _map_model_name self model_name in
  imports_consistent p ->
  PyDict.get (or_default (Some mapped) (EMBEDDING_MODEL settings))
    (models (model_manager p)) = Some h ->
  (forall text,
     generate_embedding settings encode_text self env env'
       text model_name normalize p
     = (encoded_one encode_text h mapped normalize
          (truncate_text self text), p)) /\
  (forall texts, texts <> [] ->
     generate_embeddings_batch settings encode_list self env env'
       texts model_name normalize p
     = (encoded_many encode_list self h mapped normalize
          (map (truncate_text self) texts), p)).
Proof.
  intros mapped Hcons Hget.
  assert (Hgot : get_model_or_default settings self env env' mapped p
                 = (Ok (h, mapped), p)).
  { unfold get_model_or_default, try_except, bind.
    now rewrite (get_model_hit settings env (Some mapped) Hcons Hget). }
  split.
  - intros text.
    erewrite generate_embedding_after_get by exact Hgot. reflexivity.
  - intros texts Hne.
    erewrite generate_embeddings_batch_after_get by eassumption.
    reflexivity.
Qed.

Lemma request_for_cached_model_changes_nothing_witness :
  let settings := default_settings in
  let self := EmbeddingService_init settings in
  let p := snd (get_model settings provider_ok None
                  (initial_process settings)) in
  generate_embedding settings encode_text_length self
    provider_unknown_model provider_unknown_model
    "hello" (Some "text-embedding-3-small") true p
  = (Ok ([16; 5], "all-MiniLM-L6-v2", 2), p).
Proof.
  intros settings self p.
  destruct (@request_for_cached_model_changes_nothing settings Z
              encode_text_length encode_list_length self
              provider_unknown_model provider_unknown_model
              (Some "text-embedding-3-small") true p 16%nat
              ltac:(intros _; reflexivity) eq_refl) as [Hone _].
  rewrite (Hone "hello"). reflexivity.
Defined.

(** ** The embedding endpoints *)

Lemma dll_msg_contains_DLL original :
  PyStr.contains "DLL" (dll_msg original) = true.
Proof. reflexivity. Qed.

(** The first [get_model] of a process that has not imported [torch]. *)
Lemma get_model_when_torch_fails settings env model_name p m :
  models (model_manager p) = [] ->
  torch_imported p = false ->
  sentence_transformers_imported p = true
    \/ import_sentence_transformers env = None ->
  import_torch env = Some (OSError m) ->
  exists m' p1,
    get_model settings env model_name p = (Raise (OSError m'), p1) /\
    PyStr.contains "DLL" m' || PyStr.contains "c10.dll" m'
      = PyStr.contains "DLL" m || PyStr.contains "c10.dll" m /\
    models (model_manager p1) = [] /\
    torch_imported p1 = false /\
    sentence_transformers_imported p1 = true.
Proof.
  destruct p as [[ms info K dev] st t c]. cbn.
  intros -> -> Hst Htorch.
  unfold get_model, load_model, load_model_import_sentence_transformers,
    load_model_import_torch, lazy_import_sentence_transformers,
    lazy_import_torch, try_except, bind, get_state, modify, ret, raise.
  cbn -[PyStr.contains dll_msg].
  destruct st; cbn -[PyStr.contains dll_msg].
  - rewrite Htorch. cbn -[PyStr.contains dll_msg].
    destruct (PyStr.contains "DLL" m || PyStr.contains "c10.dll" m) eqn:Hdll.
    + exists (dll_msg m). eexists. split; [reflexivity|].
      rewrite dll_msg_contains_DLL. auto.
    + exists m. eexists. split; [reflexivity|]. auto.
  - destruct Hst as [Hst|Hst]; [discriminate|]. rewrite Hst.
    cbn -[PyStr.contains dll_msg]. rewrite Htorch.
    cbn -[PyStr.contains dll_msg].
    destruct (PyStr.contains "DLL" m || PyStr.contains "c10.dll" m) eqn:Hdll.
    + exists (dll_msg m). eexists. split; [reflexivity|].
      rewrite dll_msg_contains_DLL. auto.
    + exists m. eexists. split; [reflexivity|]. auto.
Qed.

Lemma get_model_or_default_when_torch_fails settings self env mapped p m :
  models (model_manager p) = [] ->
  torch_imported p = false ->
  sentence_transformers_imported p = true
    \/ import_sentence_transformers env = None ->
  import_torch env = Some (OSError m) ->
  exists m' p1,
    get_model_or_default settings self env env mapped p
      = (Raise (OSError m'), p1) /\
    PyStr.contains "DLL" m' || PyStr.contains "c10.dll" m'
      = PyStr.contains "DLL" m || PyStr.contains "c10.dll" m.
Proof.
  intros Hms Ht Hst Htorch.
  destruct (get_model_when_torch_fails settings env (Some mapped) p
              Hms Ht Hst Htorch)
    as (m1 & p1 & H1 & Hc1 & Hms1 & Ht1 & Hst1).
  unfold get_model_or_default, try_except, bind. rewrite H1.
  destruct (negb (String.eqb mapped (default_model_name self))).
  - destruct (get_model_when_torch_fails settings env
                (Some (default_model_name self)) p1
                Hms1 Ht1 (or_introl Hst1) Htorch)
      as (m2 & p2 & H2 & Hc2 & _).
    rewrite H2. eauto.
  - unfold raise. eauto.
Qed.

(** X18.  When [import torch] fails with an [OSError] in a process that
    has cached nothing, both embedding endpoints answer 503 if the
    message of the error names a DLL, and 500 otherwise, whatever model
    the request names. *)
Theorem endpoints_when_torch_cannot_be_imported settings (F : Type)
    (encode_text : Handle -> bool -> string -> Result (list F))
    (encode_list : Handle -> bool -> Z -> list string -> Result (list (list F)))
    env p m :
  models (model_manager p) = [] ->
  torch_imported p = false ->
  sentence_transformers_imported p = true
    \/ import_sentence_transformers env = None ->
  import_torch env = Some (OSError m) ->
  let status :=
    if PyStr.contains "DLL" m || PyStr.contains "c10.dll" m
    then 503 else 500 in
  (forall request,
     status_of (fst (route_generate_embedding settings encode_text
                       env env request p)) = status) /\
  (forall request, batch_request_texts request <> [] ->
     status_of (fst (route_generate_embeddings_batch settings encode_list
                       env env request p)) = status).
Proof.
  intros Hms Ht Hst Htorch status. split.
  - intros request. unfold route_generate_embedding.
    destruct (get_model_or_default_when_torch_fails settings
                (EmbeddingService_init settings) env
                (_map_model_name (EmbeddingService_init settings)
                   (request_model request)) p Hms Ht Hst Htorch)
      as (m' & p1 & Hgot & Hc).
    erewrite generate_embedding_after_get by exact Hgot.
    unfold embedding_exception, str, status. cbn [fst]. rewrite Hc.
    destruct (_ || _); reflexivity.
  - intros request Hne. unfold route_generate_embeddings_batch.
    destruct (get_model_or_default_when_torch_fails settings
                (EmbeddingService_init settings) env
                (_map_model_name (EmbeddingService_init settings)
                   (batch_request_model request)) p Hms Ht Hst Htorch)
      as (m' & p1 & Hgot & Hc).
    erewrite generate_embeddings_batch_after_get by eassumption.
    unfold embedding_exception, str, status. cbn [fst]. rewrite Hc.
    destruct (_ || _); reflexivity.
Qed.

Lemma endpoints_when_torch_cannot_be_imported_witness :
  status_of (fst (route_generate_embedding default_settings
                    encode_text_length provider_dll_error provider_dll_error
                    {| request_text := "hello";
                       request_model := None;
                       request_normalize := false |}
                    (initial_process default_settings))) = 503.
Proof.
  destruct (@endpoints_when_torch_cannot_be_imported default_settings Z
              encode_text_length encode_list_length provider_dll_error
              (initial_process default_settings)
              "[WinError 126] c10.dll not found"
              eq_refl eq_refl (or_intror eq_refl) eq_refl) as [Hone _].
  exact (Hone {| request_text := "hello"; request_model := None;
                 request_normalize := false |}).
Defined.

(** The first [get_model] of a process that cannot import
    [sentence_transformers]: the import of line 30 raises before the
    cache is looked at, and before [load_model] words its own message. *)
Lemma get_model_when_not_installed settings env model_name p e :
  sentence_transformers_imported p = false ->
  import_sentence_transformers env = Some e ->
  get_model settings env model_name p = (Raise e, p).
Proof.
  destruct p as [mm st t c]. cbn. intros -> Himp.
  unfold get_model, lazy_import_sentence_transformers, bind, get_state,
    raise.
  cbn. rewrite Himp. reflexivity.
Qed.

(** X19.  When [sentence_transformers] cannot be imported, both embedding
    endpoints answer 500, with the text of the [ImportError] of the
    interpreter in the detail: not 503, and not the sentence that
    [load_model] words for a missing package, which [get_model] never
    reaches. *)
Theorem endpoints_when_package_is_missing settings (F : Type)
    (encode_text : Handle -> bool -> string -> Result (list F))
    (encode_list : Handle -> bool -> Z -> list string -> Result (list (list F)))
    env p msg :
  sentence_transformers_imported p = false ->
  import_sentence_transformers env = Some (ImportError msg) ->
  (forall request,
     route_generate_embedding settings encode_text env env request p
     = (HTTPException 500 ("Failed to generate embedding: " ++ msg), p)) /\
  (forall request, batch_request_texts request <> [] ->
     route_generate_embeddings_batch settings encode_list env env request p
     = (HTTPException 500 ("Failed to generate embeddings: " ++ msg), p)).
Proof.
  intros Hst Himp.
  assert (Hgot : forall self mapped,
             get_model_or_default settings self env env mapped p
             = (Raise (ImportError msg), p)).
  { intros self mapped. unfold get_model_or_default, try_except, bind.
    rewrite (get_model_when_not_installed settings env (Some mapped) p
               Hst Himp).
    destruct (negb _); [|reflexivity].
    now rewrite (get_model_when_not_installed settings env
                   (Some (default_model_name self)) p Hst Himp). }
  split.
  - intros request. unfold route_generate_embedding.
    erewrite generate_embedding_after_get by apply Hgot. reflexivity.
  - intros request Hne. unfold route_generate_embeddings_batch.
    erewrite generate_embeddings_batch_after_get;
      [|exact Hne|apply Hgot].
    reflexivity.
Qed.

Lemma endpoints_when_package_is_missing_witness :
  route_generate_embedding default_settings encode_text_length
    provider_not_installed provider_not_installed
    {| request_text := "hello"; request_model := Some "text-embedding";
       request_normalize := false |}
    (initial_process default_settings)
  = (HTTPException 500
       ("Failed to generate embedding: "
        ++ "No module named 'sentence_transformers'"),
     initial_process default_settings).
Proof.
  destruct (@endpoints_when_package_is_missing default_settings Z
              encode_text_length encode_list_length provider_not_installed
              (initial_process default_settings)
              "No module named 'sentence_transformers'"
              eq_refl eq_refl) as [Hone _].
  apply Hone.
Defined.

Lemma truncate_text_take self text :
  0 <= max_text_length self ->
  truncate_text self text
  = PyStr.take (Z.to_nat (Z.min (PyStr.len text) (max_text_length self))) text.
Proof.
  intros Hmax. rewrite truncate_text_spec by assumption.
  unfold spec_truncate, PyStr.len.
  destruct (Z.gtb_spec (Z.of_nat (String.length text)) (max_text_length self))
    as [Hgt|Hle].
  - now rewrite Z.min_r by lia.
  - rewrite Z.min_l by lia. rewrite Nat2Z.id. symmetry. now apply take_all.
Qed.

(** X20.  When the single-text endpoint answers with an embedding and
    [MAX_TEXT_LENGTH] is not negative, the [text_length] of the response
    is the length of the whole text of the request, while the embedding
    is the encoding of its first [MAX_TEXT_LENGTH] characters only (of all
    of it when it is shorter); the [dimensions] are the length of the
    embedding. *)
Theorem endpoint_reports_untruncated_length settings (F : Type)
    (encode_text : Handle -> bool -> string -> Result (list F))
    env env' request p body p' :
  0 <= MAX_TEXT_LENGTH settings ->
  route_generate_embedding settings encode_text env env' request p
    = (Respond body, p') ->
  response_text_length body = PyStr.len (request_text request) /\
  response_dimensions body = Z.of_nat (List.length (response_embedding body)) /\
  exists h,
    encode_text h (request_normalize request)
      (PyStr.take
         (Z.to_nat (Z.min (PyStr.len (request_text request))
                      (MAX_TEXT_LENGTH settings)))
         (request_text request))
    = Ok (response_embedding body).
Proof.
  intros Hmax. unfold route_generate_embedding.
  set (self := EmbeddingService_init settings).
  destruct (get_model_or_default settings self env env'
              (_map_model_name self (request_model request)) p)
    as [r q] eqn:Hgot.
  erewrite generate_embedding_after_get by exact Hgot.
  destruct r as [[model name]|e].
  - unfold encoded_one.
    rewrite (truncate_text_take self (request_text request) Hmax).
    change (max_text_length self) with (MAX_TEXT_LENGTH settings).
    destruct (encode_text model (request_normalize request) _)
      as [v|e] eqn:Henc.
    + intros [= <- <-]. cbn. repeat split. eauto.
    + unfold embedding_exception.
      destruct e; try discriminate; destruct (_ || _); discriminate.
  - unfold embedding_exception.
    destruct e; try discriminate; destruct (_ || _); discriminate.
Qed.

Lemma endpoint_reports_untruncated_length_witness :
  let settings := with_max_text_length 3 default_settings in
  exists body p',
    route_generate_embedding settings encode_text_length
      provider_ok provider_ok
      {| request_text := "hello"; request_model := None;
         request_normalize := false |}
      (initial_process settings)
    = (Respond body, p') /\
    response_text_length body = 5 /\
    response_embedding body = embed_length 16%nat false "hel".
Proof.
  intros settings.
  destruct (route_generate_embedding settings encode_text_length
              provider_ok provider_ok
              {| request_text := "hello"; request_model := None;
                 request_normalize := false |}
              (initial_process settings)) as [[body|code detail] p'] eqn:H;
    [|vm_compute in H; discriminate].
  exists body, p'. split; [reflexivity|].
  destruct (@endpoint_reports_untruncated_length settings Z
              encode_text_length provider_ok provider_ok _ _ body p'
              ltac:(simpl; lia) H) as (Hlen & _ & h & Henc).
  split; [exact Hlen|].
  vm_compute in H. injection H as <- _. reflexivity.
Defined.

(** X21.  With [BATCH_SIZE = 0] the batch endpoint answers 400 to every
    request whose model was got, as if the request were at fault; with a
    negative [BATCH_SIZE] it answers with no embedding at all, a count of
    0 and a dimension of 0. *)
Theorem batch_endpoint_with_no_positive_batch_size settings (F : Type)
    (encode_list : Handle -> bool -> Z -> list string -> Result (list (list F)))
    env env' request p model name p' :
  let self := EmbeddingService_init settings in
  batch_request_texts request <> [] ->
  get_model_or_default settings self env env'
    (_map_model_name self (batch_request_model request)) p
    = (Ok (model, name), p') ->
  (BATCH_SIZE settings = 0 ->
   route_generate_embeddings_batch settings encode_list env env' request p
   = (HTTPException 400 "range() arg 3 must not be zero", p')) /\
  (BATCH_SIZE settings < 0 ->
   route_generate_embeddings_batch settings encode_list env env' request p
   = (Respond {| response_embeddings := [];
                 batch_response_model := name;
                 batch_response_dimensions := 0;
                 response_count := 0 |}, p')).
Proof.
  intros self Hne Hgot. unfold route_generate_embeddings_batch.
  erewrite generate_embeddings_batch_after_get by eassumption.
  split; intros Hbs.
  - now rewrite encoded_many_batch_size_zero.
  - now rewrite encoded_many_batch_size_negative.
Qed.

Lemma batch_endpoint_with_no_positive_batch_size_witness :
  let settings := with_batch_size 0 default_settings in
  fst (route_generate_embeddings_batch settings encode_list_length
         provider_ok provider_ok
         {| batch_request_texts := ["a"; "b"];
            batch_request_model := None;
            batch_request_normalize := false |}
         (initial_process settings))
  = HTTPException 400 "range() arg 3 must not be zero".
Proof.
  intros settings.
  destruct (@batch_endpoint_with_no_positive_batch_size settings Z
              encode_list_length provider_ok provider_ok
              {| batch_request_texts := ["a"; "b"];
                 batch_request_model := None;
                 batch_request_normalize := false |}
              (initial_process settings) _ _ _
              ltac:(discriminate) eq_refl) as [Hzero _].
  rewrite Hzero by reflexivity. reflexivity.
Defined.


(** ** The health endpoints *)

Lemma or_default_default d : or_default (Some d) d = d.
Proof. unfold or_default. destruct (PyStr.truthy d); reflexivity. Qed.

(** X23.  [health_check] never fails: whatever the provider does, it
    answers with the status ["healthy"] and the configured device.  It is
    not a passive probe: it leaves the process as a [get_model] of the
    default model leaves it, loading the model on a miss.  A model that
    it reports is in the cache. *)
Theorem health_check_always_healthy settings version env p :
  metadata_cached p ->
  let (r, p') := health_check settings version env p in
  p' = snd (get_model settings env None p) /\
  exists body,
    r = Respond body /\
    health_status body = "healthy" /\
    health_device body = DEVICE settings /\
    forall info, health_model body = Some info ->
      PyDict.mem (EMBEDDING_MODEL settings) (models (model_manager p')) = true.
Proof.
  intros Hcached. unfold health_check.
  pose proof (get_model_metadata_cached settings env None Hcached) as Hc'.
  destruct (get_model settings env None p) as [[h|e] q]; cbn [snd] in *.
  - split; [reflexivity|]. eexists. split; [reflexivity|].
    cbn. repeat split. intros info Hinfo.
    apply Hc'. apply mem_get. unfold get_model_info in Hinfo.
    rewrite or_default_default in Hinfo. eauto.
  - split; [reflexivity|]. eexists. split; [reflexivity|].
    cbn. repeat split. discriminate.
Qed.

Lemma health_check_always_healthy_witness :
  let (r, p') := health_check default_settings "1.0.0" provider_unknown_model
                   (initial_process default_settings) in
  p' = snd (get_model default_settings provider_unknown_model None
              (initial_process default_settings)) /\
  exists body,
    r = Respond body /\
    health_status body = "healthy" /\
    health_device body = DEVICE default_settings /\
    forall info, health_model body = Some info ->
      PyDict.mem (EMBEDDING_MODEL default_settings)
        (models (model_manager p')) = true.
Proof.
  apply (@health_check_always_healthy default_settings "1.0.0"
           provider_unknown_model (initial_process default_settings)).
  intros k. cbn. discriminate.
Defined.

(** X24.  A default model that is cached without metadata, as a load that
    raised in a metadata query leaves it, makes [readiness_check] answer
    503 although [get_model] returns the model; the check changes
    nothing, so it answers 503 every time until the model is unloaded or
    evicted. *)
Theorem readiness_fails_for_model_without_metadata
    settings version str_HTTPException env p h :
  imports_consistent p ->
  PyDict.get (EMBEDDING_MODEL settings) (models (model_manager p)) = Some h ->
  PyDict.get (EMBEDDING_MODEL settings) (model_info (model_manager p)) = None ->
  get_model settings env None p = (Ok h, p) /\
  readiness_check settings version str_HTTPException env p
  = (HTTPException 503
       ("Service not ready: " ++ str_HTTPException 503 "Model not loaded"),
     p).
Proof.
  intros Hcons Hget Hinfo.
  assert (Hhit : get_model settings env None p = (Ok h, p))
    by (apply get_model_hit; assumption).
  split; [exact Hhit|].
  unfold readiness_check. rewrite Hhit.
  unfold get_model_info. rewrite or_default_default, Hinfo. reflexivity.
Qed.

Lemma readiness_fails_for_model_without_metadata_witness :
  let p := snd (load_model provider_broken_metadata "all-MiniLM-L6-v2"
                  (initial_process default_settings)) in
  get_model default_settings provider_ok None p = (Ok 16%nat, p) /\
  readiness_check default_settings "1.0.0"
    (fun code detail => detail) provider_ok p
  = (HTTPException 503 ("Service not ready: " ++ "Model not loaded"), p).
Proof.
  intros p.
  apply (@readiness_fails_for_model_without_metadata default_settings
           "1.0.0" (fun code detail => detail) provider_ok p 16%nat).
  - intros _. reflexivity.
  - reflexivity.
  - reflexivity.
Defined.

(** X25.  With a capacity of 0 or less and an empty cache,
    [readiness_check] answers 503 whatever the provider does, even when
    the model loads, and leaves the cache empty: the service is never
    ready. *)
Theorem readiness_never_ready_without_capacity
    settings version str_HTTPException env p :
  max_cache_size (model_manager p) <= 0 ->
  metadata_total env ->
  models (model_manager p) = [] ->
  model_info (model_manager p) = [] ->
  let (r, p') := readiness_check settings version str_HTTPException env p in
  status_of r = 503 /\
  models (model_manager p') = [] /\
  model_info (model_manager p') = [] /\
  max_cache_size (model_manager p') <= 0.
Proof.
  intros HK Htotal Hms Hinfo. unfold readiness_check.
  pose proof (@get_model_without_capacity settings env None p
                HK Htotal Hms Hinfo) as Hstep.
  destruct (get_model settings env None p) as [[h|e] q].
  - destruct Hstep as (Hms' & Hinfo' & Hcap & _).
    unfold get_model_info. rewrite Hinfo'. cbn.
    repeat split; auto. lia.
  - destruct Hstep as (Hms' & Hinfo' & Hcap & _).
    cbn. repeat split; auto. lia.
Qed.

Lemma readiness_never_ready_without_capacity_witness :
  let settings := with_cache_size 0 default_settings in
  let (r, p') := readiness_check settings "1.0.0" (fun code detail => detail)
                   provider_ok (initial_process settings) in
  status_of r = 503 /\
  models (model_manager p') = [] /\
  model_info (model_manager p') = [] /\
  max_cache_size (model_manager p') <= 0.
Proof.
  intros settings.
  apply (@readiness_never_ready_without_capacity settings "1.0.0"
           (fun code detail => detail) provider_ok (initial_process settings)).
  - simpl. lia.
  - intros h. split; reflexivity.
  - reflexivity.
  - reflexivity.
Defined.





(** ** The validators of the requests *)

Lemma validate_texts_loop_ok texts :
  validate_texts_loop 5000 texts = Ok tt <->
  Forall (fun text => PyStr.len text <= 5000) texts.
Proof.
  induction texts as [|t texts IH]; simpl.
  - split; auto.
  - destruct (Z.gtb_spec (PyStr.len t) 5000) as [Hgt|Hle].
    + split; [discriminate|]. intros H. inversion H; subst. lia.
    + rewrite IH. split.
      * now constructor.
      * intros H. now inversion H.
Qed.

(** X27.  [validate_texts] returns the list it was given, unchanged,
    exactly when the list is not empty and no text has more than 5000
    characters, and [validate_text_length] returns its text exactly when
    it has no more than 5000 characters; in every other case they raise
    [ValueError]. *)
Theorem validators_accept v text :
  (validate_texts v = Ok v <->
   v <> [] /\ Forall (fun t => PyStr.len t <= 5000) v) /\
  (validate_texts v = Ok v
   \/ exists msg, validate_texts v = Raise (ValueError msg)) /\
  (validate_text_length text = Ok text <-> PyStr.len text <= 5000) /\
  (validate_text_length text = Ok text
   \/ exists msg, validate_text_length text = Raise (ValueError msg)).
Proof.
  split; [|split; [|split]].
  - destruct v as [|t v]; simpl.
    + split; [discriminate|]. intros [H _]. congruence.
    + change (if PyStr.len t >? 5000
              then Raise (ValueError "Text length exceeds maximum of 5000 characters")
              else validate_texts_loop 5000 v)
        with (validate_texts_loop 5000 (t :: v)).
      destruct (validate_texts_loop 5000 (t :: v)) as [[]|e] eqn:Hloop.
      * apply validate_texts_loop_ok in Hloop.
        split; [|reflexivity]. intros _. split; [discriminate | exact Hloop].
      * split; [discriminate|]. intros [_ H].
        apply validate_texts_loop_ok in H. congruence.
  - destruct v as [|t v]; simpl; [eauto|].
    change (if PyStr.len t >? 5000
            then Raise (ValueError "Text length exceeds maximum of 5000 characters")
            else validate_texts_loop 5000 v)
      with (validate_texts_loop 5000 (t :: v)).
    assert (Hraise : forall l e, validate_texts_loop 5000 l = Raise e ->
                       exists msg, e = ValueError msg).
    { induction l as [|x l IH]; simpl; intros e He; [discriminate|].
      destruct (PyStr.len x >? 5000); [injection He as <-; eauto|].
      now apply IH. }
    destruct (validate_texts_loop 5000 (t :: v)) as [[]|e] eqn:Hloop.
    + now left.
    + right. destruct (Hraise _ _ Hloop) as [msg ->]. eauto.
  - unfold validate_text_length.
    destruct (Z.gtb_spec (PyStr.len text) 5000); split;
      try discriminate; try reflexivity; lia.
  - unfold validate_text_length.
    destruct (PyStr.len text >? 5000); eauto.
Qed.

(** ** Lists of names in the settings *)

Lemma split_not_nil sep s : split sep s <> [].
Proof.
  destruct s as [|c s]; simpl; [discriminate|].
  destruct (Ascii.eqb c sep); [discriminate|].
  destruct (split sep s); discriminate.
Qed.

Lemma split_has_no_sep sep s :
  Forall (fun piece => has_char sep piece = false) (split sep s).
Proof.
  induction s as [|c s IH]; simpl.
  - repeat constructor.
  - destruct (Ascii.eqb c sep) eqn:Hc.
    + constructor; [reflexivity | exact IH].
    + destruct (split sep s) as [|piece pieces].
      * constructor; [simpl; now rewrite Hc | constructor].
      * inversion IH; subst. constructor; [|assumption].
        simpl. now rewrite Hc.
Qed.

Lemma lstrip_no_char a s : has_char a s = false -> has_char a (lstrip s) = false.
Proof.
  induction s as [|c s IH]; simpl; intros H; [reflexivity|].
  apply orb_false_iff in H as [Hc Hs].
  destruct (is_space c); [now apply IH|].
  simpl. now rewrite Hc, Hs.
Qed.

Lemma rstrip_no_char a s : has_char a s = false -> has_char a (rstrip s) = false.
Proof.
  induction s as [|c s IH]; simpl; intros H; [reflexivity|].
  apply orb_false_iff in H as [Hc Hs]. specialize (IH Hs).
  destruct (rstrip s) as [|d r].
  - destruct (is_space c); simpl; [reflexivity | now rewrite Hc].
  - simpl in *. now rewrite Hc, IH.
Qed.

Lemma contains_char a s : PyStr.contains (String a EmptyString) s = has_char a s.
Proof.
  induction s as [|c s IH]; simpl; [reflexivity|].
  rewrite IH. f_equal.
  destruct (Ascii.eqb_spec c a) as [->|Hne].
  - destruct (ascii_dec a a); [|contradiction]. now destruct s.
  - destruct (ascii_dec a c); [congruence | reflexivity].
Qed.

Lemma rstrip_idempotent s : rstrip (rstrip s) = rstrip s.
Proof.
  induction s as [|c s IH]; simpl; [reflexivity|].
  destruct (rstrip s) as [|d r] eqn:Hr.
  - destruct (is_space c) eqn:Hc; simpl; [reflexivity | now rewrite Hc].
  - simpl in IH |- *. now rewrite IH.
Qed.

Lemma rstrip_keeps_first c s :
  is_space c = false -> rstrip (String c s) = String c (rstrip s).
Proof. intros Hc. simpl. rewrite Hc. now destruct (rstrip s). Qed.

Lemma lstrip_first s :
  lstrip s = EmptyString \/
  exists c s', lstrip s = String c s' /\ is_space c = false.
Proof.
  induction s as [|c s IH]; simpl; [now left|].
  destruct (is_space c) eqn:Hc; [exact IH|]. right. eauto.
Qed.

Lemma strip_idempotent s : strip (strip s) = strip s.
Proof.
  unfold strip. destruct (lstrip_first s) as [->|(c & s' & -> & Hc)].
  - reflexivity.
  - rewrite rstrip_keeps_first by assumption. simpl lstrip. rewrite Hc.
    rewrite <- rstrip_keeps_first by assumption. apply rstrip_idempotent.
Qed.

(** X28.  [supported_models_list] is never empty, even for an empty
    setting, and each of its names has no comma in it and no white space
    around it: stripping it again gives the name itself. *)
Theorem supported_models_list_shape settings :
  supported_models_list settings <> [] /\
  Forall (fun m => PyStr.contains "," m = false /\ strip m = m)
    (supported_models_list settings).
Proof.
  unfold supported_models_list. split.
  - pose proof (split_not_nil comma (SUPPORTED_MODELS settings)) as H.
    destruct (split comma (SUPPORTED_MODELS settings)); [congruence|].
    discriminate.
  - apply Forall_map.
    pose proof (split_has_no_sep comma (SUPPORTED_MODELS settings)) as H.
    induction H as [|piece pieces Hpiece _ IH]; constructor; [|exact IH].
    split.
    + change "," with (String comma EmptyString). rewrite contains_char.
      unfold strip. now apply rstrip_no_char, lstrip_no_char.
    + apply strip_idempotent.
Qed.

(** X29.  The origins that [setup_cors] allows are never an empty list.
    In production the wildcard origin is among them only if an operator
    wrote it: in [CORS_ORIGINS] as an entry of a list, or as
    [FRONTEND_URL].  Outside production the setting ["*"] allows every
    origin. *)
Theorem allowed_origins_shape settings frontend_url :
  allowed_origins settings frontend_url <> [] /\
  (ENVIRONMENT settings = "production" ->
   In "*" (allowed_origins settings frontend_url) ->
   CORS_ORIGINS settings <> "*" \/ frontend_url = Some "*") /\
  (ENVIRONMENT settings <> "production" ->
   CORS_ORIGINS settings = "*" ->
   allowed_origins settings frontend_url = ["*"]).
Proof.
  unfold allowed_origins.
  destruct (String.eqb_spec (CORS_ORIGINS settings) "*") as [Hcors|Hcors];
    cbn [negb].
  - destruct (String.eqb_spec (ENVIRONMENT settings) "production")
      as [Henv|Henv].
    + split; [discriminate|]. split; [|contradiction].
      intros _ [Hin|[]]. right.
      destruct frontend_url as [url|]; [now subst | discriminate].
    + split; [discriminate|]. split; [contradiction | reflexivity].
  - split; [|split; [auto | contradiction]].
    pose proof (split_not_nil comma (CORS_ORIGINS settings)) as H.
    destruct (split comma (CORS_ORIGINS settings)); [congruence|].
    discriminate.
Qed.

Lemma allowed_origins_shape_witness :
  let settings :=
    {| service_settings := default_settings;
       ENVIRONMENT := "staging";
       SUPPORTED_MODELS := "all-MiniLM-L6-v2";
       CORS_ORIGINS := "*" |} in
  allowed_origins settings None = ["*"].
Proof.
  intros settings.
  destruct (allowed_origins_shape settings None) as (_ & _ & H).
  apply H; [discriminate | reflexivity].
Defined.

(** ** The metadata of the reported model *)

Lemma get_model_metadata_complete settings env model_name p :
  metadata_total env -> metadata_complete p ->
  metadata_complete (snd (get_model settings env model_name p)).
Proof.
  intros Htotal Hp.
  exact (@step_metadata_complete settings (OpGetModel env model_name) p
           Htotal Hp).
Qed.

(** X30.  The name that [generate_embedding] reports can be given back to
    [EmbeddingService.get_model_info]: with a capacity of at least 1,
    model objects that answer their metadata queries and a cache whose
    models all have metadata, the metadata of the reported name is
    found after the call, also when the request named the model by a
    foreign name. *)
Theorem reported_model_has_metadata settings (F : Type)
    (encode_text : Handle -> bool -> string -> Result (list F))
    env env' text model_name normalize p v name d p' :
  let self := EmbeddingService_init settings in
  1 <= max_cache_size (model_manager p) ->
  metadata_complete p ->
  metadata_total env -> metadata_total env' ->
  generate_embedding settings encode_text self env env'
    text model_name normalize p
  = (Ok (v, name, d), p') ->
  exists info,
    EmbeddingService_get_model_info settings self (Some name) p' = Some info.
Proof.
  intros self HK Hcomplete Htotal Htotal' Hres.
  destruct (get_model_or_default settings self env env'
              (_map_model_name self model_name) p) as [r q] eqn:Hgot.
  erewrite generate_embedding_after_get in Hres by exact Hgot.
  destruct r as [[model name']|e]; [|discriminate].
  unfold encoded_one in Hres.
  destruct (encode_text model normalize (truncate_text self text))
    as [v'|e]; [|discriminate].
  injection Hres as <- <- <- <-.
  assert (Hcached : exists h,
             PyDict.get (or_default (Some name') (EMBEDDING_MODEL settings))
               (models (model_manager q)) = Some h /\
             metadata_complete q).
  { apply get_model_or_default_returns in Hgot
      as [[Hget ->]|(e & p1 & Hfail & Hne & Hget & ->)].
    - exists model. split.
      + eapply get_model_cached_afterwards; eauto.
      + pose proof (get_model_metadata_complete settings
                      (Some (_map_model_name self model_name))
                      Htotal Hcomplete) as H.
        now rewrite Hget in H.
    - change (default_model_name self) with (EMBEDDING_MODEL settings) in *.
      pose proof (get_model_metadata_complete settings
                    (Some (_map_model_name self model_name))
                    Htotal Hcomplete) as H1.
      rewrite Hfail in H1. cbn [snd] in H1.
      exists model. split.
      + eapply get_model_cached_afterwards; [|exact Hget].
        apply get_model_outcome in Hfail as [Hcap _]. now rewrite Hcap.
      + pose proof (get_model_metadata_complete settings
                      (Some (EMBEDDING_MODEL settings)) Htotal' H1) as H2.
        now rewrite Hget in H2. }
  destruct Hcached as (h & Hh & Hq).
  unfold EmbeddingService_get_model_info, get_model_info.
  change (default_model_name self) with (EMBEDDING_MODEL settings).
  rewrite or_default_idem. apply mem_get.
  rewrite (mem_keys_congr _ _ (models (model_manager q)) Hq).
  apply mem_get. eauto.
Qed.

Lemma reported_model_has_metadata_witness :
  let settings := default_settings in
  let self := EmbeddingService_init settings in
  exists info,
    EmbeddingService_get_model_info settings self (Some "all-MiniLM-L6-v2")
      (snd (generate_embedding settings encode_text_length self
              provider_ok provider_ok "hello"
              (Some "text-embedding-3-small") false
              (initial_process settings)))
    = Some info.
Proof.
  intros settings self.
  apply (@reported_model_has_metadata settings Z encode_text_length
           provider_ok provider_ok "hello" (Some "text-embedding-3-small")
           false (initial_process settings) [16; 5] "all-MiniLM-L6-v2" 2).
  - simpl. lia.
  - reflexivity.
  - intros h. split; reflexivity.
  - intros h. split; reflexivity.
  - reflexivity.
Defined.
